(** * Map rendering of the GIST pipeline: emission lines and stellar kinematics

    A shallow embedding of [gistModules/gistPlot_gandalf.py] (functions
    [plot_line] and [plot_maps]) and of [plotting/gistPlot_kin.py]
    (function [plotMaps]), followed by the properties of the rendering core:
    bin expansion, quality filtering, range calibration, rasterization and
    the accept/reject loop.

    Conventions of the embedding.
    - A NumPy double is a rational or the missing marker [NaN]; the rounding
      error and the infinities of IEEE arithmetic are outside the model.
    - A one-dimensional array is a list, a two-dimensional array a list of
      rows.
    - A Python exception is a constructor of [exn]; code that may raise
      returns a [result]. A run that is handed an infinity at a prompt is
      cut there with the marker [NotRepresented], which is no exception of
      Python.
    - Console input is a list of lines still to be read; what the code
      prompts, prints, shows and saves is a list of [event]s. *)

From Stdlib Require Import ZArith QArith Qround Ascii DecimalString Sorted Lia Lqa.
From stdpp Require Import base list strings sets.
Import ListNotations.

Open Scope Z_scope.

Set Warnings "-clear-no-such-hyp".

(* ================================================================== *)
(** * Python values and exceptions *)

Inductive float : Type :=
| NaN
| Fin (q : Q).

Inductive exn : Type :=
| NameError (name : string)
| UnboundLocalError (name : string)
| FileNotFoundError (file : string)
| ValueError (what : string)
| IndexError (what : string)
| OverflowError
| TypeError (what : string)
| EOFError
| SystemExit (code : Z)
| NotRepresented (value : string).

Inductive result (A : Type) : Type :=
| Ok (a : A)
| Raise (e : exn).

Arguments Ok {A} a.
Arguments Raise {A} e.

#[global] Instance result_ret : MRet result := fun A a => Ok a.

#[global] Instance result_bind : MBind result := fun A B k r =>
  match r with
  | Ok a => k a
  | Raise e => Raise e
  end.

#[global] Instance result_fmap : FMap result := fun A B f r =>
  match r with
  | Ok a => Ok (f a)
  | Raise e => Raise e
  end.

(** [UnboundLocalError] is a subclass of [NameError]: an [except NameError]
    clause catches both. *)
Definition is_NameError (e : exn) : bool :=
  match e with
  | NameError _ | UnboundLocalError _ => true
  | _ => false
  end.

(* ================================================================== *)
(** * Doubles *)

Definition isnan (x : float) : bool :=
  match x with NaN => true | Fin _ => false end.

(** [x < y] and [x == y] on doubles: every comparison with [NaN] is false. *)
Definition flt (x y : float) : bool :=
  match x, y with
  | Fin a, Fin b => match (a ?= b)%Q with Lt => true | _ => false end
  | _, _ => false
  end.

Definition feq (x y : float) : bool :=
  match x, y with
  | Fin a, Fin b => Qeq_bool a b
  | _, _ => false
  end.

Definition fsub (x y : float) : float :=
  match x, y with
  | Fin a, Fin b => Fin (a - b)
  | _, _ => NaN
  end.

Definition fadd (x y : float) : float :=
  match x, y with
  | Fin a, Fin b => Fin (a + b)
  | _, _ => NaN
  end.

Definition fneg (x : float) : float :=
  match x with Fin a => Fin (- a) | NaN => NaN end.

(** The sentinel the fitting stage writes where no fit was attempted. *)
Definition sentinel : float := Fin (-1).

(** [np.round]: to the nearest integer, ties to the even one. *)
Definition np_round (q : Q) : Z :=
  let f := Qfloor q in
  match (q - inject_Z f ?= 1 # 2)%Q with
  | Lt => f
  | Gt => f + 1
  | Eq => if Z.even f then f else f + 1
  end.

(** [int(np.round(num / den) + 1)], as both renderers compute the number of
    pixels. A zero [den] makes the quotient infinite, or [nan] when [num] is
    zero too, and [int] refuses both. *)
Definition npixels_of (num : float) (den : Q) : result Z :=
  match num with
  | NaN => Raise (ValueError "cannot convert float NaN to integer")
  | Fin a =>
      if Qeq_bool den 0 then
        if Qeq_bool a 0
        then Raise (ValueError "cannot convert float NaN to integer")
        else Raise OverflowError
      else Ok (np_round (a / den) + 1)
  end.

(** [np.array(np.round(num / den), dtype=np.int)] on one entry. The cast of
    a non-finite double to a 64-bit integer yields the least one. *)
Definition int64_min : Z := - 2 ^ 63.

Definition index_of (num : float) (den : Q) : Z :=
  match num with
  | NaN => int64_min
  | Fin a => if Qeq_bool den 0 then int64_min else np_round (a / den)
  end.

(* ================================================================== *)
(** * NumPy on one-dimensional arrays *)

(** The entries of an array that are not [NaN]. *)
Fixpoint valid (l : list float) : list Q :=
  match l with
  | [] => []
  | NaN :: t => valid t
  | Fin q :: t => q :: valid t
  end.

Definition Qmin' (a b : Q) : Q := if Qle_bool a b then a else b.
Definition Qmax' (a b : Q) : Q := if Qle_bool a b then b else a.

Definition min_list (l : list Q) : float :=
  match l with
  | [] => NaN
  | q :: t => Fin (fold_left Qmin' t q)
  end.

Definition max_list (l : list Q) : float :=
  match l with
  | [] => NaN
  | q :: t => Fin (fold_left Qmax' t q)
  end.

(** [np.nanmin], [np.nanmax]: an empty array is refused, an array with no
    valid entry gives [nan] (with a warning the modules silence). *)
Definition nanmin (l : list float) : result float :=
  match l with
  | [] => Raise (ValueError "zero-size array to reduction operation")
  | _ => Ok (min_list (valid l))
  end.

Definition nanmax (l : list float) : result float :=
  match l with
  | [] => Raise (ValueError "zero-size array to reduction operation")
  | _ => Ok (max_list (valid l))
  end.

(** Sorting, for the median. *)
Fixpoint insert_sorted (x : Q) (l : list Q) : list Q :=
  match l with
  | [] => [x]
  | y :: t => if Qle_bool x y then x :: l else y :: insert_sorted x t
  end.

Fixpoint sort (l : list Q) : list Q :=
  match l with
  | [] => []
  | x :: t => insert_sorted x (sort t)
  end.

(** The median of a list of rationals: the middle entry of the sorted list,
    or the mean of the two middle ones. *)
Definition median (l : list Q) : float :=
  let s := sort l in
  let n := length s in
  match n with
  | O => NaN
  | _ =>
      if Nat.even n
      then Fin ((nth (n / 2 - 1)%nat s 0%Q + nth (n / 2)%nat s 0%Q) / 2)
      else Fin (nth (n / 2)%nat s 0%Q)
  end.

(** [np.nanmedian] of a flat array; [nan] when nothing is valid. *)
Definition nanmedian (l : list float) : float := median (valid l).

(** [np.where(mask)[0]] on a one-dimensional mask: the indices set. *)
Fixpoint where_from (i : nat) (mask : list bool) : list nat :=
  match mask with
  | [] => []
  | b :: t => if b then i :: where_from (S i) t else where_from (S i) t
  end.

Definition np_where (mask : list bool) : list nat := where_from 0 mask.

(** [np.unique] on integers: sorted, without repetition. *)
Fixpoint insert_unique (x : Z) (l : list Z) : list Z :=
  match l with
  | [] => [x]
  | y :: t =>
      if x <? y then x :: l
      else if x =? y then l
      else y :: insert_unique x t
  end.

Definition np_unique (l : list Z) : list Z := foldr insert_unique [] l.

(* ================================================================== *)
(** * NumPy on two-dimensional arrays *)

Abbreviation arr2 := (list (list float)).

(** [a.shape[1]]. *)
Definition ncols (a : arr2) : nat :=
  match a with
  | [] => O
  | r :: _ => length r
  end.

(** [a[:, c]]. *)
Definition column (c : nat) (a : arr2) : list float :=
  map (fun row => nth c row NaN) a.

(** [np.full((n, m), np.nan)]; also [np.zeros((n, m))] followed by
    [a[:, :] = np.nan]. *)
Definition full_nan (n m : nat) : arr2 := replicate n (replicate m NaN).

(** [a[idx, c] = v] for a list [idx] of rows and one column [c]. *)
Definition set_cells (idx : list nat) (c : nat) (v : float) (a : arr2) : arr2 :=
  foldl (fun a r => alter (fun row => <[c := v]> row) r a) a idx.

(** [a[idx] = v], also written [a[idx, :] = v], for a scalar [v]: the whole
    of every row listed in [idx] is overwritten. *)
Definition set_rows (idx : list nat) (v : float) (a : arr2) : arr2 :=
  foldl (fun a r => alter (fun row => map (fun _ => v) row) r a) a idx.

(** [a[idx, :] = row]. *)
Definition put_rows (idx : list nat) (row : list float) (a : arr2) : arr2 :=
  foldl (fun a r => <[r := row]> a) a idx.

(** [a - m] for a scalar [m]. *)
Definition sub_scalar (m : float) (a : arr2) : arr2 :=
  map (map (fun x => fsub x m)) a.

(** [np.rot90]: a quarter turn counterclockwise. *)
Definition rot90 (a : arr2) : arr2 :=
  map (fun c => column c a) (rev (seq 0 (ncols a))).

(** [np.where(mask)[0]] on a two-dimensional mask: the row of every entry
    set, so a row is listed once per entry set in it. *)
Fixpoint where_rows_from (i : nat) (mask : list (list bool)) : list nat :=
  match mask with
  | [] => []
  | row :: t =>
      replicate (length (List.filter id row)) i ++ where_rows_from (S i) t
  end.

Definition np_where_rows (mask : list (list bool)) : list nat :=
  where_rows_from 0 mask.

(* ================================================================== *)
(** * Python strings *)

(** [s.split(sep)] for a one-character separator. *)
Fixpoint split_on (sep : ascii) (s : string) : list string :=
  match s with
  | EmptyString => [EmptyString]
  | String c t =>
      if Ascii.eqb c sep then EmptyString :: split_on sep t
      else match split_on sep t with
           | [] => [String c EmptyString]
           | f :: fs => String c f :: fs
           end
  end.

(** The blanks that [float] strips: the ASCII characters for which
    [str.isspace] holds. *)
Definition is_space (c : ascii) : bool :=
  let n := nat_of_ascii c in
  ((9 <=? n) && (n <=? 13))%nat || ((28 <=? n) && (n <=? 32))%nat.

Definition is_digit (c : ascii) : bool :=
  let n := nat_of_ascii c in ((48 <=? n) && (n <=? 57))%nat.

Fixpoint lstrip (s : string) : string :=
  match s with
  | String c t => if is_space c then lstrip t else s
  | EmptyString => EmptyString
  end.

Definition strip (s : string) : string :=
  String.rev (lstrip (String.rev (lstrip s))).

(** The digits at the head of [s]: their value after [acc], their number
    after [n], and what follows them. One underscore may stand between two
    digits (Python 3.6 and later) and counts for nothing. *)
Fixpoint read_digits (s : string) (acc : Z) (n : nat) : Z * nat * string :=
  match s with
  | String c t =>
      if is_digit c
      then read_digits t (10 * acc + (Z.of_nat (nat_of_ascii c) - 48)) (S n)
      else if Ascii.eqb c "_" && (0 <? n)%nat &&
              match t with String d _ => is_digit d | EmptyString => false end
      then read_digits t acc n
      else (acc, n, s)
  | EmptyString => (acc, n, s)
  end.

Definition read_sign (s : string) : bool * string :=
  match s with
  | String "-" t => (true, t)
  | String "+" t => (false, t)
  | _ => (false, s)
  end.

Definition read_fraction (s : string) : Z * nat * string :=
  match s with
  | String "." t => read_digits t 0 0
  | _ => (0, O, s)
  end.

(** What may follow the mantissa: nothing, or an exponent and nothing. *)
Definition read_exponent (s : string) : option Z :=
  match s with
  | EmptyString => Some 0
  | String c t =>
      if Ascii.eqb c "e" || Ascii.eqb c "E" then
        let '(neg, t') := read_sign t in
        match read_digits t' 0 0 with
        | (_, O, _) => None
        | (v, _, EmptyString) => Some (if neg then - v else v)
        | _ => None
        end
      else None
  end.

Definition lower (c : ascii) : ascii :=
  let n := nat_of_ascii c in
  if ((65 <=? n) && (n <=? 90))%nat then ascii_of_nat (n + 32) else c.

Fixpoint lowercase (s : string) : string :=
  match s with
  | String c t => String (lower c) (lowercase t)
  | EmptyString => EmptyString
  end.

(** What the builtin [float] reads in a string. *)
Inductive literal : Type :=
| Lit_nan
| Lit_inf (negative : bool)
| Lit_num (q : Q).

(** The least magnitude that is rounded to an infinity: half way between
    the greatest double and [2 ^ 1024], that is [2 ^ 1024 - 2 ^ 970]. *)
Definition double_overflow : Q :=
  inject_Z (Z.shiftl 1 1024 - Z.shiftl 1 970).

(** The grammar of [float] on a string: surrounding blanks, a sign, then
    [nan], [inf] or [infinity] in any case, or a decimal literal with an
    optional fraction and exponent, whose digits may be grouped by
    underscores. A decimal literal too large for a double reads as an
    infinity; one that is not keeps its exact value. [None] stands for the
    strings that [float] refuses. *)
Definition float_literal (s : string) : option literal :=
  let '(neg, body) := read_sign (strip s) in
  if String.eqb (lowercase body) "nan" then Some Lit_nan
  else if String.eqb (lowercase body) "inf" ||
          String.eqb (lowercase body) "infinity" then Some (Lit_inf neg)
  else
    let '(ip, ni, r1) := read_digits body 0 0 in
    let '(fp, nf, r2) := read_fraction r1 in
    match (ni + nf)%nat with
    | O => None
    | _ =>
        match read_exponent r2 with
        | None => None
        | Some e =>
            let m := (inject_Z ip + inject_Z fp / inject_Z (10 ^ Z.of_nat nf))%Q in
            let v := (m * Qpower (10 # 1) e)%Q in
            if Qle_bool double_overflow v then Some (Lit_inf neg)
            else Some (Lit_num (Qred (if neg then - v else v)))
        end
    end.

(** The builtin [float] on a string. A string it refuses raises a
    ValueError. An infinity, which [float] returns and the model of doubles
    does not hold, cuts the run. *)
Definition py_float (s : string) : result float :=
  match float_literal s with
  | None => Raise (ValueError "could not convert string to float")
  | Some Lit_nan => Ok NaN
  | Some (Lit_num q) => Ok (Fin q)
  | Some (Lit_inf _) => Raise (NotRepresented "inf")
  end.

(* ================================================================== *)
(** * What a run does: prompts, prints, previews and files *)

(** One drawn panel: the image handed to [imshow] (already turned by
    [np.rot90]), the colour range, and the offset of the lowest isophote. *)
Record panel : Type := mkPanel {
  image : arr2;
  vmin : float;
  vmax : float;
  contour_offset : float
}.

Inductive event : Type :=
| AskOffset (default : float)
| AskRange (label : string) (guess previous : float * float)
| AskSave
| Print (line : string)
| Show (fig : list panel)
| Savefig (file : string) (fig : list panel).

(** A run: what happened, the [vminmax] array as the run leaves it (the
    callee writes into the caller's array), the console lines not read, and
    whether the run returned or raised. *)
Record run : Type := mkRun {
  events : list event;
  vminmax_end : list (float * float);
  unread : list string;
  ending : result unit
}.

Definition stop (vminmax : list (float * float)) (stdin : list string)
    (e : result unit) : run :=
  mkRun [] vminmax stdin e.

Definition emit (es : list event) (r : run) : run :=
  mkRun (es ++ events r) (vminmax_end r) (unread r) (ending r).

(** Sequencing of two runs, the second one started from the state the first
    one leaves, and only if the first one returned. *)
Definition and_then (r : run)
    (k : list (float * float) -> list string -> run) : run :=
  match ending r with
  | Ok _ => emit (events r) (k (vminmax_end r) (unread r))
  | Raise _ => r
  end.

Definition is_yes (inp : string) : bool :=
  String.eqb inp "y" || String.eqb inp "Y" ||
  String.eqb inp "yes" || String.eqb inp "YES".

Definition is_no (inp : string) : bool :=
  String.eqb inp "n" || String.eqb inp "N" ||
  String.eqb inp "no" || String.eqb inp "NO".

Definition hint : string :=
  "You should have hit 'y' or 'n'. I guess you want to try another time?!".

(* ================================================================== *)
(** * The blocks both renderers share *)

(** [len( np.where( np.isnan(val) == True )[0] ) == len(val)]. *)
Definition all_nan (val : list float) : bool :=
  (length (np_where (map isnan val)) =? length val)%nat.

(** The answer to the range prompt: empty keeps the stored pair, anything
    else is read as [vmin,vmax] and stored. *)
Definition typed_range (inp : string) (vminmax : list (float * float))
    (iterate : nat) : result (float * float * list (float * float)) :=
  if String.eqb inp "" then
    match vminmax !! iterate with
    | Some (lo, hi) => Ok (lo, hi, vminmax)
    | None => Raise (IndexError "vminmax")
    end
  else
    lo ← py_float (nth 0 (split_on "," inp) EmptyString);
    hi ← match split_on "," inp !! 1%nat with
         | Some f => py_float f
         | None => Raise (IndexError "list index out of range")
         end;
    match vminmax !! iterate with
    | Some _ => Ok (lo, hi, <[iterate := (lo, hi)]> vminmax)
    | None => Raise (IndexError "vminmax")
    end.

(** The range without a prompt: the extremes of the data, or, in the pass
    that saves after a preview was accepted, the stored pair. *)
Definition unprompted_range (SAVE_AFTER_INTERACTIVE : bool)
    (vminmax : list (float * float)) (iterate : nat) (val : list float)
    : result (float * float) :=
  if SAVE_AFTER_INTERACTIVE then
    match vminmax !! iterate with
    | Some (lo, hi) => Ok (lo, hi)
    | None => Raise (IndexError "vminmax")
    end
  else
    lo ← nanmin val;
    hi ← nanmax val;
    Ok (lo, hi).

(** What the range prompt displays: the extremes of the data and the stored
    pair. *)
Definition range_prompt (label : string) (vminmax : list (float * float))
    (iterate : nat) (val : list float) : result event :=
  lo ← nanmin val;
  hi ← nanmax val;
  match vminmax !! iterate with
  | Some prev => Ok (AskRange label (lo, hi) prev)
  | None => Raise (IndexError "vminmax")
  end.

(** An index into an axis of length [n]; a negative one counts from the
    end. *)
Definition norm_index (n : nat) (k : Z) : option nat :=
  if (0 <=? k) && (k <? Z.of_nat n) then Some (Z.to_nat k)
  else if (- Z.of_nat n <=? k) && (k <? 0) then Some (Z.to_nat (k + Z.of_nat n))
  else None.

Definition broadcast {A : Type} (n : nat) (l : list A) : option (list A) :=
  if (length l =? n)%nat then Some l
  else match l with
       | [x] => Some (replicate n x)
       | _ => None
       end.

(** [image[i, j] = v] for one cell of an [nx] by [ny] image. *)
Definition set_pixel (nx ny : nat) (image : arr2) (ijv : Z * Z * float)
    : result arr2 :=
  let '(i, j, v) := ijv in
  match norm_index nx i, norm_index ny j with
  | Some r, Some c => Ok (alter (fun row => <[c := v]> row) r image)
  | _, _ => Raise (IndexError "index out of bounds")
  end.

Fixpoint set_pixels (nx ny : nat) (image : arr2) (l : list (Z * Z * float))
    : result arr2 :=
  match l with
  | [] => Ok image
  | ijv :: t => image' ← set_pixel nx ny image ijv; set_pixels nx ny image' t
  end.

(** [image[i, j] = val] for index arrays [i], [j]: a later sample overwrites
    an earlier one in the same cell. *)
Definition assign (nx ny : nat) (i j : list Z) (val : list float)
    (image : arr2) : result arr2 :=
  let n := if (length i =? 1)%nat then length j else length i in
  match broadcast n i, broadcast n j with
  | Some i', Some j' =>
      match broadcast n val with
      | Some v' => set_pixels nx ny image (zip (zip i' j') v')
      | None => Raise (ValueError "shape mismatch")
      end
  | _, _ => Raise (IndexError "shape mismatch")
  end.

Definition np_full_nan (nx ny : Z) : result arr2 :=
  if (nx <? 0) || (ny <? 0) then Raise (ValueError "negative dimensions")
  else Ok (full_nan (Z.to_nat nx) (Z.to_nat ny)).

(** "Create image in pixels": the grid spans the coordinates and a margin of
    6 on every side; a sample lands in the pixel nearest to it. *)
Definition rasterize (X Y val : list float) (pixelsize : Q) : result arr2 :=
  xlo ← nanmin X; xhi ← nanmax X;
  let xmin := fsub xlo (Fin 6) in let xmax := fadd xhi (Fin 6) in
  ylo ← nanmin Y; yhi ← nanmax Y;
  let ymin := fsub ylo (Fin 6) in let ymax := fadd yhi (Fin 6) in
  npixels_x ← npixels_of (fsub xmax xmin) pixelsize;
  npixels_y ← npixels_of (fsub ymax ymin) pixelsize;
  let i := map (fun x => index_of (fsub x xmin) pixelsize) X in
  let j := map (fun y => index_of (fsub y ymin) pixelsize) Y in
  image ← np_full_nan npixels_x npixels_y;
  assign (Z.to_nat npixels_x) (Z.to_nat npixels_y) i j val image.

(** [a[:, c]] with the bounds check of NumPy. An array without rows carries
    no width in this model; its columns are empty. *)
Definition column_at (c : nat) (a : arr2) : result (list float) :=
  match a with
  | [] => Ok []
  | _ => if (c <? ncols a)%nat then Ok (column c a)
         else Raise (IndexError "column out of bounds")
  end.

Section Renderers.

(** Two capabilities of the libraries are taken as they come: the decimal
    logarithm of NumPy and the contour builder (triangulation, mask of flat
    triangles, levels from [log10(FLUX)] and the offset, drawing), which
    receives [X], [Y], [FLUX], the offset and the pixel size and may raise. *)
Variable log10 : float -> float.
Variable tricontour :
  list float -> list float -> list float -> float -> Q -> result unit.

(** "Create image in pixels", "Plot map and colorbar", "Plot contours". *)
Definition draw (X Y FLUX val : list float) (pixelsize : Q)
    (lo hi offset : float) : result panel :=
  image ← rasterize X Y val pixelsize;
  _ ← tricontour X Y FLUX offset pixelsize;
  Ok (mkPanel (rot90 image) lo hi offset).

(* ------------------------------------------------------------------ *)
(** ** gistPlot_gandalf.py *)

Definition labellist : list string := ["V"; "S"; "F"; "A"].

(** "Prepare main plot". *)
Definition select_val (gandalf_Vel gandalf_Sigma gandalf_Flux gandalf_Ampl : arr2)
    (line_idx iterate : nat) : result (list float) :=
  match iterate with
  | 0%nat => column_at line_idx gandalf_Vel
  | 1%nat => column_at line_idx gandalf_Sigma
  | 2%nat => col ← column_at line_idx gandalf_Flux; Ok (map log10 col)
  | 3%nat => column_at line_idx gandalf_Ampl
  | _ => Raise (UnboundLocalError "val")
  end.

(** The answer to the isophote prompt of [plot_line]. *)
Definition typed_offset_gandalf (inp : string) : result float :=
  if String.eqb inp "" then Ok (Fin (2 # 10)) else py_float inp.

Definition pdf_name (outdir rootname : string) (lineIdentifier : string * string)
    (iterate : nat) (LEVEL : string) : string :=
  outdir +:+ rootname +:+ "_gandalf-" +:+ fst lineIdentifier +:+
  snd lineIdentifier +:+ "_" +:+ nth iterate labellist "" +:+ "_" +:+ LEVEL +:+ ".pdf".

(** [plot_line]. A calibration pass reads the isophote line, the range line
    and the answer to the save prompt, then calls itself; a read from an
    exhausted console raises EOFError. The recursion limit of the
    interpreter is not modelled. *)
Fixpoint plot_line (LEVEL : string) (FROM_PIPELINE : bool)
    (gandalf_Vel gandalf_Sigma gandalf_Flux gandalf_Ampl : arr2)
    (INTERACTIVE SAVE_AFTER_INTERACTIVE : bool)
    (runname : string) (AoNThreshold : float) (line_idx : nat)
    (lineIdentifier : string * string) (vminmax : list (float * float))
    (contour_offset_saved : float) (X Y FLUX : list float) (pixelsize : Q)
    (outdir rootname : string) (iterate : nat)
    (stdin : list string) {struct stdin} : run :=
  let val := select_val gandalf_Vel gandalf_Sigma gandalf_Flux gandalf_Ampl
               line_idx iterate in
  if INTERACTIVE then
    emit [AskOffset (Fin (2 # 10))]
    match stdin with
    | [] => stop vminmax [] (Raise EOFError)
    | inp0 :: stdin1 =>
    match typed_offset_gandalf inp0 with
    | Raise e => stop vminmax stdin1 (Raise e)
    | Ok contour_offset =>
    match val with
    | Raise e => stop vminmax stdin1 (Raise e)
    | Ok val =>
    if all_nan val then stop vminmax stdin1 (Ok ())
    else
    match range_prompt (nth iterate labellist "") vminmax iterate val with
    | Raise e => stop vminmax stdin1 (Raise e)
    | Ok ask =>
    emit [ask]
    match stdin1 with
    | [] => stop vminmax [] (Raise EOFError)
    | inp1 :: stdin2 =>
    match typed_range inp1 vminmax iterate with
    | Raise e => stop vminmax stdin2 (Raise e)
    | Ok (lo, hi, vminmax') =>
    match draw X Y FLUX val pixelsize lo hi contour_offset with
    | Raise e => stop vminmax' stdin2 (Raise e)
    | Ok p =>
    emit [Show [p]; AskSave]
    match stdin2 with
    | [] => stop vminmax' [] (Raise EOFError)
    | inp2 :: stdin3 =>
    emit [Print ""]
    (if is_yes inp2 then
       plot_line LEVEL FROM_PIPELINE gandalf_Vel gandalf_Sigma gandalf_Flux
         gandalf_Ampl false true runname AoNThreshold line_idx lineIdentifier
         vminmax' contour_offset_saved X Y FLUX pixelsize outdir rootname
         iterate stdin3
     else if is_no inp2 then
       plot_line LEVEL FROM_PIPELINE gandalf_Vel gandalf_Sigma gandalf_Flux
         gandalf_Ampl true false runname AoNThreshold line_idx lineIdentifier
         vminmax' contour_offset_saved X Y FLUX pixelsize outdir rootname
         iterate stdin3
     else
       emit [Print hint]
       (plot_line LEVEL FROM_PIPELINE gandalf_Vel gandalf_Sigma gandalf_Flux
          gandalf_Ampl true false runname AoNThreshold line_idx lineIdentifier
          vminmax' contour_offset_saved X Y FLUX pixelsize outdir rootname
          iterate stdin3))
    end end end end end end end end
  else
    let contour_offset := Fin (2 # 10) in
    match val with
    | Raise e => stop vminmax stdin (Raise e)
    | Ok val =>
    if all_nan val then stop vminmax stdin (Ok ())
    else
    match
      '(lo, hi) ← unprompted_range SAVE_AFTER_INTERACTIVE vminmax iterate val;
      draw X Y FLUX val pixelsize lo hi contour_offset
    with
    | Raise e => stop vminmax stdin (Raise e)
    | Ok p =>
        emit [Savefig (pdf_name outdir rootname lineIdentifier iterate LEVEL) [p]]
             (stop vminmax stdin (Ok ()))
    end end.

(** The FITS files, as the modules read them. *)
Record spaxel : Type := mkSpaxel {
  tab_X : float;
  tab_Y : float;
  tab_FLUX : float;
  tab_BIN_ID : Z
}.

Record table_fits : Type := mkTable {
  tab_rows : list spaxel;
  PIXSIZE : Q
}.

(** Extension 1 lists the lines, as a name and the printed wavelength;
    extension 2 holds one row per bin or spaxel and one column per line. *)
Record gandalf_fits : Type := mkGandalf {
  emisetup : list (string * string);
  raw_FLUX : arr2;
  raw_AMPL : arr2;
  raw_V : arr2;
  raw_SIGMA : arr2;
  raw_AON : arr2
}.

Record kin_row : Type := mkKin {
  kin_V : float;
  kin_SIGMA : float;
  kin_H3 : float;
  kin_H4 : float
}.

Record filesys : Type := mkFS {
  open_table : string -> option table_fits;
  open_gandalf : string -> option gandalf_fits;
  open_kin : string -> option (list kin_row)
}.

Definition fits_open {A : Type} (files : string -> option A) (name : string)
    : result A :=
  match files name with
  | Some f => Ok f
  | None => Raise (FileNotFoundError name)
  end.

(** "Check spatial coordinates": a warning, and the run goes on. *)
Definition degenerate (C : list float) : bool :=
  (length (np_where (map (fun c => feq c (Fin 0) || isnan c) C)) =? length C)%nat.

Definition warn_X : string :=
  "All X-coordinates are 0.0 or np.nan. Plotting maps will not work without reasonable spatial information!".

Definition warn_Y : string :=
  "All Y-coordinates are 0.0 or np.nan. Plotting maps will not work without reasonable spatial information!" +:+
  String (ascii_of_nat 10) EmptyString.

Definition check_coordinates (X Y : list float) : list event :=
  (if degenerate X then [Print warn_X] else []) ++
  (if degenerate Y then [Print warn_Y] else []).

(** "Convert results to long version": row [i] of the per-bin array goes to
    every sample whose bin is [ubins[i]]; the other samples stay missing. *)
Fixpoint expand_from (i : nat) (ubins binNum_long : list Z) (a long : arr2)
    : result arr2 :=
  match ubins with
  | [] => Ok long
  | u :: rest =>
      let idx := np_where (map (fun b => u =? Z.abs b) binNum_long) in
      match a !! i with
      | Some row => expand_from (S i) rest binNum_long a (put_rows idx row long)
      | None => Raise (IndexError "index out of bounds")
      end
  end.

Definition expand (ubins binNum_long : list Z) (a : arr2) : result arr2 :=
  expand_from 0 ubins binNum_long a (full_nan (length binNum_long) (ncols a)).

(** The five per-line arrays of the emission-line fit. They are columns of
    one table and have one shape. *)
Record lines : Type := mkLines {
  Flux : arr2;
  Ampl : arr2;
  Vel : arr2;
  Sigma : arr2;
  AoN : arr2
}.

(** "Apply AoN threshold to GANDALF": one pass of the loop over the lines. *)
Definition threshold_step (AoNThreshold : float) (g : lines) (i : nat) : lines :=
  let idx_AoNThreshold :=
    np_where (map (fun a => flt a AoNThreshold) (column i (AoN g))) in
  mkLines (set_cells idx_AoNThreshold i NaN (Flux g))
          (set_cells idx_AoNThreshold i NaN (Ampl g))
          (set_cells idx_AoNThreshold i NaN (Vel g))
          (set_cells idx_AoNThreshold i NaN (Sigma g))
          (set_cells idx_AoNThreshold i NaN (AoN g)).

Definition apply_threshold (AoNThreshold : float) (g : lines) : lines :=
  foldl (threshold_step AoNThreshold) g (seq 0 (ncols (AoN g))).

(** [a[ np.where(a == -1)[0] ] = np.nan]. *)
Definition mask_sentinel (a : arr2) : arr2 :=
  set_rows (np_where_rows (map (map (fun x => feq x sentinel)) a)) NaN a.

(** The filter of [plot_maps], before the velocities are recentred. *)
Definition quality_filter (AoNThreshold : float) (g : lines) : lines :=
  let g := apply_threshold AoNThreshold g in
  mkLines (mask_sentinel (Flux g)) (mask_sentinel (Ampl g))
          (mask_sentinel (Vel g)) (mask_sentinel (Sigma g)) (AoN g).

(** [gandalf_Vel - np.nanmedian( gandalf_Vel )]: one median, over every
    entry of the array. *)
Definition recentre (v : arr2) : arr2 :=
  sub_scalar (nanmedian (concat v)) v.

Definition recentre_Vel (g : lines) : lines :=
  mkLines (Flux g) (Ampl g) (recentre (Vel g)) (Sigma g) (AoN g).

(** [outdir.split('/')[-2].split('_')[0]]. *)
Definition rootname_of (outdir : string) : result string :=
  match rev (split_on "/" outdir) with
  | _ :: p :: _ => Ok (nth 0 (split_on "_" p) EmptyString)
  | _ => Raise (IndexError "list index out of range")
  end.

(** "Read Gandalf results" and "Convert results to long version". *)
Definition read_gandalf (fs : filesys) (outdir rootname LEVEL : string)
    (binNum_long : list Z) : result (gandalf_fits * lines) :=
  let ubins := np_unique (map Z.abs binNum_long) in
  if String.eqb LEVEL "SPAXEL" then
    f ← fits_open (open_gandalf fs) (outdir +:+ rootname +:+ "_gandalf_SPAXEL.fits");
    Ok (f, mkLines (raw_FLUX f) (raw_AMPL f) (raw_V f) (raw_SIGMA f) (raw_AON f))
  else if String.eqb LEVEL "BIN" then
    f ← fits_open (open_gandalf fs) (outdir +:+ rootname +:+ "_gandalf_BIN.fits");
    gandalf_Flux_long ← expand ubins binNum_long (raw_FLUX f);
    gandalf_Ampl_long ← expand ubins binNum_long (raw_AMPL f);
    gandalf_Vel_long ← expand ubins binNum_long (raw_V f);
    gandalf_Sigma_long ← expand ubins binNum_long (raw_SIGMA f);
    gandalf_AoN_long ← expand ubins binNum_long (raw_AON f);
    Ok (f, mkLines gandalf_Flux_long gandalf_Ampl_long gandalf_Vel_long
                   gandalf_Sigma_long gandalf_AoN_long)
  else Raise (UnboundLocalError "gandalf_raw").

Definition iterate_of (plottype : option string) : option nat :=
  match plottype with
  | Some t =>
      if String.eqb t "V" then Some 0%nat
      else if String.eqb t "S" then Some 1%nat
      else if String.eqb t "F" then Some 2%nat
      else if String.eqb t "A" then Some 3%nat
      else None
  | None => None
  end.

(** A [for] loop whose body is a run. *)
Fixpoint for_each {A : Type} (l : list A)
    (body : A -> list (float * float) -> list string -> run)
    (vminmax : list (float * float)) (stdin : list string) : run :=
  match l with
  | [] => stop vminmax stdin (Ok ())
  | a :: t => and_then (body a vminmax stdin) (for_each t body)
  end.

(** [plot_maps]. The creation of the [maps/] directory is not modelled. *)
Definition plot_maps (fs : filesys) (outdir LEVEL : string) (FROM_PIPELINE : bool)
    (INTERACTIVE : bool) (vminmax : list (float * float))
    (SAVE_AFTER_INTERACTIVE : bool) (AoNThreshold : float)
    (line_idx : option nat) (plottype : option string)
    (stdin : list string) : run :=
  let runname := outdir in
  match
    rootname ← rootname_of outdir;
    table_hdu ← fits_open (open_table fs) (outdir +:+ rootname +:+ "_table.fits");
    Ok (rootname, table_hdu)
  with
  | Raise e => stop vminmax stdin (Raise e)
  | Ok (rootname, table_hdu) =>
  let X := map (fun s => fneg (tab_X s)) (tab_rows table_hdu) in
  let Y := map tab_Y (tab_rows table_hdu) in
  let FLUX := map tab_FLUX (tab_rows table_hdu) in
  let binNum_long := map tab_BIN_ID (tab_rows table_hdu) in
  let pixelsize := PIXSIZE table_hdu in
  emit (check_coordinates X Y)
  match read_gandalf fs outdir rootname LEVEL binNum_long with
  | Raise e => stop vminmax stdin (Raise e)
  | Ok (f, g) =>
  let linelist := emisetup f in
  let g := recentre_Vel (quality_filter AoNThreshold g) in
  let outdir := outdir +:+ "maps/" in
  if FROM_PIPELINE then
    for_each (imap pair linelist)
      (fun '(line_idx, lineIdentifier) =>
         for_each [0; 1; 2; 3]%nat
           (fun iterate vminmax stdin =>
              plot_line LEVEL FROM_PIPELINE (Vel g) (Sigma g) (Flux g) (Ampl g)
                INTERACTIVE SAVE_AFTER_INTERACTIVE runname AoNThreshold line_idx
                lineIdentifier vminmax (Fin (2 # 10)) X Y FLUX pixelsize outdir
                rootname iterate stdin))
      vminmax stdin
  else
    match line_idx with
    | None => stop vminmax stdin (Raise (TypeError "int() argument"))
    | Some line_idx =>
    match linelist !! line_idx with
    | None => stop vminmax stdin (Raise (IndexError "list index out of range"))
    | Some lineIdentifier =>
    match iterate_of plottype with
    | None => emit [Print "No plottype set. Exit!"]
                   (stop vminmax stdin (Raise (SystemExit 1)))
    | Some iterate =>
        plot_line LEVEL FROM_PIPELINE (Vel g) (Sigma g) (Flux g) (Ampl g)
          INTERACTIVE SAVE_AFTER_INTERACTIVE runname AoNThreshold line_idx
          lineIdentifier vminmax (Fin (2 # 10)) X Y FLUX pixelsize outdir
          rootname iterate stdin
    end end end
  end end.

(* ------------------------------------------------------------------ *)
(** ** gistPlot_kin.py *)

(** The global names of a module, each with the attributes of the object
    it is bound to. *)
Definition namespace : Type := list (string * list string).

(** What the module binds at top level: its imports and its functions. The
    attributes of these objects are never inspected. *)
Definition kin_globals : namespace :=
  map (fun name => (name, []))
    ["fits"; "np"; "os"; "optparse"; "warnings"; "Triangulation"; "TriAnalyzer";
     "plt"; "AxesGrid"; "MultipleLocator"; "FuncFormatter";
     "register_sauron_colormap"; "TicklabelFormatter"; "setup_plot";
     "plotMaps"; "main"].

Fixpoint lookup_name (name : string) (g : namespace) : result (list string) :=
  match g with
  | [] => Raise (NameError name)
  | (n, attrs) :: t => if String.eqb n name then Ok attrs else lookup_name name t
  end.

(** [hasattr(obj, attr)] for the global name [obj]. *)
Definition hasattr (g : namespace) (obj attr : string) : result bool :=
  attrs ← lookup_name obj g;
  Ok (existsb (String.eqb attr) attrs).

Definition kin_labellist : list string := ["V"; "SIGMA"; "H3"; "H4"].

(** [s.rstrip('/')]. *)
Fixpoint lstrip_slash (s : string) : string :=
  match s with
  | String "/" t => lstrip_slash t
  | _ => s
  end.

Definition rstrip_slash (s : string) : string :=
  String.rev (lstrip_slash (String.rev s)).

(** [os.path.join(a, b)] for a relative [b]. *)
Definition path_join (a b : string) : string :=
  match String.rev a with
  | EmptyString => b
  | String "/" _ => a +:+ b
  | _ => a +:+ "/" +:+ b
  end.

(** [a[:] = v] for a column [a] of length [n]: the shapes must agree, a
    single value is spread. *)
Definition fill_column (n : nat) (v : list float) : result (list float) :=
  match broadcast n v with
  | Some c => Ok c
  | None => Raise (ValueError "could not broadcast input array")
  end.

(** What [plotMaps] holds when it reaches "Setup main figure". *)
Record kin_data : Type := mkKinData {
  kd_rootname : string;
  kd_X : list float;
  kd_Y : list float;
  kd_FLUX : list float;
  kd_pixelsize : Q;
  kd_result : arr2
}.

(** [result[:,0] = result[:,0] - np.nanmedian( result[:,0] )]. *)
Definition recentre_first_column (result : arr2) : arr2 :=
  let m := nanmedian (column 0 result) in
  map (fun row => <[0%nat := fsub (nth 0 row NaN) m]> row) result.

(** "Read Results" and "Convert results to long version". *)
Definition read_kin (g : namespace) (fs : filesys) (flag outdir rootname : string)
    (table_hdu : table_fits) : result arr2 :=
  let inside := filter (fun s => 0 <=? tab_BIN_ID s) (tab_rows table_hdu) in
  let binNum_long := map tab_BIN_ID inside in
  let ubins := np_unique (map Z.abs (map tab_BIN_ID (tab_rows table_hdu))) in
  hdu ← (if String.eqb flag "KIN"
         then Some <$> fits_open (open_kin fs) (path_join outdir rootname +:+ "_kin.fits")
         else if String.eqb flag "SFH"
         then Some <$> fits_open (open_kin fs) (path_join outdir rootname +:+ "_sfh.fits")
         else Ok None);
  let zeros := replicate (length ubins) (Fin 0) in
  hdu ← match hdu with
        | Some rows => Ok rows
        | None => Raise (UnboundLocalError "hdu")
        end;
  V ← fill_column (length ubins) (map kin_V hdu);
  SIGMA ← fill_column (length ubins) (map kin_SIGMA hdu);
  H3 ← hasattr g "ppxf" "H3" ≫= (fun has : bool =>
         if has then fill_column (length ubins) (map kin_H3 hdu) else Ok zeros);
  H4 ← hasattr g "ppxf" "H4" ≫= (fun has : bool =>
         if has then fill_column (length ubins) (map kin_H4 hdu) else Ok zeros);
  let result :=
    zip_with (fun vs hh => [vs.1; vs.2; hh.1; hh.2]) (zip V SIGMA) (zip H3 H4) in
  result_long ← expand ubins binNum_long result;
  Ok (recentre_first_column result_long).

(** [plotMaps] from its first line to "Create/Set output directory". *)
Definition kin_rootname (outdir : string) : string :=
  nth 0 (rev (split_on "/" (rstrip_slash outdir))) EmptyString.

Definition kin_prelude (g : namespace) (fs : filesys) (flag outdir : string)
    : list event * result kin_data :=
  let rootname := kin_rootname outdir in
  match fits_open (open_table fs) (path_join outdir rootname +:+ "_table.fits") with
  | Raise e => ([], Raise e)
  | Ok table_hdu =>
      let inside := filter (fun s => 0 <=? tab_BIN_ID s) (tab_rows table_hdu) in
      let X := map (fun s => fneg (tab_X s)) inside in
      let Y := map tab_Y inside in
      let FLUX := map tab_FLUX inside in
      (check_coordinates X Y,
       result ← read_kin g fs flag outdir rootname table_hdu;
       Ok (mkKinData rootname X Y FLUX (PIXSIZE table_hdu) result))
  end.

(** The answer to the isophote prompt of [plotMaps]. *)
Definition typed_offset_kin (inp : string) (contour_offset_saved : float)
    : result float :=
  if String.eqb inp "" then Ok contour_offset_saved else py_float inp.

(** The loop over the four panels. In a calibration pass every panel reads
    one line. *)
Fixpoint kin_panels (its : list nat) (INTERACTIVE SAVE_AFTER_INTERACTIVE : bool)
    (d : kin_data) (contour_offset : float)
    (vminmax : list (float * float)) (stdin : list string) : list panel * run :=
  match its with
  | [] => ([], stop vminmax stdin (Ok ()))
  | iterate :: rest =>
      let val := column iterate (kd_result d) in
      let panel_of '(lo, hi) :=
        draw (kd_X d) (kd_Y d) (kd_FLUX d) val (kd_pixelsize d) lo hi contour_offset in
      if INTERACTIVE then
        match range_prompt (nth iterate kin_labellist "") vminmax iterate val with
        | Raise e => ([], stop vminmax stdin (Raise e))
        | Ok ask =>
        match stdin with
        | [] => ([], emit [ask] (stop vminmax [] (Raise EOFError)))
        | inp :: stdin' =>
        match typed_range inp vminmax iterate with
        | Raise e => ([], emit [ask] (stop vminmax stdin' (Raise e)))
        | Ok (lo, hi, vminmax') =>
        match panel_of (lo, hi) with
        | Raise e => ([], emit [ask] (stop vminmax' stdin' (Raise e)))
        | Ok p =>
            let '(ps, r) :=
              kin_panels rest INTERACTIVE SAVE_AFTER_INTERACTIVE d contour_offset
                vminmax' stdin' in
            (p :: ps, emit [ask] r)
        end end end end
      else
        match unprompted_range SAVE_AFTER_INTERACTIVE vminmax iterate val
              ≫= panel_of with
        | Raise e => ([], stop vminmax stdin (Raise e))
        | Ok p =>
            let '(ps, r) :=
              kin_panels rest INTERACTIVE SAVE_AFTER_INTERACTIVE d contour_offset
                vminmax stdin in
            (p :: ps, r)
        end
  end.

Definition kin_pdf (flag outdir rootname : string) : list string :=
  let maps := path_join outdir "maps/" in
  if String.eqb flag "KIN" then [path_join maps rootname +:+ "_kin.pdf"]
  else if String.eqb flag "SFH" then [path_join maps rootname +:+ "_sfh-kin.pdf"]
  else [].

(** [plotMaps], run in a module whose globals are [g]. The creation of the
    [maps/] directory is not modelled. A calibration pass that reaches the
    save prompt has read the isophote line and one line per panel. *)
Fixpoint plotMaps_in (g : namespace) (fs : filesys) (flag outdir : string)
    (INTERACTIVE : bool) (vminmax : list (float * float))
    (contour_offset_saved : float) (SAVE_AFTER_INTERACTIVE : bool)
    (stdin : list string) {struct stdin} : run :=
  let runname := outdir in
  let '(warnings, d) := kin_prelude g fs flag outdir in
  emit warnings
  match d with
  | Raise e => stop vminmax stdin (Raise e)
  | Ok d =>
  if INTERACTIVE then
    emit [AskOffset contour_offset_saved]
    match stdin with
    | [] => stop vminmax [] (Raise EOFError)
    | inp0 :: stdin1 =>
    match typed_offset_kin inp0 contour_offset_saved with
    | Raise e => stop vminmax stdin1 (Raise e)
    | Ok contour_offset =>
    let '(ps, r) :=
      kin_panels [0; 1; 2; 3]%nat true SAVE_AFTER_INTERACTIVE d contour_offset
        vminmax stdin1 in
    match ending r with
    | Raise _ => r
    | Ok _ =>
    emit (events r ++ [Show ps; AskSave])
    match stdin1 with
    | _ :: _ :: _ :: _ :: inp5 :: stdin6 =>
      emit [Print ""]
      (if is_yes inp5 then
         plotMaps_in g fs flag runname false (vminmax_end r) contour_offset true stdin6
       else if is_no inp5 then
         plotMaps_in g fs flag runname true (vminmax_end r) contour_offset false stdin6
       else
         emit [Print hint]
         (plotMaps_in g fs flag runname true (vminmax_end r) contour_offset false stdin6))
    | _ => stop (vminmax_end r) [] (Raise EOFError)
    end end end end
  else
    let contour_offset := contour_offset_saved in
    let '(ps, r) :=
      kin_panels [0; 1; 2; 3]%nat false SAVE_AFTER_INTERACTIVE d contour_offset
        vminmax stdin in
    match ending r with
    | Raise _ => r
    | Ok _ =>
        emit (events r ++ map (fun file => Savefig file ps)
                              (kin_pdf flag outdir (kd_rootname d)))
             (stop (vminmax_end r) stdin (Ok ()))
    end
  end.

(** [plotMaps] as the repository runs it. *)
Definition plotMaps : filesys -> string -> string -> bool ->
    list (float * float) -> float -> bool -> list string -> run :=
  plotMaps_in kin_globals.

End Renderers.

(* ================================================================== *)
(** * The tick labels and the entry points *)

(** [int(x)] on a double: towards zero; [nan] is refused. *)
Definition py_int (x : float) : result Z :=
  match x with
  | NaN => Raise (ValueError "cannot convert float NaN to integer")
  | Fin q => Ok (Z.quot (Qnum q) (Zpos (Qden q)))
  end.

(** [str(n)], also ["{}".format(n)], for an integer. *)
Definition str_of_int (n : Z) : string := NilZero.string_of_int (Z.to_int n).

(** [s.replace(old, new)] for a one-character [old]. *)
Fixpoint replace_char (old : ascii) (new : string) (s : string) : string :=
  match s with
  | EmptyString => EmptyString
  | String c t =>
      if Ascii.eqb c old then new +:+ replace_char old new t
      else String c (replace_char old new t)
  end.

Definition textendash : string :=
  String (ascii_of_nat 92) "textendash".

(** [TicklabelFormatter], of both modules. *)
Definition TicklabelFormatter (x : float) (pos : Z) : result string :=
  n ← py_int x;
  Ok (replace_char "-" textendash ("$" +:+ str_of_int n +:+ "$")).

Fixpoint last_char (s : string) : option ascii :=
  match s with
  | EmptyString => None
  | String c EmptyString => Some c
  | String _ t => last_char t
  end.

(** The first statement of both [main] functions:
    [if options.runname[-1] != '/': options.runname = options.runname+'/']. *)
Definition with_trailing_slash (runname : string) : result string :=
  match last_char runname with
  | None => Raise (IndexError "string index out of range")
  | Some c => if Ascii.eqb c "/" then Ok runname else Ok (runname +:+ "/")
  end.

(** [main] of gistPlot_kin.py, with both options given on the command line.
    The array of ranges is the default argument of [plotMaps]. *)
Definition kin_main
    (tricontour : list float -> list float -> list float -> float -> Q -> result unit)
    (fs : filesys) (flag runname : string) (stdin : list string) : run :=
  match with_trailing_slash runname with
  | Raise e => stop (replicate 4 (Fin 0, Fin 0)) stdin (Raise e)
  | Ok runname =>
      plotMaps tricontour fs flag runname true (replicate 4 (Fin 0, Fin 0))
        (Fin (2 # 10)) false stdin
  end.

(* ================================================================== *)
(** * Vocabulary of the properties *)

(** The entry of an image at row [r] and column [c]. *)
Definition cell (img : arr2) (r c : nat) : option float :=
  row ← img !! r; row !! c.

(** The number of entries of an image that are not missing. *)
Definition count_valid (img : arr2) : nat := length (valid (concat img)).

(** [m] is the least, or the greatest, of the rationals [l]; of no rational
    at all it is the missing marker. *)
Definition least_of (l : list Q) (m : float) : Prop :=
  match m with
  | NaN => l = []
  | Fin q => In q l ∧ ∀ y, In y l → (q <= y)%Q
  end.

Definition greatest_of (l : list Q) (m : float) : Prop :=
  match m with
  | NaN => l = []
  | Fin q => In q l ∧ ∀ y, In y l → (y <= q)%Q
  end.

(** The events that put a figure on the screen or on disk. *)
Definition is_figure (e : event) : bool :=
  match e with
  | Show _ | Savefig _ _ => true
  | _ => false
  end.

Definition is_prompt (e : event) : bool :=
  match e with
  | AskOffset _ | AskRange _ _ _ | AskSave => true
  | _ => false
  end.

(** The five arrays of the fit have one shape: [n] rows of [L] entries. *)
Definition shaped (n L : nat) (a : arr2) : Prop :=
  length a = n ∧ Forall (fun row => length row = L) a.

Definition same_shape (g : lines) : Prop :=
  ∃ n L, shaped n L (Flux g) ∧ shaped n L (Ampl g) ∧ shaped n L (Vel g) ∧
         shaped n L (Sigma g) ∧ shaped n L (AoN g).

(** The four quantities of the emission-line fit, as fields of [lines]. *)
Definition quantities : list (lines → arr2) := [Flux; Ampl; Vel; Sigma].

(** A field of [lines] that one pass of the threshold loop masks with the
    rows found in the AoN column; all five fields are such. *)
Definition masked_by_threshold (T : float) (q : lines → arr2) : Prop :=
  ∀ g i, q (threshold_step T g i)
         = set_cells (np_where (map (fun a => flt a T) (column i (AoN g))))
                     i NaN (q g).

(** The pixel of a coordinate [c] on an axis whose least coordinate is
    [lo]: the index the rasterizer computes, as a row or column number. *)
Definition pixel (lo p : Q) (c : float) : nat :=
  Z.to_nat (index_of (fsub c (fsub (Fin lo) (Fin 6))) p).

(** The characters of a string. *)
Fixpoint chars (s : string) : list ascii :=
  match s with
  | EmptyString => []
  | String c t => c :: chars t
  end.

Definition is_show (e : event) : bool :=
  match e with
  | Show _ => true
  | _ => false
  end.

(** A run that has read no line, written no range, asked nothing and shown
    nothing on the screen. *)
Definition without_console (r : run) (vminmax : list (float * float))
    (stdin : list string) : Prop :=
  unread r = stdin ∧ vminmax_end r = vminmax ∧
  Forall (fun e => is_prompt e = false ∧ is_show e = false) (events r).

(** The isophote offsets of the panels put on the screen, and of those
    written to disk, in the order of the events. *)
Definition shown_offsets (es : list event) : list float :=
  concat (map (fun e => match e with
                        | Show fig => map contour_offset fig
                        | _ => []
                        end) es).

Definition saved_offsets (es : list event) : list float :=
  concat (map (fun e => match e with
                        | Savefig _ fig => map contour_offset fig
                        | _ => []
                        end) es).

(** A field that [float] accepts, and a field that it reads as an
    infinity. *)
Definition is_number (f : string) : bool :=
  match float_literal f with Some _ => true | None => false end.

Definition is_infinity (f : string) : bool :=
  match float_literal f with Some (Lit_inf _) => true | _ => false end.

(** An answer to the range prompt whose first two comma-separated fields
    both read as numbers. *)
Definition two_leading_numbers (inp : string) : bool :=
  match split_on "," inp with
  | f0 :: f1 :: _ => is_number f0 && is_number f1
  | _ => false
  end.


(** An answer that is exactly two comma-separated numbers. *)
Definition exactly_two_numbers (inp : string) : bool :=
  match split_on "," inp with
  | [f0; f1] => is_number f0 && is_number f1
  | _ => false
  end.

(* ================================================================== *)
(** * Data of the worked examples *)

(** Stand-ins for the two library capabilities in the worked examples. The
    examples plot velocities, so [np.log10] is never called; the contour
    builder refuses fewer than three points, as the triangulation does. *)
Definition log10_unused (x : float) : float := NaN.

Definition tricontour_3 (X Y FLUX : list float) (offset : float) (p : Q)
    : result unit :=
  if (length X <? 3)%nat
  then Raise (ValueError "x and y arrays must have a length of at least 3")
  else Ok ().

(** Three spaxels at the corners of a triangle, one emission line. *)
Definition X3 : list float := [Fin 0; Fin 1; Fin 0].
Definition Y3 : list float := [Fin 0; Fin 0; Fin 1].
Definition FLUX3 : list float := [Fin 1; Fin 1; Fin 1].
Definition V3 : arr2 := [[Fin 10]; [Fin 20]; [Fin 30]].
Definition missing3 : arr2 := [[NaN]; [NaN]; [NaN]].
Definition zeros42 : list (float * float) := replicate 4 (Fin 0, Fin 0).

(** One spaxel, two emission lines, both well above the threshold. *)
Definition two_lines : lines :=
  mkLines [[Fin (-1); Fin 5]] [[Fin 1; Fin 5]] [[Fin 10; Fin 20]]
          [[Fin 1; Fin 5]] [[Fin 10; Fin 10]].

(** [plot_line] on the velocity of the only line of the three spaxels. *)
Definition line3 (INTERACTIVE SAVE_AFTER_INTERACTIVE : bool)
    (vminmax : list (float * float)) (stdin : list string) : run :=
  plot_line log10_unused tricontour_3 "BIN" false V3 V3 V3 V3
    INTERACTIVE SAVE_AFTER_INTERACTIVE "out/" (Fin 4) 0 ("Ha", "6562")
    vminmax (Fin (2 # 10)) X3 Y3 FLUX3 1 "out/maps/" "root" 0 stdin.

Definition val3 : list float := [Fin 10; Fin 20; Fin 30].

(** A run directory of the kinematics module: three spaxels in three bins,
    and a fit whose velocity is missing in every bin. *)
Definition table3 : table_fits :=
  mkTable [mkSpaxel (Fin 0) (Fin 0) (Fin 1) 1;
           mkSpaxel (Fin (-1)) (Fin 0) (Fin 1) 2;
           mkSpaxel (Fin 0) (Fin 1) (Fin 1) 3] 1.

Definition kin3 : list kin_row :=
  [mkKin NaN (Fin 50) (Fin 0) (Fin 0);
   mkKin NaN (Fin 60) (Fin 0) (Fin 0);
   mkKin NaN (Fin 70) (Fin 0) (Fin 0)].

Definition fs3 : filesys :=
  mkFS (fun name => if String.eqb name "out/run/run_table.fits"
                    then Some table3 else None)
       (fun _ => None)
       (fun name => if String.eqb name "out/run/run_kin.fits" then Some kin3
                    else if String.eqb name "out/run/run_sfh.fits"
                    then Some (take 2 kin3) else None).

(** The globals of the kinematics module with one more name, [ppxf], bound
    to an object without the attributes H3 and H4. *)
Definition kin_globals_with_ppxf : namespace := ("ppxf", []) :: kin_globals.


(** The same run directory with a fit that has a velocity in every bin. *)
Definition kin3v : list kin_row :=
  [mkKin (Fin 100) (Fin 50) (Fin 0) (Fin 0);
   mkKin (Fin 110) (Fin 60) (Fin 0) (Fin 0);
   mkKin (Fin 120) (Fin 70) (Fin 0) (Fin 0)].

Definition fs3v : filesys :=
  mkFS (open_table fs3) (fun _ => None)
       (fun name => if String.eqb name "out/run/run_kin.fits" then Some kin3v
                    else None).


(** The scenario of the specification: four spaxels on a 2 by 2 grid in the
    bins 1, 1, 2, 2, one emission line with the velocities 10 and -10 and
    an AoN above the threshold in both bins. *)
Definition table4 : table_fits :=
  mkTable [mkSpaxel (Fin 0) (Fin 0) (Fin 1) 1;
           mkSpaxel (Fin 0) (Fin 1) (Fin 1) 1;
           mkSpaxel (Fin (-1)) (Fin 0) (Fin 1) 2;
           mkSpaxel (Fin (-1)) (Fin 1) (Fin 1) 2] 1.

Definition gandalf4 : gandalf_fits :=
  mkGandalf [("Ha", "6562.8")]
            [[Fin 1]; [Fin 1]] [[Fin 2]; [Fin 2]] [[Fin 10]; [Fin (-10)]]
            [[Fin 30]; [Fin 40]] [[Fin 5]; [Fin 5]].

Definition fs4 : filesys :=
  mkFS (fun name => if String.eqb name "out/run_x/run_table.fits"
                    then Some table4 else None)
       (fun name => if String.eqb name "out/run_x/run_gandalf_BIN.fits"
                    then Some gandalf4 else None)
       (fun _ => None).

(** Four spaxels and one line, with the AoN 3, 3, 5, 5. *)
Definition four_samples : lines :=
  mkLines [[Fin 1]; [Fin 1]; [Fin 1]; [Fin 1]]
          [[Fin 1]; [Fin 1]; [Fin 1]; [Fin 1]]
          [[Fin 7]; [Fin (-8)]; [Fin 9]; [Fin 11]]
          [[Fin 1]; [Fin 1]; [Fin 1]; [Fin 1]]
          [[Fin 3]; [Fin 3]; [Fin 5]; [Fin 5]].

(* ================================================================== *)
(** * Facts about the array operations *)

Section ArrayFacts.

Lemma elem_of_where_from (mask : list bool) (i s : nat) :
  s ∈ where_from i mask ↔ ∃ k, s = (i + k)%nat ∧ mask !! k = Some true.
Proof.
  revert i. induction mask as [|b t IH]; intros i; simpl.
  - split; [intros H; inversion H | intros (k & _ & H); discriminate].
  - destruct b.
    + rewrite elem_of_cons, IH. split.
      * intros [-> | (k & -> & Hk)]; [exists 0%nat | exists (S k)]; split; auto; lia.
      * intros (k & -> & Hk). destruct k as [|k]; simpl in Hk.
        -- left; lia.
        -- right. exists k. split; [lia | done].
    + rewrite IH. split.
      * intros (k & -> & Hk). exists (S k). split; [lia | done].
      * intros (k & -> & Hk). destruct k as [|k]; simpl in Hk; [discriminate |].
        exists k. split; [lia | done].
Qed.

Lemma elem_of_np_where (mask : list bool) (s : nat) :
  s ∈ np_where mask ↔ mask !! s = Some true.
Proof.
  unfold np_where. rewrite elem_of_where_from. split.
  - intros (k & -> & Hk). done.
  - intros H. exists s. done.
Qed.

Lemma length_put_rows (idx : list nat) (row : list float) (a : arr2) :
  length (put_rows idx row a) = length a.
Proof.
  unfold put_rows. revert a.
  induction idx as [|r idx IH]; intros a; simpl; [done |].
  by rewrite IH, length_insert.
Qed.

Lemma lookup_put_rows (idx : list nat) (row : list float) (a : arr2) (s : nat) :
  (s < length a)%nat →
  put_rows idx row a !! s = if decide (s ∈ idx) then Some row else a !! s.
Proof.
  unfold put_rows. revert a.
  induction idx as [|r idx IH]; intros a Hs; simpl; [done |].
  rewrite IH by (by rewrite length_insert).
  repeat case_decide; try done.
  - exfalso. set_solver.
  - assert (r = s) as -> by set_solver. by rewrite list_lookup_insert_eq.
  - rewrite list_lookup_insert_ne; [done | set_solver].
Qed.

Lemma insert_unique_elem (x y : Z) (l : list Z) :
  y ∈ insert_unique x l ↔ y = x ∨ y ∈ l.
Proof.
  induction l as [|z t IH]; simpl.
  - set_solver.
  - destruct (Z.ltb_spec x z); [set_solver |].
    destruct (Z.eqb_spec x z); [set_solver |].
    rewrite elem_of_cons, IH. set_solver.
Qed.

Lemma elem_of_np_unique (y : Z) (l : list Z) : y ∈ np_unique l ↔ y ∈ l.
Proof.
  unfold np_unique. induction l as [|x t IH]; simpl; [done |].
  rewrite insert_unique_elem, IH. set_solver.
Qed.

Lemma insert_unique_sorted (x : Z) (l : list Z) :
  StronglySorted Z.lt l → StronglySorted Z.lt (insert_unique x l).
Proof.
  induction 1 as [|z t Hs IH Hall]; simpl.
  - repeat constructor.
  - destruct (Z.ltb_spec x z).
    + constructor; [by constructor |].
      constructor; [done |]. eapply Forall_impl; [exact Hall |]. simpl. lia.
    + destruct (Z.eqb_spec x z); [by constructor |].
      constructor; [done |].
      apply Forall_forall. intros y Hy. apply insert_unique_elem in Hy as [-> | Hy].
      * lia.
      * rewrite Forall_forall in Hall. by apply Hall.
Qed.

Lemma np_unique_sorted (l : list Z) : StronglySorted Z.lt (np_unique l).
Proof.
  unfold np_unique. induction l; simpl; [constructor | by apply insert_unique_sorted].
Qed.

Lemma sorted_lt_NoDup (l : list Z) : StronglySorted Z.lt l → NoDup l.
Proof.
  induction 1 as [|z t Hs IH Hall]; constructor; [| done].
  intros Hin. rewrite Forall_forall in Hall. specialize (Hall _ Hin). lia.
Qed.

Lemma np_unique_NoDup (l : list Z) : NoDup (np_unique l).
Proof. apply sorted_lt_NoDup, np_unique_sorted. Qed.

End ArrayFacts.

(* ================================================================== *)
(** * Bin expansion *)

Section BinExpansion.

Variables (binNum_long : list Z) (a : arr2).

Lemma lookup_bin_mask (u : Z) (s : nat) :
  s ∈ np_where (map (fun b => u =? Z.abs b) binNum_long) ↔
  ∃ b, binNum_long !! s = Some b ∧ u = Z.abs b.
Proof.
  rewrite elem_of_np_where, list_lookup_fmap. split.
  - destruct (binNum_long !! s) as [b|]; simpl; [| done].
    intros [= H]. exists b. split; [done | by apply Z.eqb_eq].
  - intros (b & -> & ->). simpl. by rewrite Z.eqb_refl.
Qed.

(** The loop of the expansion, started at row [i] of the per-bin array with
    the bins [rest] still to be visited. *)
Lemma expand_from_spec (rest : list Z) :
  ∀ (i : nat) (long : arr2),
  length long = length binNum_long →
  NoDup rest →
  (i + length rest ≤ length a)%nat →
  ∃ long', expand_from i rest binNum_long a long = Ok long' ∧
    length long' = length long ∧
    ∀ s b, binNum_long !! s = Some b →
      (∀ k, rest !! k = Some (Z.abs b) → long' !! s = a !! (i + k)%nat) ∧
      (Z.abs b ∉ rest → long' !! s = long !! s).
Proof.
  induction rest as [|u rest IH]; intros i long Hlen Hnd Hrows; simpl.
  - exists long. split; [done |]. split; [done |].
    intros s b Hb. split; [intros k Hk; discriminate | done].
  - simpl in Hrows.
    destruct (lookup_lt_is_Some_2 a i) as [row Hrow]; [lia |].
    rewrite Hrow.
    apply NoDup_cons in Hnd as [Hu Hnd].
    set (idx := np_where (map (fun b => u =? Z.abs b) binNum_long)).
    destruct (IH (S i) (put_rows idx row long)) as (long' & Hrun & Hlen' & Hspec).
    { by rewrite length_put_rows. }
    { done. }
    { lia. }
    exists long'. split; [done |]. split; [by rewrite Hlen', length_put_rows |].
    intros s b Hb. destruct (Hspec s b Hb) as [Hhit Hmiss].
    assert (Hs : (s < length long)%nat).
    { rewrite Hlen. by eapply lookup_lt_Some. }
    split.
    + intros [|k] Hk; simpl in Hk.
      * injection Hk as ->. rewrite Hmiss by done.
        rewrite lookup_put_rows by done.
        rewrite decide_True; [by rewrite Nat.add_0_r |].
        apply lookup_bin_mask. eauto.
      * rewrite (Hhit k Hk). f_equal. lia.
    + intros Hnot. apply not_elem_of_cons in Hnot as [Hne Hnot].
      rewrite Hmiss by done. rewrite lookup_put_rows by done.
      rewrite decide_False; [done |].
      intros (b' & Hb' & ->)%lookup_bin_mask. congruence.
Qed.

End BinExpansion.

(** C8. Bin expansion. With [ubins] the sorted, repetition-free absolute bin
    ids of the table and a per-bin array with one row per entry of [ubins],
    the expansion returns an array with one row per sample; the sample whose
    absolute bin id stands at position [k] of [ubins] receives row [k] of
    the per-bin array, and a sample whose absolute bin id is not in [ubins]
    receives a row of missing markers. *)
Theorem bin_expansion (ids binNum_long : list Z) (a : arr2) :
  length a = length (np_unique (map Z.abs ids)) →
  StronglySorted Z.lt (np_unique (map Z.abs ids)) ∧
  (∀ u, u ∈ np_unique (map Z.abs ids) ↔ ∃ id, id ∈ ids ∧ u = Z.abs id) ∧
  ∃ long,
    expand (np_unique (map Z.abs ids)) binNum_long a = Ok long ∧
    length long = length binNum_long ∧
    ∀ s b, binNum_long !! s = Some b →
      (∀ k, np_unique (map Z.abs ids) !! k = Some (Z.abs b) →
            long !! s = a !! k) ∧
      (Z.abs b ∉ np_unique (map Z.abs ids) →
            long !! s = Some (replicate (ncols a) NaN)).
Proof.
  intros Hrows. split; [apply np_unique_sorted |]. split.
  { intros u. rewrite elem_of_np_unique, list_elem_of_fmap. naive_solver. }
  unfold expand.
  destruct (expand_from_spec binNum_long a (np_unique (map Z.abs ids)) 0
              (full_nan (length binNum_long) (ncols a)))
    as (long & Hrun & Hlen & Hspec).
  { unfold full_nan. by rewrite length_replicate. }
  { apply np_unique_NoDup. }
  { lia. }
  exists long. split; [done |]. split.
  { rewrite Hlen. unfold full_nan. by rewrite length_replicate. }
  intros s b Hb. destruct (Hspec s b Hb) as [Hhit Hmiss]. split; [done |].
  intros Hnot. rewrite (Hmiss Hnot). unfold full_nan.
  apply lookup_replicate_2. by eapply lookup_lt_Some.
Qed.

(* ================================================================== *)
(** * Rounding and the extremes of an array *)

Section Rounding.

Open Scope Q_scope.


Lemma np_round_range (q : Q) :
  (Qfloor q ≤ np_round q ≤ Qfloor q + 1)%Z.
Proof.
  unfold np_round.
  destruct (q - inject_Z (Qfloor q) ?= 1 # 2); [destruct (Z.even _) | |]; lia.
Qed.

Lemma np_round_mono (q q' : Q) : q <= q' → (np_round q ≤ np_round q')%Z.
Proof.
  intros Hle.
  pose proof (Qfloor_resp_le _ _ Hle) as Hf.
  destruct (Z.eq_dec (Qfloor q) (Qfloor q')) as [Heq | Hne].
  - unfold np_round. rewrite <- Heq.
    destruct (Qcompare_spec (q - inject_Z (Qfloor q)) (1 # 2)) as [H1 | H1 | H1];
      destruct (Qcompare_spec (q' - inject_Z (Qfloor q)) (1 # 2)) as [H2 | H2 | H2];
      try destruct (Z.even _); try lia; exfalso; lra.
  - pose proof (np_round_range q). pose proof (np_round_range q'). lia.
Qed.

Lemma np_round_nonneg (q : Q) : 0 <= q → (0 ≤ np_round q)%Z.
Proof.
  intros H. pose proof (Qfloor_resp_le _ _ H) as Hf.
  change (Qfloor 0) with 0%Z in Hf.
  pose proof (np_round_range q). lia.
Qed.

Lemma Qdiv_le_compat (a b p : Q) : 0 < p → a <= b → a / p <= b / p.
Proof.
  intros Hp Hab. unfold Qdiv. apply Qmult_le_compat_r; [done |].
  apply Qlt_le_weak, Qinv_lt_0_compat, Hp.
Qed.

Lemma Qdiv_nonneg (a p : Q) : 0 < p → 0 <= a → 0 <= a / p.
Proof.
  intros Hp Ha. unfold Qdiv. apply Qmult_le_0_compat; [done |].
  apply Qlt_le_weak, Qinv_lt_0_compat, Hp.
Qed.

(** A coordinate between the extremes falls inside the padded grid. *)
Lemma pixel_in_grid (lo hi c p : Q) :
  0 < p → lo <= c → c <= hi →
  (0 ≤ np_round ((c - (lo - 6)) / p) <
       np_round ((hi + 6 - (lo - 6)) / p) + 1)%Z.
Proof.
  intros Hp Hlo Hhi. split.
  - apply np_round_nonneg, Qdiv_nonneg; [done | lra].
  - apply Z.lt_succ_r, np_round_mono, Qdiv_le_compat; [done | lra].
Qed.

Lemma Qle_bool_false (a b : Q) : Qle_bool a b = false → b < a.
Proof.
  intros H. apply Qnot_le_lt. intros Hle. apply Qle_bool_iff in Hle. congruence.
Qed.

Lemma fold_min_spec (t : list Q) :
  ∀ q, let m := fold_left Qmin' t q in
       (m = q ∨ In m t) ∧ m <= q ∧ ∀ y, In y t → m <= y.
Proof.
  induction t as [|x t IH]; intros q; simpl.
  - split; [by left |]. split; [lra | done].
  - destruct (IH (Qmin' q x)) as (Hin & Hle & Hall).
    unfold Qmin' in *. destruct (Qle_bool q x) eqn:E.
    + apply Qle_bool_iff in E. split; [intuition congruence |]. split; [done |].
      intros y [-> | Hy]; [lra | auto].
    + apply Qle_bool_false in E. split; [intuition congruence |]. split; [lra |].
      intros y [-> | Hy]; [lra | auto].
Qed.

Lemma fold_max_spec (t : list Q) :
  ∀ q, let m := fold_left Qmax' t q in
       (m = q ∨ In m t) ∧ q <= m ∧ ∀ y, In y t → y <= m.
Proof.
  induction t as [|x t IH]; intros q; simpl.
  - split; [by left |]. split; [lra | done].
  - destruct (IH (Qmax' q x)) as (Hin & Hle & Hall).
    unfold Qmax' in *. destruct (Qle_bool q x) eqn:E.
    + apply Qle_bool_iff in E. split; [intuition congruence |]. split; [lra |].
      intros y [-> | Hy]; [lra | auto].
    + apply Qle_bool_false in E. split; [intuition congruence |]. split; [done |].
      intros y [-> | Hy]; [lra | auto].
Qed.

End Rounding.

(* ================================================================== *)
(** * Rasterization *)

Section Rasterizer.

Lemma valid_lookup (l : list float) (s : nat) (x : Q) :
  l !! s = Some (Fin x) → In x (valid l).
Proof.
  revert s. induction l as [|[|q] t IH]; intros [|s] H; simpl in *;
    try discriminate; eauto.
  injection H as ->. by left.
Qed.

Lemma min_list_spec (l : list Q) : least_of l (min_list l).
Proof.
  destruct l as [|q t]; simpl; [done |].
  destruct (fold_min_spec t q) as (Hin & Hle & Hall).
  split; [intuition | intros y [<- | Hy]; auto].
Qed.

Lemma max_list_spec (l : list Q) : greatest_of l (max_list l).
Proof.
  destruct l as [|q t]; simpl; [done |].
  destruct (fold_max_spec t q) as (Hin & Hle & Hall).
  split; [intuition | intros y [<- | Hy]; auto].
Qed.

Lemma nanmin_below (l : list float) (x : Q) :
  In x (valid l) → ∃ lo, nanmin l = Ok (Fin lo) ∧ (lo <= x)%Q.
Proof.
  intros Hx. unfold nanmin. destruct l as [|a t]; [done |].
  remember (valid (a :: t)) as v eqn:Ev.
  pose proof (min_list_spec v) as Hm.
  destruct (min_list v) as [|lo]; simpl in Hm.
  - rewrite Hm in Hx. done.
  - exists lo. split; [done | by apply Hm].
Qed.

Lemma nanmax_above (l : list float) (x : Q) :
  In x (valid l) → ∃ hi, nanmax l = Ok (Fin hi) ∧ (x <= hi)%Q.
Proof.
  intros Hx. unfold nanmax. destruct l as [|a t]; [done |].
  remember (valid (a :: t)) as v eqn:Ev.
  pose proof (max_list_spec v) as Hm.
  destruct (max_list v) as [|hi]; simpl in Hm.
  - rewrite Hm in Hx. done.
  - exists hi. split; [done | by apply Hm].
Qed.

Lemma npixels_of_pos (a p : Q) :
  (0 < p)%Q → npixels_of (Fin a) p = Ok (np_round (a / p) + 1).
Proof.
  intros Hp. unfold npixels_of.
  destruct (Qeq_bool p 0) eqn:E; [| done].
  apply Qeq_bool_iff in E. lra.
Qed.

Lemma index_of_pos (a p : Q) :
  (0 < p)%Q → index_of (Fin a) p = np_round (a / p).
Proof.
  intros Hp. unfold index_of.
  destruct (Qeq_bool p 0) eqn:E; [| done].
  apply Qeq_bool_iff in E. lra.
Qed.

(** One axis of the grid: a finite coordinate of the array has its pixel
    inside the axis. *)
Lemma axis_in_bounds (C : list float) (p : Q) (s : nat) (c : Q) :
  (0 < p)%Q → C !! s = Some (Fin c) →
  ∃ lo hi N,
    nanmin C = Ok (Fin lo) ∧ nanmax C = Ok (Fin hi) ∧
    npixels_of (fsub (fadd (Fin hi) (Fin 6)) (fsub (Fin lo) (Fin 6))) p = Ok N ∧
    0 ≤ index_of (fsub (Fin c) (fsub (Fin lo) (Fin 6))) p < N.
Proof.
  intros Hp Hc. apply valid_lookup in Hc.
  destruct (nanmin_below C c Hc) as (lo & Hmin & Hlo).
  destruct (nanmax_above C c Hc) as (hi & Hmax & Hhi).
  exists lo, hi, (np_round ((hi + 6 - (lo - 6)) / p) + 1).
  split; [done |]. split; [done |]. cbn [fsub fadd].
  rewrite npixels_of_pos, index_of_pos by done.
  split; [done |]. by apply pixel_in_grid.
Qed.

Lemma norm_index_in (n : nat) (k : Z) :
  0 ≤ k < Z.of_nat n → norm_index n k = Some (Z.to_nat k).
Proof.
  intros H. unfold norm_index.
  destruct (Z.leb_spec 0 k); [| lia]. destruct (Z.ltb_spec k (Z.of_nat n)); [done | lia].
Qed.

Lemma broadcast_same {A : Type} (l : list A) : broadcast (length l) l = Some l.
Proof. unfold broadcast. by rewrite Nat.eqb_refl. Qed.

Lemma assign_same_length (nx ny : nat) (i j : list Z) (val : list float) (img : arr2) :
  length j = length i → length val = length i →
  assign nx ny i j val img = set_pixels nx ny img (zip (zip i j) val).
Proof.
  intros Hj Hv. unfold assign.
  assert (Hn : (if (length i =? 1)%nat then length j else length i) = length i)
    by (destruct (length i =? 1)%nat; congruence).
  rewrite Hn. rewrite broadcast_same.
  rewrite <- Hj at 1. rewrite broadcast_same.
  rewrite <- Hv at 1. by rewrite broadcast_same.
Qed.

Lemma set_pixels_ok (nx ny : nat) (l : list (Z * Z * float)) :
  Forall (fun ijv => 0 ≤ ijv.1.1 < Z.of_nat nx ∧ 0 ≤ ijv.1.2 < Z.of_nat ny) l →
  ∀ img, ∃ img', set_pixels nx ny img l = Ok img'.
Proof.
  induction 1 as [|[[i j] v] t [Hi Hj] _ IH]; intros img; simpl; [by eexists |].
  simpl in Hi, Hj. rewrite !norm_index_in by done. simpl. apply IH.
Qed.








End Rasterizer.


(* ================================================================== *)
(** * The median and the recentring of the velocities *)

Section Median.

Open Scope Q_scope.

Variable m : Q.

Local Abbreviation shift := (fun x : Q => x - m).







End Median.

Section Recentring.

Open Scope Q_scope.







End Recentring.



(* ================================================================== *)
(** * Runs *)

Section Runs.

Lemma emit_emit (a b : list event) (r : run) :
  emit a (emit b r) = emit (a ++ b) r.
Proof. unfold emit. simpl. by rewrite app_assoc. Qed.

Lemma emit_nil (r : run) : emit [] r = r.
Proof. by destruct r. Qed.

Lemma ending_emit (a : list event) (r : run) : ending (emit a r) = ending r.
Proof. done. Qed.

Lemma unread_emit (a : list event) (r : run) : unread (emit a r) = unread r.
Proof. done. Qed.

Lemma vminmax_emit (a : list event) (r : run) :
  vminmax_end (emit a r) = vminmax_end r.
Proof. done. Qed.

Lemma events_emit (a : list event) (r : run) :
  events (emit a r) = a ++ events r.
Proof. done. Qed.

Lemma saved_offsets_app (a b : list event) :
  saved_offsets (a ++ b) = saved_offsets a ++ saved_offsets b.
Proof. unfold saved_offsets. by rewrite map_app, concat_app. Qed.

End Runs.

(* ================================================================== *)
(** * Range calibration *)

Lemma split_on_cons (sep : ascii) (s : string) :
  ∃ f fs, split_on sep s = f :: fs.
Proof.
  induction s as [|c t (f & fs & IH)]; simpl; [by eauto |].
  destruct (Ascii.eqb c sep); [by eauto |]. rewrite IH. eauto.
Qed.



Section RangeCalibration.

Variables (vminmax : list (float * float)) (iterate : nat).

(** A typed pair is stored in the slot of the quantity, and an empty answer
    reads the slot. *)
Lemma typed_range_stores (inp : string) (lo hi : float)
    (vminmax' : list (float * float)) :
  typed_range inp vminmax iterate = Ok (lo, hi, vminmax') →
  vminmax' !! iterate = Some (lo, hi) ∧ length vminmax' = length vminmax.
Proof.
  unfold typed_range. destruct (String.eqb inp "").
  - destruct (vminmax !! iterate) as [[a b]|] eqn:E; [| done].
    intros [= <- <- <-]. done.
  - destruct (py_float _) as [a|]; cbn [mbind result_bind]; [| done].
    destruct (split_on "," inp !! 1%nat) as [f|]; cbn [mbind result_bind]; [| done].
    destruct (py_float f) as [b|]; cbn [mbind result_bind]; [| done].
    destruct (vminmax !! iterate) eqn:E; [| done].
    intros [= <- <- <-]. rewrite length_insert. split; [| done].
    apply list_lookup_insert_eq. by eapply lookup_lt_Some.
Qed.

Lemma typed_range_empty (lo hi : float) :
  vminmax !! iterate = Some (lo, hi) →
  typed_range "" vminmax iterate = Ok (lo, hi, vminmax).
Proof. intros H. unfold typed_range. simpl. by rewrite H. Qed.


(** Exactly two numbers are in particular two leading numbers; the
    converse fails. *)
Lemma exactly_two_is_leading (inp : string) :
  exactly_two_numbers inp = true → two_leading_numbers inp = true.
Proof.
  unfold exactly_two_numbers, two_leading_numbers.
  by destruct (split_on "," inp) as [|f0 [|f1 [|f2 fs]]].
Qed.

Lemma three_numbers_are_taken :
  exactly_two_numbers "1,2,3" = false ∧
  typed_range "1,2,3" zeros42 0
    = Ok (Fin 1, Fin 2, <[0%nat := (Fin 1, Fin 2)]> zeros42).
Proof. vm_compute. done. Qed.

(** What counts as a number: grouped digits and [nan] are read, [inf],
    [infinity] and a literal too large for a double are numbers that read
    as an infinity, and a misplaced underscore makes no number. *)
Lemma numbers_of_float :
  typed_range "1_0,2_0" zeros42 0
    = Ok (Fin 10, Fin 20, <[0%nat := (Fin 10, Fin 20)]> zeros42) ∧
  typed_range "nan, 1e1" zeros42 0
    = Ok (NaN, Fin 10, <[0%nat := (NaN, Fin 10)]> zeros42) ∧
  map is_infinity ["inf"; "-Infinity"; "1e400"; "1e308"]
    = [true; true; true; false] ∧
  two_leading_numbers "-inf,inf" = true ∧
  map is_number ["1__0"; "_1"; "1_"; "1e_5"; "."; "abc"]
    = [false; false; false; false; false; false].
Proof. vm_compute. done. Qed.

Lemma unprompted_replay (lo hi : float) (val : list float) :
  vminmax !! iterate = Some (lo, hi) →
  unprompted_range true vminmax iterate val = Ok (lo, hi).
Proof. intros H. unfold unprompted_range. by rewrite H. Qed.

Lemma unprompted_automatic (val : list float) :
  val ≠ [] →
  unprompted_range false vminmax iterate val
    = Ok (min_list (valid val), max_list (valid val)).
Proof. intros H. unfold unprompted_range, nanmin, nanmax. by destruct val. Qed.

End RangeCalibration.

(* ================================================================== *)
(** * The emission-line renderer *)

Section PlotLine.

Variable log10 : float → float.
Variable tricontour :
  list float → list float → list float → float → Q → result unit.
Variables (LEVEL : string) (FROM_PIPELINE : bool).
Variables (gandalf_Vel gandalf_Sigma gandalf_Flux gandalf_Ampl : arr2).
Variables (runname : string) (AoNThreshold : float) (line_idx : nat).
Variables (lineIdentifier : string * string).
Variables (X Y FLUX : list float) (pixelsize : Q).
Variables (outdir rootname : string) (iterate : nat).

Local Abbreviation pass I S vm cos stdin :=
  (plot_line log10 tricontour LEVEL FROM_PIPELINE gandalf_Vel gandalf_Sigma
     gandalf_Flux gandalf_Ampl I S runname AoNThreshold line_idx lineIdentifier
     vm cos X Y FLUX pixelsize outdir rootname iterate stdin).
Local Abbreviation val_of :=
  (select_val log10 gandalf_Vel gandalf_Sigma gandalf_Flux gandalf_Ampl
     line_idx iterate).
Local Abbreviation label := (nth iterate labellist EmptyString).
Local Abbreviation file := (pdf_name outdir rootname lineIdentifier iterate LEVEL).
Local Abbreviation paint val lo hi off :=
  (draw tricontour X Y FLUX val pixelsize lo hi off).

Lemma draw_fields (val : list float) (lo hi off : float) (p : panel) :
  paint val lo hi off = Ok p →
  vmin p = lo ∧ vmax p = hi ∧ contour_offset p = off.
Proof.
  unfold draw. destruct (rasterize _ _ _ _); cbn [mbind result_bind]; [| done].
  destruct (tricontour _ _ _ _ _); cbn [mbind result_bind]; [| done].
  by intros [= <-].
Qed.

(** A pass without prompts: automatic, or the replay after an accepted
    preview. It reads nothing and calls itself no further. *)
Lemma plot_line_unprompted (sai : bool) (vm : list (float * float))
    (cos : float) (stdin : list string) (val : list float) :
  val_of = Ok val → all_nan val = false →
  pass false sai vm cos stdin =
    match unprompted_range sai vm iterate val
          ≫= (fun '(lo, hi) => paint val lo hi (Fin (2 # 10))) with
    | Ok p => emit [Savefig file [p]] (stop vm stdin (Ok ()))
    | Raise e => stop vm stdin (Raise e)
    end.
Proof.
  intros Hval Hnan. destruct stdin; simpl; rewrite Hval, Hnan; done.
Qed.

(** The guard on a quantity without any valid value: the function returns
    before it asks for a range, rasterizes, shows or saves. *)
Lemma plot_line_skips_all_missing (sai : bool) (vm : list (float * float))
    (cos : float) (val : list float) :
  val_of = Ok val → all_nan val = true →
  (∀ stdin, pass false sai vm cos stdin = stop vm stdin (Ok ())) ∧
  (∀ inp0 rest off, typed_offset_gandalf inp0 = Ok off →
     pass true sai vm cos (inp0 :: rest)
       = emit [AskOffset (Fin (2 # 10))] (stop vm rest (Ok ()))).
Proof.
  intros Hval Hnan. split.
  - intros stdin. destruct stdin; simpl; rewrite Hval, Hnan; done.
  - intros inp0 rest off Hoff. simpl. rewrite Hoff, Hval, Hnan. done.
Qed.

(** A calibration pass up to the save prompt, and the three ways on. *)
Lemma plot_line_decide (sai : bool) (vm vm' : list (float * float))
    (cos : float) (inp0 inp1 resp : string) (rest : list string)
    (off lo hi : float) (val : list float) (ask : event) (p : panel) :
  typed_offset_gandalf inp0 = Ok off →
  val_of = Ok val → all_nan val = false →
  range_prompt label vm iterate val = Ok ask →
  typed_range inp1 vm iterate = Ok (lo, hi, vm') →
  paint val lo hi off = Ok p →
  pass true sai vm cos (inp0 :: inp1 :: resp :: rest) =
    emit [AskOffset (Fin (2 # 10)); ask; Show [p]; AskSave; Print ""]
      (if is_yes resp then pass false true vm' cos rest
       else if is_no resp then pass true false vm' cos rest
       else emit [Print hint] (pass true false vm' cos rest)).
Proof.
  intros Hoff Hval Hnan Hask Hrange Hdraw.
  cbn [plot_line]. rewrite Hoff, Hval, Hnan, Hask, Hrange, Hdraw.
  rewrite !emit_emit. done.
Qed.



Lemma range_prompt_inv (vm : list (float * float)) (val : list float)
    (ask : event) :
  range_prompt label vm iterate val = Ok ask →
  ∃ guess prev, ask = AskRange label guess prev.
Proof.
  unfold range_prompt.
  destruct (nanmin val); cbn [mbind result_bind]; [| done].
  destruct (nanmax val); cbn [mbind result_bind]; [| done].
  destruct (vm !! iterate); [| done]. intros [= <-]. eauto.
Qed.

(** Whatever is typed at the isophote prompt, every figure that
    [plot_line] saves is drawn with the offset 0.20. *)
Lemma plot_line_saves_default_offset (stdin : list string) :
  ∀ (INTERACTIVE sai : bool) (vm : list (float * float)) (cos : float),
  Forall (eq (Fin (2 # 10)))
         (saved_offsets (events (pass INTERACTIVE sai vm cos stdin))).
Proof.
  induction stdin as [stdin IH] using (induction_ltof1 _ (@length string)).
  assert (Hquiet : ∀ sai vm cos stdin',
            Forall (eq (Fin (2 # 10)))
                   (saved_offsets (events (pass false sai vm cos stdin')))).
  { intros sai vm cos stdin'.
    destruct stdin'; cbn [plot_line];
      (destruct val_of as [val|]; [| constructor]);
      (destruct (all_nan val); [constructor |]);
      (destruct (unprompted_range sai vm iterate val) as [[lo hi]|];
         cbn [mbind result_bind]; [| constructor]);
      (destruct (paint val lo hi (Fin (2 # 10))) as [p|] eqn:Hp; [| constructor]);
      apply draw_fields in Hp as (_ & _ & Hoff);
      cbn; rewrite Hoff; repeat constructor. }
  intros [|] sai vm cos; [| apply Hquiet].
  destruct stdin as [|inp0 stdin1]; cbn [plot_line]; [constructor |].
  destruct (typed_offset_gandalf inp0) as [off|]; [| constructor].
  destruct val_of as [val|]; [| constructor].
  destruct (all_nan val); [constructor |].
  destruct (range_prompt label vm iterate val) as [ask|] eqn:Hask; [| constructor].
  apply range_prompt_inv in Hask as (guess & prev & ->).
  destruct stdin1 as [|inp1 stdin2]; [constructor |].
  destruct (typed_range inp1 vm iterate) as [[[lo hi] vm']|]; [| constructor].
  destruct (paint val lo hi off) as [p|]; [| constructor].
  destruct stdin2 as [|inp2 stdin3]; [constructor |].
  rewrite !emit_emit.
  assert (Hlt : ltof _ (@length string) stdin3 (inp0 :: inp1 :: inp2 :: stdin3)).
  { unfold ltof. simpl. lia. }
  destruct (is_yes inp2); [| destruct (is_no inp2)];
    rewrite ?emit_emit, events_emit, saved_offsets_app; cbn [app];
    apply Forall_app; (split; [constructor |]); by apply IH.
Qed.

Lemma is_yes_iff (resp : string) :
  is_yes resp = true ↔ resp ∈ ["y"; "Y"; "yes"; "YES"].
Proof.
  unfold is_yes. rewrite !orb_true_iff, !String.eqb_eq. set_solver.
Qed.

Lemma is_no_iff (resp : string) :
  is_no resp = true ↔ resp ∈ ["n"; "N"; "no"; "NO"].
Proof.
  unfold is_no. rewrite !orb_true_iff, !String.eqb_eq. set_solver.
Qed.

(** X14. The save prompt of [plot_line]. In a calibration pass that reaches
    the prompt, an answer among y, Y, yes, YES is followed by one pass with
    INTERACTIVE false and SAVE_AFTER_INTERACTIVE true, which is given the
    [vminmax] just confirmed, reads no line, draws with the confirmed
    range and saves (or raises what the drawing raises); every other answer
    is followed by a pass with INTERACTIVE true and SAVE_AFTER_INTERACTIVE
    false, given the same [vminmax], after a hint when the answer is not
    among n, N, no, NO; that pass shows the rejected range as the previous
    choice and takes it again on an empty answer. *)
Theorem decide_prompt_transitions (sai : bool) (vm vm' : list (float * float))
    (cos : float) (inp0 inp1 resp : string) (rest : list string)
    (off lo hi : float) (val : list float) (ask : event) (p : panel) :
  typed_offset_gandalf inp0 = Ok off →
  val_of = Ok val → all_nan val = false →
  range_prompt label vm iterate val = Ok ask →
  typed_range inp1 vm iterate = Ok (lo, hi, vm') →
  paint val lo hi off = Ok p →
  (is_yes resp = true ↔ resp ∈ ["y"; "Y"; "yes"; "YES"]) ∧
  (is_no resp = true ↔ resp ∈ ["n"; "N"; "no"; "NO"]) ∧
  pass true sai vm cos (inp0 :: inp1 :: resp :: rest) =
    emit [AskOffset (Fin (2 # 10)); ask; Show [p]; AskSave; Print ""]
      (if is_yes resp then pass false true vm' cos rest
       else if is_no resp then pass true false vm' cos rest
       else emit [Print hint] (pass true false vm' cos rest)) ∧
  pass false true vm' cos rest =
    match paint val lo hi (Fin (2 # 10)) with
    | Ok p' => emit [Savefig file [p']] (stop vm' rest (Ok ()))
    | Raise e => stop vm' rest (Raise e)
    end ∧
  vm' !! iterate = Some (lo, hi) ∧
  typed_range "" vm' iterate = Ok (lo, hi, vm') ∧
  ∃ guess, range_prompt label vm' iterate val = Ok (AskRange label guess (lo, hi)).
Proof.
  intros Hoff Hval Hnan Hask Hrange Hdraw.
  destruct (typed_range_stores _ _ _ _ _ _ Hrange) as [Hslot _].
  split; [apply is_yes_iff |]. split; [apply is_no_iff |].
  split; [by eapply plot_line_decide |].
  split.
  { rewrite (plot_line_unprompted true vm' cos rest val Hval Hnan).
    rewrite (unprompted_replay _ _ _ _ _ Hslot). done. }
  split; [done |]. split; [by apply typed_range_empty |].
  unfold range_prompt in *.
  destruct (nanmin val) as [a|]; cbn [mbind result_bind] in *; [| done].
  destruct (nanmax val) as [b|]; cbn [mbind result_bind] in *; [| done].
  rewrite Hslot. eauto.
Qed.

(** C6. The range without a prompt. In the replay pass the range is the
    stored pair, whatever the data; in the automatic pass it is the least
    and the greatest of the valid values of the quantity. [plot_line] draws
    and saves its panel with that range. *)
Theorem replay_and_automatic_ranges (vm : list (float * float)) (cos : float)
    (stdin : list string) (val : list float) :
  (∀ lo hi, vm !! iterate = Some (lo, hi) →
     ∀ data, unprompted_range true vm iterate data = Ok (lo, hi)) ∧
  (∀ data, data ≠ [] →
     ∃ lo hi, unprompted_range false vm iterate data = Ok (lo, hi) ∧
              least_of (valid data) lo ∧ greatest_of (valid data) hi) ∧
  (val_of = Ok val → all_nan val = false →
   ∀ sai lo hi p,
     unprompted_range sai vm iterate val = Ok (lo, hi) →
     paint val lo hi (Fin (2 # 10)) = Ok p →
     pass false sai vm cos stdin = emit [Savefig file [p]] (stop vm stdin (Ok ())) ∧
     vmin p = lo ∧ vmax p = hi).
Proof.
  split; [| split].
  - intros lo hi Hslot data. by apply unprompted_replay.
  - intros data Hne. eexists _, _. split; [by apply unprompted_automatic |].
    split; [apply min_list_spec | apply max_list_spec].
  - intros Hval Hnan sai lo hi p Hrange Hdraw.
    rewrite (plot_line_unprompted sai vm cos stdin val Hval Hnan).
    rewrite Hrange. cbn [mbind result_bind]. rewrite Hdraw.
    split; [done |]. by destruct (draw_fields _ _ _ _ _ Hdraw) as (? & ? & _).
Qed.


End PlotLine.

(* ================================================================== *)
(** * Worked runs of the emission-line renderer *)

(** C3 on [plot_line]. The operator types 0.5 at the isophote prompt, keeps
    the stored range and accepts the preview. The preview is drawn with
    the offset 0.5; the pass that saves draws with 0.20. *)
Theorem replay_forgets_typed_offset :
  ending (line3 true false zeros42 ["0.5"; ""; "y"]) = Ok () ∧
  shown_offsets (events (line3 true false zeros42 ["0.5"; ""; "y"]))
    = [Fin (1 # 2)] ∧
  saved_offsets (events (line3 true false zeros42 ["0.5"; ""; "y"]))
    = [Fin (2 # 10)].
Proof. vm_compute. done. Qed.



Lemma replay_and_automatic_ranges_witness :
  zeros42 !! 0%nat = Some (Fin 0, Fin 0) ∧
  unprompted_range true zeros42 0 val3 = Ok (Fin 0, Fin 0) ∧
  val3 ≠ [] ∧
  ∃ lo hi, unprompted_range false zeros42 0 val3 = Ok (lo, hi) ∧
           least_of (valid val3) lo ∧ greatest_of (valid val3) hi.
Proof.
  pose proof (replay_and_automatic_ranges log10_unused tricontour_3 "BIN" false
                V3 V3 V3 V3 "out/" (Fin 4) 0 ("Ha", "6562") X3 Y3 FLUX3 1
                "out/maps/" "root" 0 zeros42 (Fin (2 # 10)) [] val3)
    as (Hreplay & Hauto & _).
  split; [reflexivity |].
  split; [exact (Hreplay (Fin 0) (Fin 0) eq_refl val3) |].
  split; [discriminate |].
  apply Hauto. discriminate.
Defined.

Lemma decide_prompt_transitions_witness :
  ∃ (p : panel) (vm' : list (float * float)),
    typed_offset_gandalf "0.5" = Ok (Fin (1 # 2)) ∧
    select_val log10_unused V3 V3 V3 V3 0 0 = Ok val3 ∧
    all_nan val3 = false ∧
    range_prompt "V" zeros42 0 val3
      = Ok (AskRange "V" (Fin 10, Fin 30) (Fin 0, Fin 0)) ∧
    typed_range "5,25" zeros42 0 = Ok (Fin 5, Fin 25, vm') ∧
    draw tricontour_3 X3 Y3 FLUX3 val3 1 (Fin 5) (Fin 25) (Fin (1 # 2)) = Ok p ∧
    line3 true false zeros42 ["0.5"; "5,25"; "maybe"; ""; ""; "y"] =
      emit [AskOffset (Fin (2 # 10));
            AskRange "V" (Fin 10, Fin 30) (Fin 0, Fin 0);
            Show [p]; AskSave; Print ""]
        (emit [Print hint] (line3 true false vm' [""; ""; "y"])) ∧
    vm' !! 0%nat = Some (Fin 5, Fin 25).
Proof.
  eexists _, _.
  assert (H1 : typed_offset_gandalf "0.5" = Ok (Fin (1 # 2))) by reflexivity.
  assert (H2 : select_val log10_unused V3 V3 V3 V3 0 0 = Ok val3) by reflexivity.
  assert (H3 : all_nan val3 = false) by reflexivity.
  assert (H4 : range_prompt "V" zeros42 0 val3
               = Ok (AskRange "V" (Fin 10, Fin 30) (Fin 0, Fin 0))) by reflexivity.
  do 4 (split; [first [exact H1 | exact H2 | exact H3 | exact H4] |]).
  do 2 (split; [vm_compute; reflexivity |]).
  match goal with
  | |- ?run = emit ?es (emit _ (line3 _ _ ?vm' _)) ∧ _ =>
      match es with
      | [_; _; Show [?p]; _; _] =>
          destruct (decide_prompt_transitions log10_unused tricontour_3 "BIN" false
                      V3 V3 V3 V3 "out/" (Fin 4) 0 ("Ha", "6562") X3 Y3 FLUX3 1
                      "out/maps/" "root" 0 false zeros42 vm' (Fin (2 # 10))
                      "0.5" "5,25" "maybe" [""; ""; "y"] (Fin (1 # 2)) (Fin 5)
                      (Fin 25) val3 _ p H1 H2 H3 H4 eq_refl eq_refl)
            as (_ & _ & Hstep & _ & Hslot & _)
      end
  end.
  split; [exact Hstep | exact Hslot].
Defined.

(* ================================================================== *)
(** * The kinematics renderer *)

Section PlotMaps.

Variable tricontour :
  list float → list float → list float → float → Q → result unit.
Variables (fs : filesys) (flag outdir : string).

(** The module binds no name [ppxf]. *)
Lemma kin_globals_no_ppxf (attr : string) :
  hasattr kin_globals "ppxf" attr = Raise (NameError "ppxf").
Proof. reflexivity. Qed.

Lemma read_kin_raises (rootname : string) (table_hdu : table_fits) :
  ∃ e, read_kin kin_globals fs flag outdir rootname table_hdu = Raise e.
Proof.
  unfold read_kin.
  match goal with
  | |- ∃ e, (?open ≫= _) = _ => destruct open as [[rows|]|e]
  end; cbn [mbind result_bind]; try (by eexists).
  destruct (fill_column _ (map kin_V rows)); cbn [mbind result_bind]; [| by eexists].
  destruct (fill_column _ (map kin_SIGMA rows)); cbn [mbind result_bind]; [| by eexists].
  rewrite kin_globals_no_ppxf. by eexists.
Qed.

(** When the files are there and the fit has one row per bin, the first
    exception is the one for [ppxf]. *)
Lemma read_kin_reaches_ppxf (rootname : string) (table_hdu : table_fits)
    (rows : list kin_row) :
  (flag = "KIN" ∧ open_kin fs (path_join outdir rootname +:+ "_kin.fits") = Some rows ∨
   flag = "SFH" ∧ open_kin fs (path_join outdir rootname +:+ "_sfh.fits") = Some rows) →
  (length rows = length (np_unique (map Z.abs (map tab_BIN_ID (tab_rows table_hdu)))) ∨
   length rows = 1%nat) →
  read_kin kin_globals fs flag outdir rootname table_hdu = Raise (NameError "ppxf").
Proof.
  intros Hfile Hlen. unfold read_kin.
  assert (Hfill : ∀ (f : kin_row → float),
            ∃ c, fill_column
                   (length (np_unique (map Z.abs (map tab_BIN_ID (tab_rows table_hdu)))))
                   (map f rows) = Ok c).
  { intros f. unfold fill_column, broadcast. rewrite length_map.
    destruct Hlen as [-> | H1].
    - rewrite Nat.eqb_refl. by eexists.
    - destruct (_ =? _)%nat; [by eexists |].
      destruct rows as [|r [|? ?]]; try discriminate. by eexists. }
  assert (Hopen : (if String.eqb flag "KIN"
                   then Some <$> fits_open (open_kin fs)
                                   (path_join outdir rootname +:+ "_kin.fits")
                   else if String.eqb flag "SFH"
                   then Some <$> fits_open (open_kin fs)
                                   (path_join outdir rootname +:+ "_sfh.fits")
                   else Ok None) = Ok (Some rows)).
  { destruct Hfile as [[-> H] | [-> H]]; cbn [String.eqb]; unfold fits_open;
      rewrite H; reflexivity. }
  rewrite Hopen. cbn [mbind result_bind].
  destruct (Hfill kin_V) as [v ->]. destruct (Hfill kin_SIGMA) as [sg ->].
  cbn [mbind result_bind]. rewrite kin_globals_no_ppxf. done.
Qed.

Lemma check_coordinates_prints (X Y : list float) :
  Forall (fun ev => is_figure ev = false ∧ is_prompt ev = false)
         (check_coordinates X Y).
Proof.
  unfold check_coordinates.
  destruct (degenerate X), (degenerate Y); repeat constructor.
Qed.

Lemma kin_prelude_raises :
  (∃ e, (kin_prelude kin_globals fs flag outdir).2 = Raise e) ∧
  Forall (fun ev => is_figure ev = false ∧ is_prompt ev = false)
         (kin_prelude kin_globals fs flag outdir).1.
Proof.
  unfold kin_prelude. destruct (fits_open _ _) as [table_hdu|e]; cbn [fst snd].
  - split; [| apply check_coordinates_prints].
    destruct (read_kin_raises (kin_rootname outdir) table_hdu) as [e ->].
    by eexists.
  - split; [by eexists | constructor].
Qed.

(** A run of [plotMaps] whose first part raises goes no further. *)
Lemma plotMaps_in_stops (g : namespace) (INTERACTIVE : bool)
    (vminmax : list (float * float)) (contour_offset_saved : float)
    (SAVE_AFTER_INTERACTIVE : bool) (stdin : list string) (e : exn) :
  (kin_prelude g fs flag outdir).2 = Raise e →
  plotMaps_in tricontour g fs flag outdir INTERACTIVE vminmax
    contour_offset_saved SAVE_AFTER_INTERACTIVE stdin
  = emit (kin_prelude g fs flag outdir).1 (stop vminmax stdin (Raise e)).
Proof.
  intros H. destruct stdin; cbn [plotMaps_in];
    destruct (kin_prelude g fs flag outdir) as [w d]; cbn [fst snd] in *;
    by subst d.
Qed.

(** The exception of the first part of [plotMaps], case by case. *)
Lemma kin_prelude_cases :
  let tname := path_join outdir (kin_rootname outdir) +:+ "_table.fits" in
  let kname := path_join outdir (kin_rootname outdir) +:+ "_kin.fits" in
  let sname := path_join outdir (kin_rootname outdir) +:+ "_sfh.fits" in
  let e := (kin_prelude kin_globals fs flag outdir).2 in
  (open_table fs tname = None → e = Raise (FileNotFoundError tname)) ∧
  (∀ table_hdu, open_table fs tname = Some table_hdu →
     (flag ≠ "KIN" → flag ≠ "SFH" → e = Raise (UnboundLocalError "hdu")) ∧
     (flag = "KIN" → open_kin fs kname = None →
        e = Raise (FileNotFoundError kname)) ∧
     (flag = "SFH" → open_kin fs sname = None →
        e = Raise (FileNotFoundError sname)) ∧
     (∀ rows,
        (flag = "KIN" ∧ open_kin fs kname = Some rows ∨
         flag = "SFH" ∧ open_kin fs sname = Some rows) →
        length rows
          ≠ length (np_unique (map Z.abs (map tab_BIN_ID (tab_rows table_hdu)))) →
        length rows ≠ 1%nat →
        e = Raise (ValueError "could not broadcast input array"))).
Proof.
  intros tname kname sname e. subst tname kname sname e.
  unfold kin_prelude, fits_open. split.
  - by intros ->.
  - intros table_hdu ->. cbn [snd]. unfold read_kin, fits_open.
    split; [| split; [| split]].
    + intros HK HS.
      destruct (String.eqb_spec flag "KIN"); [done |].
      destruct (String.eqb_spec flag "SFH"); [done |]. done.
    + intros -> Hno. cbn [String.eqb Ascii.eqb Bool.eqb andb]. by rewrite Hno.
    + intros -> Hno. cbn [String.eqb Ascii.eqb Bool.eqb andb]. by rewrite Hno.
    + intros rows Hfile Hlen H1.
      assert (Hfill : fill_column
                (length (np_unique (map Z.abs (map tab_BIN_ID (tab_rows table_hdu)))))
                (map kin_V rows)
              = Raise (ValueError "could not broadcast input array")).
      { unfold fill_column, broadcast. rewrite length_map.
        destruct (Nat.eqb_spec (length rows)
                    (length (np_unique (map Z.abs
                                          (map tab_BIN_ID (tab_rows table_hdu))))));
          [done |].
        by destruct rows as [|r [|r' rows]]. }
      destruct Hfile as [[-> Hopen] | [-> Hopen]];
        cbn [String.eqb Ascii.eqb Bool.eqb andb]; rewrite Hopen;
        cbn [fmap result_fmap mbind result_bind]; by rewrite Hfill.
Qed.

(** C1, as the code has it. Every call of [plotMaps] raises before it sets
    up a figure: it prompts for nothing, reads no line, shows and saves
    nothing, and leaves [vminmax] as it was. When the flag is KIN or SFH,
    the table and the result file are there and the fit has one row per
    bin (or a single row), the exception is the NameError for [ppxf]. In
    every other case it is an earlier one: the FileNotFoundError of a
    missing table or result file, the UnboundLocalError for [hdu] with a
    flag other than KIN and SFH, the ValueError of the assignment of a V
    column whose length is neither the number of bins nor one. *)
Theorem plotMaps_raises_before_any_figure (INTERACTIVE : bool)
    (vminmax : list (float * float)) (contour_offset_saved : float)
    (SAVE_AFTER_INTERACTIVE : bool) (stdin : list string) :
  let r := plotMaps tricontour fs flag outdir INTERACTIVE vminmax
             contour_offset_saved SAVE_AFTER_INTERACTIVE stdin in
  (∃ e, ending r = Raise e) ∧
  Forall (fun ev => is_figure ev = false ∧ is_prompt ev = false) (events r) ∧
  unread r = stdin ∧ vminmax_end r = vminmax ∧
  (∀ table_hdu rows,
     open_table fs (path_join outdir (kin_rootname outdir) +:+ "_table.fits")
       = Some table_hdu →
     (flag = "KIN" ∧
      open_kin fs (path_join outdir (kin_rootname outdir) +:+ "_kin.fits")
        = Some rows ∨
      flag = "SFH" ∧
      open_kin fs (path_join outdir (kin_rootname outdir) +:+ "_sfh.fits")
        = Some rows) →
     (length rows
        = length (np_unique (map Z.abs (map tab_BIN_ID (tab_rows table_hdu)))) ∨
      length rows = 1%nat) →
     ending r = Raise (NameError "ppxf")) ∧
  (open_table fs (path_join outdir (kin_rootname outdir) +:+ "_table.fits")
     = None →
   ending r
     = Raise (FileNotFoundError
                (path_join outdir (kin_rootname outdir) +:+ "_table.fits"))) ∧
  (∀ table_hdu,
     open_table fs (path_join outdir (kin_rootname outdir) +:+ "_table.fits")
       = Some table_hdu →
     (flag ≠ "KIN" → flag ≠ "SFH" →
        ending r = Raise (UnboundLocalError "hdu")) ∧
     (flag = "KIN" →
      open_kin fs (path_join outdir (kin_rootname outdir) +:+ "_kin.fits") = None →
        ending r
          = Raise (FileNotFoundError
                     (path_join outdir (kin_rootname outdir) +:+ "_kin.fits"))) ∧
     (flag = "SFH" →
      open_kin fs (path_join outdir (kin_rootname outdir) +:+ "_sfh.fits") = None →
        ending r
          = Raise (FileNotFoundError
                     (path_join outdir (kin_rootname outdir) +:+ "_sfh.fits"))) ∧
     (∀ rows,
        (flag = "KIN" ∧
         open_kin fs (path_join outdir (kin_rootname outdir) +:+ "_kin.fits")
           = Some rows ∨
         flag = "SFH" ∧
         open_kin fs (path_join outdir (kin_rootname outdir) +:+ "_sfh.fits")
           = Some rows) →
        length rows
          ≠ length (np_unique (map Z.abs (map tab_BIN_ID (tab_rows table_hdu)))) →
        length rows ≠ 1%nat →
        ending r = Raise (ValueError "could not broadcast input array"))).
Proof.
  intros r. subst r. unfold plotMaps.
  destruct kin_prelude_raises as [[e He] Hev].
  rewrite (plotMaps_in_stops _ _ _ _ _ _ _ He).
  split; [by eexists |]. split.
  { cbn [events emit stop]. by rewrite app_nil_r. }
  split; [done |]. split; [done |].
  cbn [ending emit stop].
  assert (Hinj : ∀ x, (kin_prelude kin_globals fs flag outdir).2 = Raise x →
                      @Raise unit e = Raise x).
  { intros x Hx. rewrite He in Hx. by injection Hx as ->. }
  destruct kin_prelude_cases as [Hnotable Htable].
  split.
  { intros table_hdu rows Htab Hfile Hlen. apply Hinj.
    unfold kin_prelude, fits_open. rewrite Htab. cbn [snd].
    by rewrite (read_kin_reaches_ppxf _ _ rows Hfile Hlen). }
  split; [by intros Hno; apply Hinj, Hnotable |].
  intros table_hdu Htab.
  destruct (Htable table_hdu Htab) as (Hflag & Hkin & Hsfh & Hrows).
  split; [by intros HK HS; apply Hinj, Hflag |].
  split; [by intros HK Hno; apply Hinj, Hkin |].
  split; [by intros HS Hno; apply Hinj, Hsfh |].
  intros rows Hfile Hlen H1. by apply Hinj, (Hrows rows).
Qed.

End PlotMaps.

(** C1 as stated fails. With a flag other than KIN and SFH the run ends at
    the first use of [hdu], which was never assigned; with a fit of two
    rows for three bins it ends with the ValueError of the assignment to
    the first column, which is no NameError. Neither run reaches the name
    [ppxf]. *)
Lemma plotMaps_not_always_ppxf :
  ending (plotMaps tricontour_3 fs3 "XYZ" "out/run/" false zeros42 (Fin (2 # 10))
            false [])
    = Raise (UnboundLocalError "hdu") ∧
  ending (plotMaps tricontour_3 fs3 "SFH" "out/run/" false zeros42 (Fin (2 # 10))
            false [])
    = Raise (ValueError "could not broadcast input array") ∧
  is_NameError (ValueError "could not broadcast input array") = false.
Proof. vm_compute. done. Qed.

Lemma plotMaps_raises_before_any_figure_witness :
  open_table fs3 (path_join "out/run/" (kin_rootname "out/run/") +:+ "_table.fits")
    = Some table3 ∧
  open_kin fs3 (path_join "out/run/" (kin_rootname "out/run/") +:+ "_kin.fits")
    = Some kin3 ∧
  length kin3 = length (np_unique (map Z.abs (map tab_BIN_ID (tab_rows table3)))) ∧
  ending (plotMaps tricontour_3 fs3 "KIN" "out/run/" true zeros42 (Fin (2 # 10))
            false ["0.5"; ""; ""; ""; ""; "y"])
    = Raise (NameError "ppxf") ∧
  open_kin fs3 (path_join "out/run/" (kin_rootname "out/run/") +:+ "_sfh.fits")
    = Some (take 2 kin3) ∧
  ending (plotMaps tricontour_3 fs3 "SFH" "out/run/" true zeros42 (Fin (2 # 10))
            false ["0.5"])
    = Raise (ValueError "could not broadcast input array") ∧
  ending (plotMaps tricontour_3 fs3 "XYZ" "out/run/" true zeros42 (Fin (2 # 10))
            false ["0.5"])
    = Raise (UnboundLocalError "hdu") ∧
  ending (plotMaps tricontour_3 fs3 "KIN" "out/other/" true zeros42 (Fin (2 # 10))
            false ["0.5"])
    = Raise (FileNotFoundError "out/other/other_table.fits").
Proof.
  split; [reflexivity |]. split; [reflexivity |]. split; [reflexivity |].
  split.
  { apply (plotMaps_raises_before_any_figure tricontour_3 fs3 "KIN" "out/run/" true
             zeros42 (Fin (2 # 10)) false ["0.5"; ""; ""; ""; ""; "y"])
      with (table_hdu := table3) (rows := kin3).
    - reflexivity.
    - left. split; reflexivity.
    - left. reflexivity. }
  split; [reflexivity |].
  split.
  { destruct (plotMaps_raises_before_any_figure tricontour_3 fs3 "SFH" "out/run/"
                true zeros42 (Fin (2 # 10)) false ["0.5"])
      as (_ & _ & _ & _ & _ & _ & Htable).
    destruct (Htable table3 eq_refl) as (_ & _ & _ & Hrows).
    apply (Hrows (take 2 kin3)).
    - right. split; reflexivity.
    - simpl. lia.
    - simpl. lia. }
  split.
  { destruct (plotMaps_raises_before_any_figure tricontour_3 fs3 "XYZ" "out/run/"
                true zeros42 (Fin (2 # 10)) false ["0.5"])
      as (_ & _ & _ & _ & _ & _ & Htable).
    destruct (Htable table3 eq_refl) as (Hflag & _).
    apply Hflag; discriminate. }
  destruct (plotMaps_raises_before_any_figure tricontour_3 fs3 "KIN" "out/other/"
              true zeros42 (Fin (2 # 10)) false ["0.5"])
    as (_ & _ & _ & _ & _ & Hnotable & _).
  exact (Hnotable eq_refl).
Defined.

(** C5 on [plotMaps]. The velocity of the fit is missing in every bin. The
    call raises the NameError for [ppxf] instead of returning; and in a
    module that binds [ppxf], the loop over the panels, which has no check
    for a quantity without valid values, rasterizes the velocity and saves
    a figure whose first panel has no entry set and no range. The sibling
    [plot_line] returns at its check and produces nothing. *)
Theorem plotMaps_has_no_all_missing_check :
  ending (plotMaps tricontour_3 fs3 "KIN" "out/run/" false zeros42 (Fin (2 # 10))
            false [])
    = Raise (NameError "ppxf") ∧
  (∃ file p ps,
     events (plotMaps_in tricontour_3 kin_globals_with_ppxf fs3 "KIN" "out/run/"
               false zeros42 (Fin (2 # 10)) false [])
       = [Savefig file (p :: ps)] ∧
     count_valid (image p) = 0%nat ∧ vmin p = NaN ∧ vmax p = NaN) ∧
  plot_line log10_unused tricontour_3 "BIN" false missing3 V3 V3 V3 false false
    "out/" (Fin 4) 0 ("Ha", "6562") zeros42 (Fin (2 # 10)) X3 Y3 FLUX3 1
    "out/maps/" "root" 0 []
  = stop zeros42 [] (Ok ()).
Proof.
  split; [vm_compute; reflexivity |]. split; [| vm_compute; reflexivity].
  eexists _, _, _. split; [vm_compute; reflexivity |]. vm_compute. done.
Qed.

(* ================================================================== *)
(** * Worked examples of the filters *)

(** C2 on [plot_maps]. One spaxel, two lines, both with AoN 10 against a
    threshold of 4. The flux of the first line is the sentinel -1, the flux
    of the second line is 5. After the filter the flux of the second line
    is missing too: the sentinel check overwrites the whole row. *)
Theorem sentinel_blanks_the_whole_row :
  cell (AoN two_lines) 0 1 = Some (Fin 10) ∧
  flt (Fin 10) (Fin 4) = false ∧
  cell (Flux two_lines) 0 1 = Some (Fin 5) ∧
  feq (Fin 5) sentinel = false ∧
  cell (Flux (quality_filter (Fin 4) two_lines)) 0 1 = Some NaN.
Proof. vm_compute. done. Qed.

Lemma bin_expansion_witness :
  length [[Fin 10]; [Fin (-10)]] = length (np_unique (map Z.abs [1; 1; -2; 2])) ∧
  ∃ long,
    expand (np_unique (map Z.abs [1; 1; -2; 2])) [1; 1; -2; 2; 3]
           [[Fin 10]; [Fin (-10)]] = Ok long ∧
    length long = 5%nat ∧
    long !! 2%nat = Some [Fin (-10)] ∧
    long !! 4%nat = Some [NaN].
Proof.
  split; [reflexivity |].
  destruct (bin_expansion [1; 1; -2; 2] [1; 1; -2; 2; 3]
              [[Fin 10]; [Fin (-10)]] eq_refl)
    as (_ & _ & long & Hrun & Hlen & Hspec).
  exists long. split; [exact Hrun |]. split; [exact Hlen |]. split.
  - destruct (Hspec 2%nat (-2) eq_refl) as [Hhit _].
    exact (Hhit 1%nat eq_refl).
  - destruct (Hspec 4%nat 3 eq_refl) as [_ Hmiss].
    apply Hmiss. vm_compute. intros H.
    repeat (apply elem_of_cons in H as [H | H]; [discriminate |]).
    by apply elem_of_nil in H.
Defined.



(* ================================================================== *)
(** * The save prompt and the isophote offset *)

(** C7 on [plot_line]. The operator types the offset 0.5 and the range
    5,25 and accepts the preview. One more pass follows; it reads no line
    and saves a panel with the image and the range of the preview, which
    are also what [vminmax] holds. Its isophote offset is 0.20, not the
    0.5 of the accepted preview. *)
Theorem accepted_preview_saved_with_default_offset :
  ∃ (ask : event) (p p' : panel) (file : string),
    events (line3 true false zeros42 ["0.5"; "5,25"; "y"])
      = [AskOffset (Fin (2 # 10)); ask; Show [p]; AskSave; Print "";
         Savefig file [p']] ∧
    ending (line3 true false zeros42 ["0.5"; "5,25"; "y"]) = Ok () ∧
    unread (line3 true false zeros42 ["0.5"; "5,25"; "y"]) = [] ∧
    vminmax_end (line3 true false zeros42 ["0.5"; "5,25"; "y"]) !! 0%nat
      = Some (Fin 5, Fin 25) ∧
    image p' = image p ∧
    (vmin p, vmax p) = (Fin 5, Fin 25) ∧
    (vmin p', vmax p') = (Fin 5, Fin 25) ∧
    contour_offset p = Fin (1 # 2) ∧
    contour_offset p' = Fin (2 # 10).
Proof.
  eexists _, _, _, _. split; [vm_compute; reflexivity |].
  vm_compute. done.
Qed.

(** The sibling [plotMaps], in a module that binds [ppxf], hands the typed
    offset on: the four panels it saves after the preview was accepted are
    drawn with the offset 0.5 of the preview. *)
Lemma plotMaps_replay_keeps_typed_offset :
  shown_offsets
    (events (plotMaps_in tricontour_3 kin_globals_with_ppxf fs3v "KIN" "out/run/"
               true zeros42 (Fin (2 # 10)) false ["0.5"; ""; ""; ""; ""; "y"]))
    = replicate 4 (Fin (1 # 2)) ∧
  saved_offsets
    (events (plotMaps_in tricontour_3 kin_globals_with_ppxf fs3v "KIN" "out/run/"
               true zeros42 (Fin (2 # 10)) false ["0.5"; ""; ""; ""; ""; "y"]))
    = replicate 4 (Fin (1 # 2)).
Proof. vm_compute. done. Qed.

(* ================================================================== *)
(** * The quality filter, cell by cell *)

Section Cells.

Lemma cell_Some (a : arr2) (r c : nat) (x : float) :
  cell a r c = Some x ↔ ∃ row, a !! r = Some row ∧ row !! c = Some x.
Proof. unfold cell. destruct (a !! r) as [row|]; simpl; naive_solver. Qed.

Lemma cell_alter_insert (a : arr2) (r0 c0 r c : nat) (v x : float) :
  cell a r c = Some x →
  cell (alter (fun row => <[c0 := v]> row) r0 a) r c
    = Some (if decide (r = r0 ∧ c = c0) then v else x).
Proof.
  intros (row & Hr & Hc)%cell_Some. apply cell_Some.
  destruct (decide (r = r0)) as [-> | Hne].
  - exists (<[c0 := v]> row). split; [by rewrite list_lookup_alter_eq, Hr |].
    destruct (decide (c = c0)) as [-> | Hc0].
    + rewrite decide_True by done. apply list_lookup_insert_eq.
      by eapply lookup_lt_Some.
    + rewrite decide_False by tauto. by rewrite list_lookup_insert_ne.
  - exists row. rewrite list_lookup_alter_ne by done.
    by rewrite decide_False by tauto.
Qed.

Lemma cell_set_cells (idx : list nat) (c0 : nat) (v : float) :
  ∀ (a : arr2) (r c : nat) (x : float),
  cell a r c = Some x →
  cell (set_cells idx c0 v a) r c
    = Some (if decide (r ∈ idx ∧ c = c0) then v else x).
Proof.
  unfold set_cells. induction idx as [|r0 idx IH]; intros a r c x Hx; simpl.
  - by rewrite Hx.
  - erewrite IH by (by apply cell_alter_insert). f_equal.
    repeat case_decide; try done; exfalso; set_solver.
Qed.

Lemma cell_alter_fill (a : arr2) (r0 r c : nat) (v x : float) :
  cell a r c = Some x →
  cell (alter (fun row => map (fun _ => v) row) r0 a) r c
    = Some (if decide (r = r0) then v else x).
Proof.
  intros (row & Hr & Hc)%cell_Some. apply cell_Some.
  destruct (decide (r = r0)) as [-> | Hne].
  - exists (map (fun _ => v) row). split; [by rewrite list_lookup_alter_eq, Hr |].
    change (map (fun _ => v) row) with ((fun _ => v) <$> row).
    by rewrite list_lookup_fmap, Hc.
  - exists row. by rewrite list_lookup_alter_ne.
Qed.

Lemma cell_set_rows (idx : list nat) (v : float) :
  ∀ (a : arr2) (r c : nat) (x : float),
  cell a r c = Some x →
  cell (set_rows idx v a) r c = Some (if decide (r ∈ idx) then v else x).
Proof.
  unfold set_rows. induction idx as [|r0 idx IH]; intros a r c x Hx; simpl.
  - by rewrite Hx.
  - erewrite IH by (by apply cell_alter_fill). f_equal.
    repeat case_decide; try done; exfalso; set_solver.
Qed.

Lemma shaped_cell (n L : nat) (a : arr2) (r c : nat) :
  shaped n L a → (is_Some (cell a r c) ↔ (r < n)%nat ∧ (c < L)%nat).
Proof.
  intros [Hn HL]. split.
  - intros [x (row & Hr & Hc)%cell_Some].
    split; [rewrite <- Hn; by eapply lookup_lt_Some |].
    rewrite Forall_lookup in HL. rewrite <- (HL _ _ Hr). by eapply lookup_lt_Some.
  - intros [Hr Hc].
    destruct (lookup_lt_is_Some_2 a r) as [row Hrow]; [lia |].
    rewrite Forall_lookup in HL. pose proof (HL _ _ Hrow) as Hlen.
    destruct (lookup_lt_is_Some_2 row c) as [x Hx]; [lia |].
    exists x. apply cell_Some. eauto.
Qed.

Lemma shaped_ncols (n L : nat) (a : arr2) (r c : nat) (x : float) :
  shaped n L a → cell a r c = Some x → ncols a = L ∧ (c < L)%nat.
Proof.
  intros Hs Hx. pose proof Hs as [Hn HL].
  destruct (proj1 (shaped_cell n L a r c Hs) (ex_intro _ x Hx)) as [Hr Hc].
  split; [| done]. destruct a as [|row0 a]; simpl in *; [lia |].
  by inversion HL.
Qed.

Lemma shaped_alter (n L : nat) (a : arr2) (f : list float → list float) (r : nat) :
  (∀ row, length (f row) = length row) → shaped n L a → shaped n L (alter f r a).
Proof.
  intros Hf [Hn HL]. split; [by rewrite length_alter |].
  apply Forall_lookup_2. intros i row Hi.
  rewrite Forall_lookup in HL.
  destruct (decide (i = r)) as [-> | Hne].
  - rewrite list_lookup_alter_eq in Hi.
    destruct (a !! r) as [row0|] eqn:E; simpl in Hi; [| done].
    injection Hi as <-. rewrite Hf. by eapply HL.
  - rewrite list_lookup_alter_ne in Hi by done. by eapply HL.
Qed.

Lemma shaped_set_cells (n L : nat) (idx : list nat) (c : nat) (v : float) :
  ∀ a, shaped n L a → shaped n L (set_cells idx c v a).
Proof.
  unfold set_cells. induction idx as [|r idx IH]; intros a Ha; simpl; [done |].
  apply IH, shaped_alter; [| done]. intros row. apply length_insert.
Qed.

Lemma elem_of_where_rows_from (mask : list (list bool)) (i s : nat) :
  s ∈ where_rows_from i mask ↔
  ∃ k row, s = (i + k)%nat ∧ mask !! k = Some row ∧ In true row.
Proof.
  assert (Hcount : ∀ row : list bool,
            length (List.filter id row) ≠ 0%nat ↔ In true row).
  { induction row as [|[|] row IH]; simpl.
    - split; [lia | tauto].
    - split; [auto | lia].
    - rewrite IH. split; [auto | by intros [? | ?]]. }
  revert i. induction mask as [|row t IH]; intros i; simpl.
  - split; [intros H; by apply elem_of_nil in H | intros (k & ? & _ & H & _); done].
  - rewrite elem_of_app, elem_of_replicate, Hcount, IH. split.
    + intros [[-> Hrow] | (k & row' & -> & Hk & Hrow)].
      * exists 0%nat, row. split; [lia | done].
      * exists (S k), row'. split; [lia | done].
    + intros (k & row' & -> & Hk & Hrow). destruct k as [|k]; simpl in Hk.
      * left. injection Hk as ->. split; [lia | done].
      * right. exists k, row'. split; [lia | done].
Qed.

Lemma sentinel_rows (a : arr2) (r : nat) :
  r ∈ np_where_rows (map (map (fun x => feq x sentinel)) a) ↔
  ∃ row y, a !! r = Some row ∧ In y row ∧ feq y sentinel = true.
Proof.
  unfold np_where_rows. rewrite elem_of_where_rows_from. split.
  - intros (k & mrow & -> & Hk & Hin). simpl.
    change (map (map (fun x => feq x sentinel)) a)
      with (map (fun x => feq x sentinel) <$> a) in Hk.
    rewrite list_lookup_fmap in Hk.
    destruct (a !! k) as [row|]; simpl in Hk; [| done]. injection Hk as <-.
    apply in_map_iff in Hin as (y & Hy & Hin). eauto.
  - intros (row & y & Hr & Hin & Hy).
    exists r, (map (fun x => feq x sentinel) row). split; [done |]. split.
    + change (map (map (fun x => feq x sentinel)) a)
        with (map (fun x => feq x sentinel) <$> a).
      by rewrite list_lookup_fmap, Hr.
    + apply in_map_iff. eauto.
Qed.

End Cells.

Section QualityFilter.

Variable T : float.

Local Abbreviation masked := (masked_by_threshold T).

Lemma below_rows (a : arr2) (i r : nat) (x : float) :
  cell a r i = Some x →
  (r ∈ np_where (map (fun y => flt y T) (column i a)) ↔ flt x T = true).
Proof.
  intros (row & Hr & Hc)%cell_Some.
  rewrite elem_of_np_where. unfold column.
  change (map (fun y => flt y T) (map (fun row => nth i row NaN) a))
    with ((fun y => flt y T) <$> ((fun row => nth i row NaN) <$> a)).
  rewrite !list_lookup_fmap, Hr. simpl.
  rewrite (nth_lookup_Some _ _ _ _ Hc). split; [by intros [= ->] | by intros ->].
Qed.

Lemma step_cell (q : lines → arr2) (g : lines) (i r c : nat) (x a : float) :
  masked q → cell (q g) r c = Some x → cell (AoN g) r c = Some a →
  cell (q (threshold_step T g i)) r c
    = Some (if (c =? i)%nat && flt a T then NaN else x).
Proof.
  intros Hq Hx Ha. rewrite Hq. erewrite cell_set_cells by done. f_equal.
  destruct (Nat.eqb_spec c i) as [-> | Hne]; simpl.
  - pose proof (below_rows _ _ _ _ Ha) as Hrows.
    destruct (flt a T); case_decide; try done; naive_solver.
  - rewrite decide_False; [done | tauto].
Qed.

Lemma threshold_cells (q : lines → arr2) (m : nat) :
  masked q →
  ∀ (k : nat) (g : lines) (r c : nat) (x a : float),
  cell (q g) r c = Some x → cell (AoN g) r c = Some a →
  cell (q (foldl (threshold_step T) g (seq k m))) r c
    = Some (if (k <=? c)%nat && (c <? k + m)%nat && flt a T then NaN else x).
Proof.
  intros Hq. induction m as [|m IH]; intros k g r c x a Hx Ha; simpl.
  - rewrite Hx. f_equal.
    destruct (Nat.leb_spec k c), (Nat.ltb_spec c (k + 0)); cbn [andb]; try done; lia.
  - erewrite IH.
    2: { by eapply step_cell. }
    2: { by eapply (step_cell AoN). }
    f_equal.
    destruct (Nat.eqb_spec c k) as [Heq | Hne];
      destruct (Nat.leb_spec (S k) c), (Nat.ltb_spec c (S k + m)),
               (Nat.leb_spec k c), (Nat.ltb_spec c (k + S m));
      cbn [andb flt]; try lia; try done; destruct (flt a T); done.
Qed.

Lemma apply_threshold_cell (q : lines → arr2) (g : lines) (n L r c : nat)
    (x a : float) :
  masked q → shaped n L (AoN g) →
  cell (q g) r c = Some x → cell (AoN g) r c = Some a →
  cell (q (apply_threshold T g)) r c = Some (if flt a T then NaN else x).
Proof.
  intros Hq Hs Hx Ha. unfold apply_threshold.
  erewrite threshold_cells by done. f_equal.
  destruct (shaped_ncols _ _ _ _ _ _ Hs Ha) as [-> Hc].
  destruct (Nat.ltb_spec c (0 + L)); [done | lia].
Qed.

Lemma shaped_threshold (q : lines → arr2) (n L : nat) (l : list nat) :
  masked q → ∀ g, shaped n L (q g) → shaped n L (q (foldl (threshold_step T) g l)).
Proof.
  intros Hq. induction l as [|i l IH]; intros g Hs; simpl; [done |].
  apply IH. rewrite Hq. by apply shaped_set_cells.
Qed.

Lemma quantity_filtered (q : lines → arr2) (g : lines) :
  q ∈ quantities →
  masked q ∧ q (quality_filter T g) = mask_sentinel (q (apply_threshold T g)).
Proof.
  unfold quantities. rewrite !elem_of_cons, elem_of_nil.
  intros [-> | [-> | [-> | [-> | []]]]]; done.
Qed.

(** X5. Where the AoN is below the threshold, every quantity is missing
    after the filter. *)
Lemma below_threshold_is_missing (q : lines → arr2) (g : lines) (r c : nat)
    (x a : float) :
  same_shape g → q ∈ quantities →
  cell (q g) r c = Some x → cell (AoN g) r c = Some a → flt a T = true →
  cell (q (quality_filter T g)) r c = Some NaN.
Proof.
  intros (n & L & _ & _ & _ & _ & Hs) Hq Hx Ha Hlt.
  destruct (quantity_filtered q g Hq) as [Hm ->].
  unfold mask_sentinel. erewrite cell_set_rows.
  2: { by eapply apply_threshold_cell. }
  rewrite Hlt. by case_decide.
Qed.

(** X6. An entry equal to the sentinel is missing after the filter. *)
Lemma sentinel_is_missing (q : lines → arr2) (g : lines) (r c : nat)
    (x a : float) :
  same_shape g → q ∈ quantities →
  cell (q g) r c = Some x → cell (AoN g) r c = Some a → feq x sentinel = true →
  cell (q (quality_filter T g)) r c = Some NaN.
Proof.
  intros (n & L & _ & _ & _ & _ & Hs) Hq Hx Ha Hsen.
  destruct (quantity_filtered q g Hq) as [Hm ->].
  pose proof (apply_threshold_cell q g n L r c x a Hm Hs Hx Ha) as Hcell.
  unfold mask_sentinel. erewrite cell_set_rows by done.
  destruct (flt a T); [by case_decide |].
  rewrite decide_True; [done |].
  apply cell_Some in Hcell as (row & Hrow & Hc).
  apply sentinel_rows. exists row, x. split; [done |]. split; [| done].
  apply list_elem_of_In, list_elem_of_lookup. eauto.
Qed.

(** X7. An entry at or above the threshold is unchanged by the filter when
    no entry of its row, in any line, is left equal to the sentinel by the
    threshold. *)
Lemma clean_row_is_unchanged (q : lines → arr2) (g : lines) (r c : nat)
    (x a : float) :
  same_shape g → q ∈ quantities →
  cell (q g) r c = Some x → cell (AoN g) r c = Some a → flt a T = false →
  (∀ c' x' a', cell (q g) r c' = Some x' → cell (AoN g) r c' = Some a' →
               flt a' T = true ∨ feq x' sentinel = false) →
  cell (q (quality_filter T g)) r c = Some x.
Proof.
  intros Hshape Hq Hx Ha Hge Hclean.
  destruct (quantity_filtered q g Hq) as [Hm ->].
  assert (∃ n L, shaped n L (q g) ∧ shaped n L (AoN g)) as (n & L & Hsq & Hs).
  { destruct Hshape as (n & L & H1 & H2 & H3 & H4 & H5). exists n, L.
    revert Hq. unfold quantities. rewrite !elem_of_cons, elem_of_nil.
    intros [-> | [-> | [-> | [-> | []]]]]; done. }
  pose proof (apply_threshold_cell q g n L r c x a Hm Hs Hx Ha) as Hcell.
  rewrite Hge in Hcell.
  unfold mask_sentinel. erewrite cell_set_rows by done.
  rewrite decide_False; [done |].
  intros (row & y & Hrow & Hin & Hy)%sentinel_rows.
  apply list_elem_of_In, list_elem_of_lookup in Hin as [c' Hc'].
  assert (Hy' : cell (q (apply_threshold T g)) r c' = Some y).
  { apply cell_Some. eauto. }
  assert (Hs' : shaped n L (q (apply_threshold T g))).
  { unfold apply_threshold. by apply shaped_threshold. }
  destruct (proj1 (shaped_cell _ _ _ r c' Hs') (ex_intro _ y Hy')) as [Hr Hc].
  destruct (proj2 (shaped_cell _ _ _ r c' Hsq) (conj Hr Hc)) as [x' Hx'].
  destruct (proj2 (shaped_cell _ _ _ r c' Hs) (conj Hr Hc)) as [a' Ha'].
  pose proof (apply_threshold_cell q g n L r c' x' a' Hm Hs Hx' Ha') as Hcell'.
  rewrite Hy' in Hcell'. injection Hcell' as ->.
  destruct (Hclean c' x' a' Hx' Ha') as [Hlt | Hno].
  - rewrite Hlt in Hy. done.
  - destruct (flt a' T); [done | congruence].
Qed.

End QualityFilter.

(* ================================================================== *)
(** * Sorting *)

Section Sorting.

Lemma insert_sorted_perm (a : Q) (l : list Q) : a :: l ≡ₚ insert_sorted a l.
Proof.
  induction l as [|y t IH]; simpl; [done |].
  destruct (Qle_bool a y); [done |].
  rewrite <- IH. apply Permutation_swap.
Qed.

Lemma sort_perm (l : list Q) : l ≡ₚ sort l.
Proof.
  induction l as [|x t IH]; simpl; [done |].
  rewrite <- insert_sorted_perm. by constructor.
Qed.

Lemma insert_sorted_sorted (a : Q) (l : list Q) :
  StronglySorted Qle l → StronglySorted Qle (insert_sorted a l).
Proof.
  induction 1 as [|y t Hs IH Hall]; simpl; [repeat constructor |].
  destruct (Qle_bool a y) eqn:E.
  - apply Qle_bool_iff in E. constructor; [by constructor |].
    constructor; [done |]. eapply Forall_impl; [exact Hall |].
    intros z Hz. simpl in Hz. by apply Qle_trans with y.
  - apply Qle_bool_false, Qlt_le_weak in E. constructor; [done |].
    rewrite <- insert_sorted_perm. by constructor.
Qed.

Lemma sort_sorted (l : list Q) : StronglySorted Qle (sort l).
Proof.
  induction l as [|x t IH]; simpl; [constructor | by apply insert_sorted_sorted].
Qed.

End Sorting.

(* ================================================================== *)
(** * The panels of the kinematics renderer *)

Section KinPanels.

Variable tricontour :
  list float → list float → list float → float → Q → result unit.
Variables (sai : bool) (d : kin_data) (off : float).

(** X26. Without prompts every panel of [plotMaps] takes the range that
    [unprompted_range] gives for its column (the extremes of the column,
    or the stored pair in the pass that saves an accepted preview), and no
    line is read. *)
Lemma kin_panels_ranges (its : list nat) :
  ∀ (vm : list (float * float)) (stdin : list string) (ps : list panel) (r : run),
  kin_panels tricontour its false sai d off vm stdin = (ps, r) →
  ending r = Ok () →
  unread r = stdin ∧
  Forall2 (fun it p =>
             unprompted_range sai vm it (column it (kd_result d))
               = Ok (vmin p, vmax p))
          its ps.
Proof.
  induction its as [|it its IH]; intros vm stdin ps r Hrun Hend; simpl in Hrun.
  - injection Hrun as <- <-. split; [done | constructor].
  - destruct (unprompted_range sai vm it (column it (kd_result d)))
      as [[lo hi]|] eqn:Hrange; cbn [mbind result_bind] in Hrun.
    + destruct (draw tricontour _ _ _ _ _ lo hi off) as [p|] eqn:Hdraw.
      * destruct (kin_panels tricontour its false sai d off vm stdin)
          as [ps' r'] eqn:Hrest.
        injection Hrun as <- <-.
        destruct (IH vm stdin ps' r' Hrest Hend) as [Hun Hall].
        split; [done |]. constructor; [| done].
        apply draw_fields in Hdraw as (-> & -> & _). done.
      * injection Hrun as <- <-. done.
    + injection Hrun as <- <-. done.
Qed.

(** X21. In a calibration pass of [plotMaps] that goes through the loop
    over the panels, every panel has read one line of the console, after
    the one of the isophote prompt. *)
Lemma kin_panels_reads (its : list nat) :
  ∀ (vm : list (float * float)) (stdin : list string) (ps : list panel) (r : run),
  kin_panels tricontour its true sai d off vm stdin = (ps, r) →
  ending r = Ok () →
  unread r = drop (length its) stdin ∧ (length its ≤ length stdin)%nat.
Proof.
  induction its as [|it its IH]; intros vm stdin ps r Hrun Hend; simpl in Hrun.
  - injection Hrun as <- <-. split; [done | simpl; lia].
  - destruct (range_prompt _ vm it _) as [ask|]; [| by injection Hrun as <- <-].
    destruct stdin as [|inp stdin']; [by injection Hrun as <- <- |].
    destruct (typed_range inp vm it) as [[[lo hi] vm']|];
      [| by injection Hrun as <- <-].
    destruct (draw tricontour _ _ _ _ _ lo hi off) as [p|];
      [| by injection Hrun as <- <-].
    destruct (kin_panels tricontour its true sai d off vm' stdin')
      as [ps' r'] eqn:Hrest.
    injection Hrun as <- <-.
    destruct (IH vm' stdin' ps' r' Hrest Hend) as [Hun Hlen].
    split; [done | simpl; lia].
Qed.

End KinPanels.

(* ================================================================== *)
(** * The velocity column of the kinematics *)

Section KinVelocity.



End KinVelocity.

(* ================================================================== *)
(** * The scenario of the specification, end to end *)

(** [plot_maps] on the velocity of the only line, called outside the
    pipeline and without prompts: the bins are expanded to 10, 10, -10,
    -10, the median is zero, and the one figure saved has four entries set
    and the range from -10 to 10. *)
Lemma end_to_end_scenario :
  ∃ p,
    plot_maps log10_unused tricontour_3 fs4 "out/run_x/" "BIN" false false zeros42
      false (Fin 4) (Some 0%nat) (Some "V") []
    = emit [Savefig "out/run_x/maps/run_gandalf-Ha6562.8_V_BIN.pdf" [p]]
           (stop zeros42 [] (Ok ())) ∧
    count_valid (image p) = 4%nat ∧
    ∃ lo hi, (vmin p, vmax p) = (Fin lo, Fin hi) ∧ (lo == -10)%Q ∧ (hi == 10)%Q.
Proof.
  eexists. split; [vm_compute; reflexivity |].
  split; [vm_compute; reflexivity |].
  eexists _, _. split; [vm_compute; reflexivity |]. done.
Qed.

(** The second scenario: with the AoN 3, 3, 5, 5 against the threshold 4,
    the first two samples are missing whatever their velocity. *)
Lemma threshold_scenario :
  Vel (quality_filter (Fin 4)
         (mkLines [[Fin 1]; [Fin 1]; [Fin 1]; [Fin 1]]
                  [[Fin 1]; [Fin 1]; [Fin 1]; [Fin 1]]
                  [[Fin 7]; [Fin (-8)]; [Fin 9]; [Fin 11]]
                  [[Fin 1]; [Fin 1]; [Fin 1]; [Fin 1]]
                  [[Fin 3]; [Fin 3]; [Fin 5]; [Fin 5]]))
  = [[NaN]; [NaN]; [Fin 9]; [Fin 11]].
Proof. reflexivity. Qed.

(* ================================================================== *)
(** * The image of the rasterizer, entry by entry *)

Section RasterImage.

Variables (nx ny : nat).

Local Abbreviation inside :=
  (fun ijv : Z * Z * float =>
     0 ≤ ijv.1.1 < Z.of_nat nx ∧ 0 ≤ ijv.1.2 < Z.of_nat ny).

Lemma set_pixel_in (img : arr2) (i j : Z) (v : float) :
  0 ≤ i < Z.of_nat nx → 0 ≤ j < Z.of_nat ny →
  set_pixel nx ny img (i, j, v)
    = Ok (alter (fun row => <[Z.to_nat j := v]> row) (Z.to_nat i) img).
Proof.
  intros Hi Hj. unfold set_pixel. by rewrite !norm_index_in.
Qed.

(** The assignment keeps the shape of the image. *)
Lemma set_pixels_shaped (l : list (Z * Z * float)) :
  ∀ img img', Forall inside l → shaped nx ny img →
  set_pixels nx ny img l = Ok img' → shaped nx ny img'.
Proof.
  induction l as [|[[i j] v] l IH]; intros img img' Hin Hs Hrun; simpl in Hrun.
  - by injection Hrun as <-.
  - apply Forall_cons in Hin as [[Hi Hj] Hin]. simpl in Hi, Hj.
    rewrite !norm_index_in in Hrun by done. simpl in Hrun.
    eapply IH; [done | | exact Hrun].
    apply shaped_alter; [| done]. intros row. apply length_insert.
Qed.

(** A cell that no sample of the list falls in keeps its entry. *)
Lemma set_pixels_untouched (l : list (Z * Z * float)) (r c : nat) :
  ∀ img img' x, Forall inside l →
  set_pixels nx ny img l = Ok img' →
  cell img r c = Some x →
  (∀ s i j v, l !! s = Some (i, j, v) → (Z.to_nat i, Z.to_nat j) ≠ (r, c)) →
  cell img' r c = Some x.
Proof.
  induction l as [|[[i j] v] l IH]; intros img img' x Hin Hrun Hx Hfree;
    simpl in Hrun.
  - by injection Hrun as <-.
  - apply Forall_cons in Hin as [[Hi Hj] Hin]. simpl in Hi, Hj.
    rewrite !norm_index_in in Hrun by done. simpl in Hrun.
    eapply IH; [done | exact Hrun | |].
    + erewrite cell_alter_insert by done. rewrite decide_False; [done |].
      intros [-> ->]. by apply (Hfree 0%nat i j v).
    + intros s i' j' v' Hs. by apply (Hfree (S s) i' j' v').
Qed.

(** A cell holds the value of the last sample that falls in it. *)
Lemma set_pixels_last (l : list (Z * Z * float)) :
  ∀ img img' s i j v, Forall inside l → shaped nx ny img →
  set_pixels nx ny img l = Ok img' →
  l !! s = Some (i, j, v) →
  (∀ s' i' j' v', (s < s')%nat → l !! s' = Some (i', j', v') →
                  (Z.to_nat i', Z.to_nat j') ≠ (Z.to_nat i, Z.to_nat j)) →
  cell img' (Z.to_nat i) (Z.to_nat j) = Some v.
Proof.
  induction l as [|[[i0 j0] v0] l IH]; intros img img' s i j v Hin Hs Hrun Hl Hlast;
    [done |].
  simpl in Hrun. pose proof Hin as Hin0.
  apply Forall_cons in Hin as [[Hi Hj] Hin]. simpl in Hi, Hj.
  rewrite !norm_index_in in Hrun by done. simpl in Hrun.
  assert (Hs' : shaped nx ny
                  (alter (fun row => <[Z.to_nat j0 := v0]> row) (Z.to_nat i0) img)).
  { apply shaped_alter; [| done]. intros row. apply length_insert. }
  destruct s as [|s]; simpl in Hl.
  - assert (i0 = i ∧ j0 = j ∧ v0 = v) as (-> & -> & ->) by (by inversion Hl).
    destruct (proj2 (shaped_cell nx ny img (Z.to_nat i) (Z.to_nat j) Hs))
      as [x0 Hx0]; [lia |].
    eapply set_pixels_untouched; [exact Hin | exact Hrun | |].
    + erewrite cell_alter_insert by done. by rewrite decide_True.
    + intros s' i' j' v' Hs''. by apply (Hlast (S s') i' j' v'); [lia |].
  - eapply IH; [exact Hin | exact Hs' | exact Hrun | exact Hl |].
    intros s' i' j' v' Hlt Hs''. apply (Hlast (S s') i' j' v'); [lia | done].
Qed.

End RasterImage.

Section RasterizeImage.

Variables (X Y val : list float) (P : Q).
Hypothesis HP : (0 < P)%Q.
Hypothesis HX : X ≠ [].
Hypothesis HlenY : length Y = length X.
Hypothesis Hlenval : length val = length X.
Hypothesis HfinX : Forall (fun x => isnan x = false) X.
Hypothesis HfinY : Forall (fun y => isnan y = false) Y.

Lemma zip3_lookup (fi fj : float → Z) (s : nat) (i j : Z) (v : float) :
  zip (zip (map fi X) (map fj Y)) val !! s = Some (i, j, v) ↔
  ∃ x y, X !! s = Some x ∧ Y !! s = Some y ∧ val !! s = Some v ∧
         i = fi x ∧ j = fj y.
Proof.
  split.
  - intros Hs.
    apply lookup_zip_with_Some in Hs as (ij & v' & [= <- <-] & Hij & Hv).
    apply lookup_zip_with_Some in Hij as (i' & j' & [= -> ->] & Hi & Hj).
    change (map fi X) with (fi <$> X) in Hi. change (map fj Y) with (fj <$> Y) in Hj.
    rewrite list_lookup_fmap in Hi, Hj.
    destruct (X !! s) as [x|]; [| done]. destruct (Y !! s) as [y|]; [| done].
    simpl in Hi, Hj. injection Hi as <-. injection Hj as <-.
    exists x, y. done.
  - intros (x & y & Hx & Hy & Hv & -> & ->).
    apply lookup_zip_with_Some. exists (fi x, fj y), v. split; [done |].
    split; [| done]. apply lookup_zip_with_Some. exists (fi x), (fj y).
    split; [done |].
    change (map fi X) with (fi <$> X). change (map fj Y) with (fj <$> Y).
    by rewrite !list_lookup_fmap, Hx, Hy.
Qed.

(** With finite coordinates the rasterizer is the assignment of the samples,
    in their order, to an image of missing markers. *)
Lemma rasterize_as_pixels :
  ∃ xlo xhi ylo yhi Nx Ny,
    nanmin X = Ok (Fin xlo) ∧ nanmax X = Ok (Fin xhi) ∧
    nanmin Y = Ok (Fin ylo) ∧ nanmax Y = Ok (Fin yhi) ∧
    npixels_of (fsub (fadd (Fin xhi) (Fin 6)) (fsub (Fin xlo) (Fin 6))) P = Ok Nx ∧
    npixels_of (fsub (fadd (Fin yhi) (Fin 6)) (fsub (Fin ylo) (Fin 6))) P = Ok Ny ∧
    0 < Nx ∧ 0 < Ny ∧
    Forall (fun ijv : Z * Z * float =>
              0 ≤ ijv.1.1 < Z.of_nat (Z.to_nat Nx) ∧
              0 ≤ ijv.1.2 < Z.of_nat (Z.to_nat Ny))
           (zip (zip (map (fun x => index_of (fsub x (fsub (Fin xlo) (Fin 6))) P) X)
                     (map (fun y => index_of (fsub y (fsub (Fin ylo) (Fin 6))) P) Y))
                val) ∧
    rasterize X Y val P =
      set_pixels (Z.to_nat Nx) (Z.to_nat Ny)
        (full_nan (Z.to_nat Nx) (Z.to_nat Ny))
        (zip (zip (map (fun x => index_of (fsub x (fsub (Fin xlo) (Fin 6))) P) X)
                  (map (fun y => index_of (fsub y (fsub (Fin ylo) (Fin 6))) P) Y))
             val).
Proof.
  assert (Hfin : ∀ (C : list float) s c,
            Forall (fun x => isnan x = false) C → C !! s = Some c → ∃ q, c = Fin q).
  { intros C s c HC Hc. eapply Forall_lookup_1 in HC; [| done].
    destruct c; [done | by eexists]. }
  destruct X as [|x0 X'] eqn:EX; [done |].
  destruct Y as [|y0 Y'] eqn:EY; [done |].
  destruct (Hfin (x0 :: X') 0%nat x0 HfinX eq_refl) as [qx ->].
  destruct (Hfin (y0 :: Y') 0%nat y0 HfinY eq_refl) as [qy ->].
  destruct (axis_in_bounds (Fin qx :: X') P 0 qx HP eq_refl)
    as (xlo & xhi & Nx & Hxmin & Hxmax & HNx & Hx0).
  destruct (axis_in_bounds (Fin qy :: Y') P 0 qy HP eq_refl)
    as (ylo & yhi & Ny & Hymin & Hymax & HNy & Hy0).
  exists xlo, xhi, ylo, yhi, Nx, Ny.
  do 6 (split; [done |]). split; [lia |]. split; [lia |].
  split.
  - apply Forall_lookup_2. intros s [[i j] v] Hs.
    apply lookup_zip_with_Some in Hs as (ij & v' & [= <- <-] & Hij & _).
    apply lookup_zip_with_Some in Hij as (i' & j' & -> & Hi & Hj).
    rewrite list_lookup_fmap in Hi, Hj. cbn [fst snd].
    destruct ((Fin qx :: X') !! s) as [x|] eqn:Ex; [| done].
    destruct ((Fin qy :: Y') !! s) as [y|] eqn:Ey; [| done].
    destruct (Hfin _ _ _ HfinX Ex) as [cx ->].
    destruct (Hfin _ _ _ HfinY Ey) as [cy ->].
    injection Hi as <-. injection Hj as <-.
    destruct (axis_in_bounds _ P s cx HP Ex) as (? & ? & ? & H1 & H2 & H3 & H4).
    destruct (axis_in_bounds _ P s cy HP Ey) as (? & ? & ? & H5 & H6 & H7 & H8).
    rewrite Hxmin in H1. rewrite Hxmax in H2. rewrite Hymin in H5. rewrite Hymax in H6.
    simplify_eq. rewrite HNx in H3. rewrite HNy in H7. simplify_eq.
    unfold index_of in *. cbn [fsub] in *. lia.
  - unfold rasterize. rewrite Hxmin, Hxmax, Hymin, Hymax. cbn [mbind result_bind].
    rewrite HNx, HNy. cbn [mbind result_bind].
    unfold np_full_nan.
    destruct (Z.ltb_spec Nx 0); [lia |]. destruct (Z.ltb_spec Ny 0); [lia |].
    cbn [orb mbind result_bind].
    apply assign_same_length; rewrite !length_map; congruence.
Qed.

End RasterizeImage.

(** X1. The image of the rasterizer. For a positive pixel size and finite
    coordinates, with one value per sample, the image has [npixels_x] rows
    of [npixels_y] entries, the numbers of pixels that the code computes
    from the extent of the coordinates and the margin; the pixel of a
    sample holds the value of that sample unless a later sample falls in
    the same pixel (the last write wins), and a pixel in which no sample
    falls holds the missing marker. *)
Theorem rasterize_last_write_wins (X Y val : list float) (P : Q) :
  (0 < P)%Q → X ≠ [] → length Y = length X → length val = length X →
  Forall (fun x => isnan x = false) X → Forall (fun y => isnan y = false) Y →
  ∃ img xlo xhi ylo yhi Nx Ny,
    nanmin X = Ok (Fin xlo) ∧ nanmax X = Ok (Fin xhi) ∧
    nanmin Y = Ok (Fin ylo) ∧ nanmax Y = Ok (Fin yhi) ∧
    npixels_of (fsub (fadd (Fin xhi) (Fin 6)) (fsub (Fin xlo) (Fin 6))) P
      = Ok (Z.of_nat Nx) ∧
    npixels_of (fsub (fadd (Fin yhi) (Fin 6)) (fsub (Fin ylo) (Fin 6))) P
      = Ok (Z.of_nat Ny) ∧
    (0 < Nx)%nat ∧ (0 < Ny)%nat ∧
    rasterize X Y val P = Ok img ∧ shaped Nx Ny img ∧
    (∀ s x y v, X !! s = Some x → Y !! s = Some y → val !! s = Some v →
       (∀ s' x' y', (s < s')%nat → X !! s' = Some x' → Y !! s' = Some y' →
          (pixel xlo P x', pixel ylo P y') ≠ (pixel xlo P x, pixel ylo P y)) →
       cell img (pixel xlo P x) (pixel ylo P y) = Some v) ∧
    (∀ r c, (r < Nx)%nat → (c < Ny)%nat →
       (∀ s x y, X !! s = Some x → Y !! s = Some y →
          (pixel xlo P x, pixel ylo P y) ≠ (r, c)) →
       cell img r c = Some NaN).
Proof.
  intros HP HX HlenY Hlenval HfinX HfinY.
  destruct (rasterize_as_pixels X Y val P HP HX HlenY Hlenval HfinX HfinY)
    as (xlo & xhi & ylo & yhi & Nx & Ny & Hxmin & Hxmax & Hymin & Hymax &
        Hnx & Hny & HNx & HNy & Hin & Hrun).
  destruct (set_pixels_ok _ _ _ Hin (full_nan (Z.to_nat Nx) (Z.to_nat Ny)))
    as [img Himg].
  assert (Hfull : shaped (Z.to_nat Nx) (Z.to_nat Ny)
                         (full_nan (Z.to_nat Nx) (Z.to_nat Ny))).
  { unfold full_nan. split; [apply length_replicate |].
    apply Forall_forall. intros row Hrow.
    apply elem_of_replicate_inv in Hrow as ->. apply length_replicate. }
  exists img, xlo, xhi, ylo, yhi, (Z.to_nat Nx), (Z.to_nat Ny).
  do 4 (split; [done |]).
  split; [by rewrite Z2Nat.id by lia |]. split; [by rewrite Z2Nat.id by lia |].
  split; [lia |]. split; [lia |]. split; [by rewrite Hrun |].
  split; [by eapply set_pixels_shaped |]. split.
  - intros s x y v Hx Hy Hv Hlast.
    eapply (set_pixels_last _ _ _ _ _ s _ _ v Hin Hfull Himg).
    + apply zip3_lookup. exists x, y. done.
    + intros s' i' j' v' Hlt Hs'.
      apply zip3_lookup in Hs' as (x' & y' & Hx' & Hy' & _ & -> & ->).
      by apply (Hlast s' x' y').
  - intros r c Hr Hc Hfree.
    eapply set_pixels_untouched; [exact Hin | exact Himg | |].
    + apply cell_Some. exists (replicate (Z.to_nat Ny) NaN).
      unfold full_nan. by rewrite !lookup_replicate_2.
    + intros s i j v Hs.
      apply zip3_lookup in Hs as (x & y & Hx & Hy & _ & -> & ->).
      by apply (Hfree s x y).
Qed.

(** X2. What the rasterizer refuses. Without any sample the extent of the
    coordinates cannot be taken and a ValueError is raised; with a pixel
    size of zero the number of pixels is infinite and its conversion to an
    integer raises an OverflowError. *)
Theorem rasterize_refuses (X Y val : list float) (P : Q) :
  rasterize [] Y val P
    = Raise (ValueError "zero-size array to reduction operation") ∧
  (∀ s x, X !! s = Some (Fin x) → Y ≠ [] → (P == 0)%Q →
     rasterize X Y val P = Raise OverflowError).
Proof.
  split; [reflexivity |].
  intros s x Hx HY HP0. apply valid_lookup in Hx.
  destruct (nanmin_below X x Hx) as (lo & Hmin & Hlo).
  destruct (nanmax_above X x Hx) as (hi & Hmax & Hhi).
  unfold rasterize. rewrite Hmin, Hmax. cbn [mbind result_bind].
  destruct Y as [|y0 Y']; [done |]. cbn [nanmin nanmax mbind result_bind].
  cbn [fadd fsub npixels_of].
  assert (E1 : Qeq_bool P 0 = true) by (by apply Qeq_bool_iff).
  assert (E2 : Qeq_bool (hi + 6 - (lo - 6)) 0 = false).
  { destruct (Qeq_bool (hi + 6 - (lo - 6)) 0) eqn:E; [| done].
    apply Qeq_bool_iff in E. lra. }
  by rewrite E1, E2.
Qed.

(* ================================================================== *)
(** * Bin expansion: failure and constancy on a bin *)

Section ExpandMore.

Variables (binNum_long : list Z) (a : arr2).

Lemma expand_from_short (rest : list Z) :
  ∀ (i : nat) (long : arr2),
  (i ≤ length a)%nat → (length a < i + length rest)%nat →
  expand_from i rest binNum_long a long = Raise (IndexError "index out of bounds").
Proof.
  induction rest as [|u rest IH]; intros i long Hi Hshort; simpl in *; [lia |].
  destruct (a !! i) as [row|] eqn:E; [| done].
  apply lookup_lt_Some in E. apply IH; lia.
Qed.

Lemma expand_from_long (rest : list Z) :
  ∀ (i : nat) (long : arr2),
  (i + length rest ≤ length a)%nat →
  ∃ long', expand_from i rest binNum_long a long = Ok long' ∧
           length long' = length long.
Proof.
  induction rest as [|u rest IH]; intros i long Hrows; simpl in *; [by eexists |].
  destruct (lookup_lt_is_Some_2 a i) as [row ->]; [lia |].
  destruct (IH (S i) (put_rows
                        (np_where (map (fun b => u =? Z.abs b) binNum_long))
                        row long)) as (long' & -> & Hlen); [lia |].
  exists long'. split; [done |]. by rewrite Hlen, length_put_rows.
Qed.

End ExpandMore.

(** X3. Bin expansion needs one row of the per-bin array for every unique
    bin: with enough rows it returns one row per sample (rows beyond the
    number of bins are never read), with fewer it raises an IndexError. *)
Theorem expand_needs_a_row_per_bin (ubins binNum_long : list Z) (a : arr2) :
  ((length ubins ≤ length a)%nat →
     ∃ long, expand ubins binNum_long a = Ok long ∧
             length long = length binNum_long) ∧
  ((length a < length ubins)%nat →
     expand ubins binNum_long a = Raise (IndexError "index out of bounds")).
Proof.
  unfold expand. split.
  - intros Hrows.
    destruct (expand_from_long binNum_long a ubins 0
                (full_nan (length binNum_long) (ncols a)))
      as (long & Hrun & Hlen); [lia |].
    exists long. split; [done |]. rewrite Hlen. unfold full_nan.
    apply length_replicate.
  - intros Hshort. apply expand_from_short; lia.
Qed.

(** X4. The expansion is constant on a bin and blind to the sign of the bin
    id: two samples whose bin ids have the same absolute value receive the
    same row. *)
Theorem expand_constant_on_a_bin (ubins binNum_long : list Z) (a long : arr2)
    (s1 s2 : nat) (b1 b2 : Z) :
  NoDup ubins → (length ubins ≤ length a)%nat →
  expand ubins binNum_long a = Ok long →
  binNum_long !! s1 = Some b1 → binNum_long !! s2 = Some b2 →
  Z.abs b1 = Z.abs b2 →
  long !! s1 = long !! s2.
Proof.
  intros Hnd Hrows Hrun H1 H2 Habs. unfold expand in Hrun.
  destruct (expand_from_spec binNum_long a ubins 0
              (full_nan (length binNum_long) (ncols a)))
    as (long' & Hrun' & _ & Hspec).
  { unfold full_nan. by rewrite length_replicate. }
  { done. }
  { lia. }
  rewrite Hrun in Hrun'. injection Hrun' as <-.
  destruct (Hspec s1 b1 H1) as [Hhit1 Hmiss1].
  destruct (Hspec s2 b2 H2) as [Hhit2 Hmiss2].
  destruct (decide (Z.abs b1 ∈ ubins)) as [Hin | Hout].
  - apply list_elem_of_lookup in Hin as [k Hk].
    rewrite (Hhit1 k Hk). rewrite Habs in Hk. by rewrite (Hhit2 k Hk).
  - rewrite (Hmiss1 Hout). rewrite Habs in Hout. rewrite (Hmiss2 Hout).
    unfold full_nan.
    rewrite !lookup_replicate_2; [done | |]; by eapply lookup_lt_Some.
Qed.

(* ================================================================== *)
(** * The shape of the filtered arrays *)

Section FilterShape.

Lemma shaped_set_rows (n L : nat) (idx : list nat) (v : float) :
  ∀ a, shaped n L a → shaped n L (set_rows idx v a).
Proof.
  unfold set_rows. induction idx as [|r idx IH]; intros a Ha; simpl; [done |].
  apply IH, shaped_alter; [| done]. intros row. apply length_map.
Qed.

Lemma shaped_sub_scalar (n L : nat) (m : float) (a : arr2) :
  shaped n L a → shaped n L (sub_scalar m a).
Proof.
  unfold sub_scalar. intros [Hn HL]. split; [by rewrite length_map |].
  apply Forall_fmap. eapply Forall_impl; [exact HL |].
  intros row Hrow. simpl. by rewrite length_map.
Qed.

Lemma shaped_filtered (T : float) (q : lines → arr2) (g : lines) (n L : nat) :
  q ∈ quantities → shaped n L (q g) → shaped n L (q (quality_filter T g)).
Proof.
  intros Hq Hs. destruct (quantity_filtered T q g Hq) as [Hm ->].
  unfold mask_sentinel, apply_threshold.
  by apply shaped_set_rows, shaped_threshold.
Qed.

End FilterShape.

(** X8. The filter and the recentring keep the shape: when the five arrays
    of the fit have one shape, they have that shape afterwards. *)
Theorem filter_keeps_the_shape (T : float) (g : lines) :
  same_shape g → same_shape (recentre_Vel (quality_filter T g)).
Proof.
  intros (n & L & HF & HA & HV & HS & HN). exists n, L.
  assert (Hq : ∀ q, q ∈ quantities → shaped n L (q g) →
                    shaped n L (q (quality_filter T g))).
  { intros q Hq Hs. by apply shaped_filtered. }
  unfold quantities in Hq. cbn [recentre_Vel Flux Ampl Vel Sigma AoN].
  split; [apply (Hq Flux); [set_solver | done] |].
  split; [apply (Hq Ampl); [set_solver | done] |].
  split; [apply shaped_sub_scalar, (Hq Vel); [set_solver | done] |].
  split; [apply (Hq Sigma); [set_solver | done] |].
  change (AoN (quality_filter T g)) with (AoN (apply_threshold T g)).
  unfold apply_threshold. by apply (shaped_threshold T AoN).
Qed.

Lemma four_samples_shape : same_shape four_samples.
Proof. exists 4%nat, 1%nat. repeat split; repeat constructor. Qed.

Lemma two_lines_shape : same_shape two_lines.
Proof. exists 1%nat, 2%nat. repeat split; repeat constructor. Qed.

Lemma below_threshold_is_missing_witness :
  same_shape four_samples ∧ Vel ∈ quantities ∧
  cell (Vel four_samples) 1 0 = Some (Fin (-8)) ∧
  cell (AoN four_samples) 1 0 = Some (Fin 3) ∧
  flt (Fin 3) (Fin 4) = true ∧
  cell (Vel (quality_filter (Fin 4) four_samples)) 1 0 = Some NaN.
Proof.
  assert (Hq : Vel ∈ quantities) by (unfold quantities; set_solver).
  split; [exact four_samples_shape |]. split; [exact Hq |].
  do 3 (split; [reflexivity |]).
  exact (below_threshold_is_missing (Fin 4) Vel four_samples 1 0 (Fin (-8)) (Fin 3)
           four_samples_shape Hq eq_refl eq_refl eq_refl).
Defined.

Lemma sentinel_is_missing_witness :
  same_shape two_lines ∧ Flux ∈ quantities ∧
  cell (Flux two_lines) 0 0 = Some (Fin (-1)) ∧
  cell (AoN two_lines) 0 0 = Some (Fin 10) ∧
  feq (Fin (-1)) sentinel = true ∧
  cell (Flux (quality_filter (Fin 4) two_lines)) 0 0 = Some NaN.
Proof.
  assert (Hq : Flux ∈ quantities) by (unfold quantities; set_solver).
  split; [exact two_lines_shape |]. split; [exact Hq |].
  do 3 (split; [reflexivity |]).
  exact (sentinel_is_missing (Fin 4) Flux two_lines 0 0 (Fin (-1)) (Fin 10)
           two_lines_shape Hq eq_refl eq_refl eq_refl).
Defined.

Lemma clean_row_is_unchanged_witness :
  same_shape two_lines ∧ Vel ∈ quantities ∧
  cell (Vel two_lines) 0 1 = Some (Fin 20) ∧
  cell (AoN two_lines) 0 1 = Some (Fin 10) ∧
  flt (Fin 10) (Fin 4) = false ∧
  cell (Vel (quality_filter (Fin 4) two_lines)) 0 1 = Some (Fin 20).
Proof.
  assert (Hq : Vel ∈ quantities) by (unfold quantities; set_solver).
  split; [exact two_lines_shape |]. split; [exact Hq |].
  do 3 (split; [reflexivity |]).
  apply (clean_row_is_unchanged (Fin 4) Vel two_lines 0 1 (Fin 20) (Fin 10)
           two_lines_shape Hq eq_refl eq_refl eq_refl).
  intros [|[|c']] x' a' Hx' Ha'; vm_compute in Hx'; [| | done];
    injection Hx' as <-; by right.
Defined.

Lemma filter_keeps_the_shape_witness :
  same_shape four_samples ∧
  same_shape (recentre_Vel (quality_filter (Fin 4) four_samples)).
Proof.
  split; [exact four_samples_shape |].
  exact (filter_keeps_the_shape (Fin 4) four_samples four_samples_shape).
Defined.

(* ================================================================== *)
(** * The guards on missing values and degenerate coordinates *)

Section Guards.

Lemma length_where_from (mask : list bool) :
  ∀ i, (length (where_from i mask) ≤ length mask)%nat ∧
       (length (where_from i mask) = length mask ↔ Forall (eq true) mask).
Proof.
  induction mask as [|b t IH]; intros i; simpl.
  - split; [lia |]. split; [constructor | done].
  - destruct (IH (S i)) as [Hle Hiff]. destruct b; simpl.
    + split; [lia |]. split.
      * intros H. constructor; [done |]. apply Hiff. lia.
      * intros H. apply Forall_cons in H as [_ H]. apply Hiff in H. lia.
    + split; [lia |]. split; [lia |].
      intros H. by apply Forall_cons in H as [? _].
Qed.

Lemma where_all (A : Type) (f : A → bool) (l : list A) :
  (length (np_where (map f l)) =? length l)%nat = true ↔
  ∀ x, x ∈ l → f x = true.
Proof.
  rewrite Nat.eqb_eq. unfold np_where.
  destruct (length_where_from (map f l) 0) as [_ Hiff].
  rewrite length_map in Hiff. rewrite Hiff.
  change (map f l) with (f <$> l). rewrite Forall_fmap, Forall_forall.
  split; intros H x Hx; [symmetry |]; specialize (H x Hx); simpl in *; done.
Qed.

End Guards.

(** The guard of [plot_line] fires exactly when no value is valid, the
    empty array included. *)
Lemma all_nan_iff (val : list float) :
  all_nan val = true ↔ ∀ x, x ∈ val → x = NaN.
Proof.
  unfold all_nan. rewrite where_all. split; intros H x Hx; specialize (H x Hx).
  - by destruct x.
  - by subst x.
Qed.

(** X10. The warning about an axis is printed exactly when every coordinate
    of the axis is zero or missing, an empty table included: the one about
    X for the X coordinates, the one about Y for the Y coordinates, the one
    about X first; the check prints nothing else. *)
Theorem degenerate_iff (X Y : list float) :
  (∀ C, degenerate C = true ↔
        ∀ c, c ∈ C → c = NaN ∨ ∃ q, c = Fin q ∧ (q == 0)%Q) ∧
  (Print warn_X ∈ check_coordinates X Y ↔
   ∀ c, c ∈ X → c = NaN ∨ ∃ q, c = Fin q ∧ (q == 0)%Q) ∧
  (Print warn_Y ∈ check_coordinates X Y ↔
   ∀ c, c ∈ Y → c = NaN ∨ ∃ q, c = Fin q ∧ (q == 0)%Q) ∧
  (∀ ev, ev ∈ check_coordinates X Y → ev = Print warn_X ∨ ev = Print warn_Y) ∧
  (∃ n m, (n ≤ 1)%nat ∧ (m ≤ 1)%nat ∧
          check_coordinates X Y
            = replicate n (Print warn_X) ++ replicate m (Print warn_Y)).
Proof.
  assert (Hdeg : ∀ C, degenerate C = true ↔
                      ∀ c, c ∈ C → c = NaN ∨ ∃ q, c = Fin q ∧ (q == 0)%Q).
  { intros C. unfold degenerate. rewrite where_all.
    split; intros H c Hc; specialize (H c Hc).
    - destruct c as [|q]; [by left |]. right. exists q. split; [done |].
      simpl in H. rewrite orb_false_r in H. by apply Qeq_bool_iff.
    - destruct H as [-> | (q & -> & Hq)]; [done |].
      simpl. rewrite orb_false_r. by apply Qeq_bool_iff. }
  assert (Hne : Print warn_X ≠ Print warn_Y).
  { by intros [= H]. }
  split; [exact Hdeg |].
  rewrite <- (Hdeg X), <- (Hdeg Y). unfold check_coordinates.
  destruct (degenerate X), (degenerate Y); cbn [app].
  - split; [set_solver |]. split; [set_solver |]. split; [set_solver |].
    exists 1%nat, 1%nat. split; [lia |]. split; [lia | done].
  - split; [set_solver |]. split.
    { split; [| done]. intros H. apply list_elem_of_singleton in H. congruence. }
    split; [set_solver |].
    exists 1%nat, 0%nat. split; [lia |]. split; [lia | done].
  - split.
    { split; [| done]. intros H. apply list_elem_of_singleton in H. congruence. }
    split; [set_solver |]. split; [set_solver |].
    exists 0%nat, 1%nat. split; [lia |]. split; [lia | done].
  - split; [set_solver |]. split; [set_solver |]. split; [set_solver |].
    exists 0%nat, 0%nat. split; [lia |]. split; [lia | done].
Qed.

(* ================================================================== *)
(** * The slots of the range state *)



(* ================================================================== *)
(** * [plot_line] without prompts, and its guard *)

Section PlotLineQuiet.

Variable log10 : float → float.
Variable tricontour :
  list float → list float → list float → float → Q → result unit.
Variables (LEVEL : string) (FROM_PIPELINE : bool).
Variables (gandalf_Vel gandalf_Sigma gandalf_Flux gandalf_Ampl : arr2).
Variables (runname : string) (AoNThreshold : float) (line_idx : nat).
Variables (lineIdentifier : string * string).
Variables (X Y FLUX : list float) (pixelsize : Q).
Variables (outdir rootname : string) (iterate : nat).

Local Abbreviation pass I S vm cos stdin :=
  (plot_line log10 tricontour LEVEL FROM_PIPELINE gandalf_Vel gandalf_Sigma
     gandalf_Flux gandalf_Ampl I S runname AoNThreshold line_idx lineIdentifier
     vm cos X Y FLUX pixelsize outdir rootname iterate stdin).
Local Abbreviation val_of :=
  (select_val log10 gandalf_Vel gandalf_Sigma gandalf_Flux gandalf_Ampl
     line_idx iterate).
Local Abbreviation file := (pdf_name outdir rootname lineIdentifier iterate LEVEL).

(** X9. The guard of [plot_line]. When the plotted quantity has no valid
    value (an empty column included) the function returns normally: without
    prompts it does nothing at all, and in a calibration pass it has asked
    for the isophote offset only; no range is asked, nothing is rasterized,
    shown or saved, and the stored ranges are untouched. *)
Theorem plot_line_returns_on_all_missing (sai : bool)
    (vm : list (float * float)) (cos : float) (val : list float) :
  val_of = Ok val → (∀ x, x ∈ val → x = NaN) →
  (∀ stdin, pass false sai vm cos stdin = stop vm stdin (Ok ())) ∧
  (∀ inp0 rest off, typed_offset_gandalf inp0 = Ok off →
     pass true sai vm cos (inp0 :: rest)
       = emit [AskOffset (Fin (2 # 10))] (stop vm rest (Ok ()))).
Proof.
  intros Hval Hall. apply all_nan_iff in Hall.
  by apply (plot_line_skips_all_missing _ _ _ _ _ _ _ _ _ _ _ _ _ _ _ _ _ _ _ _ _
              _ val).
Qed.

(** X12. A pass of [plot_line] without prompts reads no line and leaves the
    stored ranges as they are; it either saves exactly one figure, under
    the name made of the line, the quantity and the level, and returns, or
    it produces nothing. *)
Theorem plot_line_without_prompts (sai : bool) (vm : list (float * float))
    (cos : float) (stdin : list string) :
  unread (pass false sai vm cos stdin) = stdin ∧
  vminmax_end (pass false sai vm cos stdin) = vm ∧
  (events (pass false sai vm cos stdin) = [] ∨
   ending (pass false sai vm cos stdin) = Ok () ∧
   ∃ p, events (pass false sai vm cos stdin) = [Savefig file [p]]).
Proof.
  destruct stdin; cbn [plot_line];
    (destruct val_of as [val|]; [| by auto]);
    (destruct (all_nan val); [by auto |]);
    (destruct (unprompted_range sai vm iterate val) as [[lo hi]|];
       cbn [mbind result_bind]; [| by auto]);
    (destruct (draw tricontour X Y FLUX val pixelsize lo hi (Fin (2 # 10)))
       as [p|]; [| by auto]);
    (split; [done |]; split; [done |]; right; split; [done |]; by eexists).
Qed.

End PlotLineQuiet.

Lemma plot_line_returns_on_all_missing_witness :
  select_val log10_unused missing3 V3 V3 V3 0 0 = Ok [NaN; NaN; NaN] ∧
  plot_line log10_unused tricontour_3 "BIN" false missing3 V3 V3 V3 true false
    "out/" (Fin 4) 0 ("Ha", "6562") zeros42 (Fin (2 # 10)) X3 Y3 FLUX3 1
    "out/maps/" "root" 0 ["0.5"; "5,25"; "y"]
  = emit [AskOffset (Fin (2 # 10))] (stop zeros42 ["5,25"; "y"] (Ok ())).
Proof.
  split; [reflexivity |].
  destruct (plot_line_returns_on_all_missing log10_unused tricontour_3 "BIN" false
              missing3 V3 V3 V3 "out/" (Fin 4) 0 ("Ha", "6562") X3 Y3 FLUX3 1
              "out/maps/" "root" 0 false zeros42 (Fin (2 # 10)) [NaN; NaN; NaN]
              eq_refl) as [_ H].
  - intros x Hx. repeat (apply elem_of_cons in Hx as [-> | Hx]; [done |]).
    by apply elem_of_nil in Hx.
  - exact (H "0.5" ["5,25"; "y"] (Fin (1 # 2)) eq_refl).
Defined.

(* ================================================================== *)
(** * Splitting a path *)

Section Split.

Variable sep : ascii.

Lemma split_on_no_sep (s : string) :
  sep ∉ chars s → split_on sep s = [s].
Proof.
  induction s as [|c t IH]; simpl; [done |].
  intros Hnot. apply not_elem_of_cons in Hnot as [Hc Ht].
  destruct (Ascii.eqb_spec c sep); [congruence |]. by rewrite IH.
Qed.

Lemma split_on_app_sep (s1 s2 : string) :
  split_on sep (s1 +:+ String sep s2) = split_on sep s1 ++ split_on sep s2.
Proof.
  induction s1 as [|c t IH]; simpl.
  - by rewrite Ascii.eqb_refl.
  - destruct (Ascii.eqb c sep); [by rewrite IH |].
    rewrite IH. destruct (split_on_cons sep t) as (f & fs & ->). done.
Qed.

End Split.

(** X19. The root name of a run. [plot_maps] takes the last but one
    component of the output directory and, of it, what precedes the first
    underscore: for a directory [dir/name_rest/] the root name is [name].
    An output directory without any slash has no last but one component:
    IndexError. *)
Theorem rootname_of_run_directory (dir name rest : string) :
  ("/"%char ∉ chars name) → ("_"%char ∉ chars name) → ("/"%char ∉ chars rest) →
  rootname_of (dir +:+ "/" +:+ name +:+ "_" +:+ rest +:+ "/") = Ok name ∧
  rootname_of (dir +:+ "/" +:+ name +:+ "/") = Ok name ∧
  rootname_of name = Raise (IndexError "list index out of range").
Proof.
  intros Hslash Hunder Hrest. unfold rootname_of.
  assert (Hnr : "/"%char ∉ chars (name +:+ "_" +:+ rest)).
  { clear Hunder. induction name as [|c t IH]; simpl in *.
    - apply not_elem_of_cons. split; [done | exact Hrest].
    - apply not_elem_of_cons in Hslash as [Hc Ht].
      apply not_elem_of_cons. split; [done | by apply IH]. }
  split; [| split].
  - change (dir +:+ "/" +:+ name +:+ "_" +:+ rest +:+ "/")
      with (dir +:+ String "/" (name +:+ String "_" (rest +:+ String "/" ""))).
    replace (name +:+ String "_" (rest +:+ String "/" ""))
      with ((name +:+ String "_" rest) +:+ String "/" "").
    2: { clear. induction name as [|c t IH]; [done |].
         change ((String c t +:+ String "_" rest) +:+ String "/" "")
           with (String c ((t +:+ String "_" rest) +:+ String "/" "")).
         by rewrite IH. }
    rewrite !split_on_app_sep.
    rewrite (split_on_no_sep "/" (name +:+ String "_" rest)) by exact Hnr.
    rewrite !rev_app_distr. simpl.
    rewrite split_on_app_sep, (split_on_no_sep "_" name) by done. done.
  - change (dir +:+ "/" +:+ name +:+ "/")
      with (dir +:+ String "/" (name +:+ String "/" "")).
    rewrite !split_on_app_sep, (split_on_no_sep "/" name) by done.
    rewrite !rev_app_distr. simpl.
    by rewrite (split_on_no_sep "_" name).
  - by rewrite (split_on_no_sep "/" name).
Qed.

Lemma rootname_of_run_directory_witness :
  ("/"%char ∉ chars "NGC1234") ∧ ("_"%char ∉ chars "NGC1234") ∧
  ("/"%char ∉ chars "run_1") ∧
  rootname_of "results/NGC1234_run_1/" = Ok "NGC1234".
Proof.
  assert (H1 : "/"%char ∉ chars "NGC1234").
  { intros H. repeat (apply elem_of_cons in H as [H | H]; [discriminate |]).
    by apply elem_of_nil in H. }
  assert (H2 : "_"%char ∉ chars "NGC1234").
  { intros H. repeat (apply elem_of_cons in H as [H | H]; [discriminate |]).
    by apply elem_of_nil in H. }
  assert (H3 : "/"%char ∉ chars "run_1").
  { intros H. repeat (apply elem_of_cons in H as [H | H]; [discriminate |]).
    by apply elem_of_nil in H. }
  split; [exact H1 |]. split; [exact H2 |]. split; [exact H3 |].
  exact (proj1 (rootname_of_run_directory "results" "NGC1234" "run_1" H1 H2 H3)).
Defined.

(* ================================================================== *)
(** * Worked examples of the rasterizer and of the bin expansion *)

(** Two samples at the same place: the image has 13 rows of 13 entries
    and the pixel holds the value of the second sample. *)
Lemma rasterize_last_write_wins_witness :
  (0 < 1)%Q ∧
  ∃ img, rasterize [Fin 0; Fin 0] [Fin 0; Fin 0] [Fin 1; Fin 2] 1 = Ok img ∧
         shaped 13 13 img ∧
         cell img 6 6 = Some (Fin 2) ∧ cell img 0 0 = Some NaN.
Proof.
  split; [done |].
  destruct (rasterize_last_write_wins [Fin 0; Fin 0] [Fin 0; Fin 0] [Fin 1; Fin 2] 1)
    as (img & xlo & xhi & ylo & yhi & Nx & Ny & Hx & Hx' & Hy & Hy' & HNx & HNy &
        _ & _ & Hrun & Hshape & Hlast & Hfree);
    [done | done | done | done | by repeat constructor | by repeat constructor |].
  vm_compute in Hx. injection Hx as <-. vm_compute in Hy. injection Hy as <-.
  vm_compute in Hx'. injection Hx' as <-. vm_compute in Hy'. injection Hy' as <-.
  change (Ok 13 = Ok (Z.of_nat Nx)) in HNx. change (Ok 13 = Ok (Z.of_nat Ny)) in HNy.
  assert (ENx : Nx = 13%nat) by (injection HNx as HNx; lia).
  assert (ENy : Ny = 13%nat) by (injection HNy as HNy; lia).
  subst Nx Ny.
  exists img. split; [exact Hrun |]. split; [exact Hshape |]. split.
  - apply (Hlast 1%nat (Fin 0) (Fin 0) (Fin 2) eq_refl eq_refl eq_refl).
    intros [|[|s']] x' y' Hlt Hx'' Hy''; [lia | lia | done].
  - apply (Hfree 0%nat 0%nat); [lia | lia |].
    intros [|[|s']] x' y' Hx'' Hy''; [| | done];
      injection Hx'' as <-; injection Hy'' as <-; vm_compute; discriminate.
Defined.

Lemma rasterize_refuses_witness :
  [Fin 0] !! 0%nat = Some (Fin 0) ∧ (0 == 0)%Q ∧
  rasterize [Fin 0] [Fin 0] [Fin 1] 0 = Raise OverflowError.
Proof.
  split; [reflexivity |]. split; [reflexivity |].
  apply (proj2 (rasterize_refuses [Fin 0] [Fin 0] [Fin 1] 0) 0%nat 0%Q);
    [reflexivity | done | reflexivity].
Defined.

(** Three samples in two bins; a per-bin array of one row is too short. *)
Lemma expand_needs_a_row_per_bin_witness :
  (∃ long, expand [1; 2] [1; 1; 2] [[Fin 10]; [Fin 20]] = Ok long ∧
           length long = 3%nat) ∧
  expand [1; 2] [1; 1; 2] [[Fin 10]] = Raise (IndexError "index out of bounds").
Proof.
  split.
  - apply (proj1 (expand_needs_a_row_per_bin [1; 2] [1; 1; 2] [[Fin 10]; [Fin 20]])).
    simpl. lia.
  - apply (proj2 (expand_needs_a_row_per_bin [1; 2] [1; 1; 2] [[Fin 10]])).
    simpl. lia.
Defined.

(** The bin ids 1 and -1 are one bin. *)
Lemma expand_constant_on_a_bin_witness :
  NoDup [1; 2] ∧
  expand [1; 2] [1; -1; 2] [[Fin 10]; [Fin 20]]
    = Ok [[Fin 10]; [Fin 10]; [Fin 20]] ∧
  [[Fin 10]; [Fin 10]; [Fin 20]] !! 0%nat
    = ([[Fin 10]; [Fin 10]; [Fin 20]] : arr2) !! 1%nat.
Proof.
  assert (Hnd : NoDup [1; 2]).
  { apply NoDup_cons. split; [| apply NoDup_singleton].
    intros H. apply list_elem_of_singleton in H. discriminate. }
  split; [exact Hnd |]. split; [reflexivity |].
  apply (expand_constant_on_a_bin [1; 2] [1; -1; 2] [[Fin 10]; [Fin 20]]
           [[Fin 10]; [Fin 10]; [Fin 20]] 0 1 1 (-1) Hnd);
    [simpl; lia | reflexivity | reflexivity | reflexivity | reflexivity].
Defined.

(* ================================================================== *)
(** * [plot_maps]: the pipeline run and the failures *)

Section QuietRuns.

Lemma without_console_stop (vm : list (float * float)) (stdin : list string)
    (e : result unit) :
  without_console (stop vm stdin e) vm stdin.
Proof. by repeat split. Qed.

Lemma without_console_emit (es : list event) (r : run)
    (vm : list (float * float)) (stdin : list string) :
  Forall (fun e => is_prompt e = false ∧ is_show e = false) es →
  without_console r vm stdin → without_console (emit es r) vm stdin.
Proof.
  intros Hes (Hun & Hvm & Hev). repeat split; [done | done |].
  cbn [events emit]. by apply Forall_app.
Qed.

Lemma without_console_and_then (r : run)
    (k : list (float * float) → list string → run)
    (vm : list (float * float)) (stdin : list string) :
  without_console r vm stdin → without_console (k vm stdin) vm stdin →
  without_console (and_then r k) vm stdin.
Proof.
  intros Hr Hk. unfold and_then. destruct (ending r); [| done].
  destruct Hr as (Hun & Hvm & Hev). rewrite Hun, Hvm.
  by apply without_console_emit.
Qed.

Lemma without_console_for_each {A : Type} (l : list A)
    (body : A → list (float * float) → list string → run)
    (vm : list (float * float)) (stdin : list string) :
  (∀ a, without_console (body a vm stdin) vm stdin) →
  without_console (for_each l body vm stdin) vm stdin.
Proof.
  intros Hbody. induction l as [|a l IH]; simpl.
  - apply without_console_stop.
  - by apply without_console_and_then.
Qed.

Lemma check_coordinates_quiet (X Y : list float) :
  Forall (fun e => is_prompt e = false ∧ is_show e = false)
         (check_coordinates X Y).
Proof.
  unfold check_coordinates.
  destruct (degenerate X), (degenerate Y); repeat constructor.
Qed.

End QuietRuns.

Section PlotMapsRuns.

Variable log10 : float → float.
Variable tricontour :
  list float → list float → list float → float → Q → result unit.
Variables (fs : filesys) (outdir LEVEL : string).
Variables (vm : list (float * float)) (T : float) (stdin : list string).

Local Abbreviation table_name rootname := (outdir +:+ rootname +:+ "_table.fits").
Local Abbreviation warnings t :=
  (check_coordinates (map (fun s => fneg (tab_X s)) (tab_rows t))
                     (map tab_Y (tab_rows t))).

Lemma plot_line_quiet (FROM_PIPELINE sai : bool)
    (gandalf_Vel gandalf_Sigma gandalf_Flux gandalf_Ampl : arr2)
    (runname : string) (line_idx : nat) (lineIdentifier : string * string)
    (cos : float) (X Y FLUX : list float) (pixelsize : Q)
    (dir rootname : string) (iterate : nat) :
  without_console
    (plot_line log10 tricontour LEVEL FROM_PIPELINE gandalf_Vel gandalf_Sigma
       gandalf_Flux gandalf_Ampl false sai runname T line_idx lineIdentifier
       vm cos X Y FLUX pixelsize dir rootname iterate stdin) vm stdin.
Proof.
  destruct stdin; cbn [plot_line];
    (destruct (select_val _ _ _ _ _ _ _) as [val|];
       [| by apply without_console_stop]);
    (destruct (all_nan val); [by apply without_console_stop |]);
    (destruct (unprompted_range sai vm iterate val) as [[lo hi]|];
       cbn [mbind result_bind]; [| by apply without_console_stop]);
    (destruct (draw _ _ _ _ _ _ _ _ _) as [p|];
       [| by apply without_console_stop]);
    (apply without_console_emit; [by repeat constructor |]);
    apply without_console_stop.
Qed.

(** X13. The pipeline run of [plot_maps]. Called from the pipeline without
    prompts, whatever the files hold, the function reads no line, leaves the
    stored ranges as they are, asks nothing and shows nothing on the screen;
    the line and the plot type handed over are not looked at. *)
Theorem plot_maps_pipeline_without_console (sai : bool)
    (line_idx : option nat) (plottype : option string) :
  without_console
    (plot_maps log10 tricontour fs outdir LEVEL true false vm sai T line_idx
       plottype stdin) vm stdin ∧
  plot_maps log10 tricontour fs outdir LEVEL true false vm sai T line_idx
    plottype stdin
  = plot_maps log10 tricontour fs outdir LEVEL true false vm sai T None None
      stdin.
Proof.
  split; [| reflexivity]. unfold plot_maps.
  destruct (rootname_of outdir) as [rootname|]; cbn [mbind result_bind];
    [| apply without_console_stop].
  destruct (fits_open _ _) as [t|]; cbn [mbind result_bind];
    [| apply without_console_stop].
  apply without_console_emit; [apply check_coordinates_quiet |].
  destruct (read_gandalf _ _ _ _ _) as [[f g]|]; [| apply without_console_stop].
  apply without_console_for_each. intros [li lid].
  apply without_console_for_each. intros it. apply plot_line_quiet.
Qed.

(** X15. How [plot_maps] fails before it plots. An output directory without
    a slash has no last but one component (IndexError, nothing printed); a
    missing table is a FileNotFoundError under the name the function built;
    a level other than SPAXEL and BIN is not refused up front: the table is
    read and the coordinates are checked, then the first use of the fit,
    which was never read, raises an UnboundLocalError; a missing result
    file is a FileNotFoundError after the check of the coordinates. *)
Theorem plot_maps_early_failures (FROM_PIPELINE INTERACTIVE sai : bool)
    (line_idx : option nat) (plottype : option string) :
  let r := plot_maps log10 tricontour fs outdir LEVEL FROM_PIPELINE INTERACTIVE
             vm sai T line_idx plottype stdin in
  (("/"%char ∉ chars outdir) →
     r = stop vm stdin (Raise (IndexError "list index out of range"))) ∧
  (∀ rootname, rootname_of outdir = Ok rootname →
     open_table fs (table_name rootname) = None →
     r = stop vm stdin (Raise (FileNotFoundError (table_name rootname)))) ∧
  (∀ rootname t, rootname_of outdir = Ok rootname →
     open_table fs (table_name rootname) = Some t →
     LEVEL ≠ "SPAXEL" → LEVEL ≠ "BIN" →
     r = emit (warnings t)
              (stop vm stdin (Raise (UnboundLocalError "gandalf_raw")))) ∧
  (∀ rootname t, rootname_of outdir = Ok rootname →
     open_table fs (table_name rootname) = Some t →
     LEVEL = "SPAXEL" ∨ LEVEL = "BIN" →
     open_gandalf fs (outdir +:+ rootname +:+ "_gandalf_" +:+ LEVEL +:+ ".fits")
       = None →
     r = emit (warnings t)
              (stop vm stdin
                 (Raise (FileNotFoundError
                           (outdir +:+ rootname +:+ "_gandalf_" +:+ LEVEL
                              +:+ ".fits"))))).
Proof.
  intros r. subst r. unfold plot_maps. split; [| split; [| split]].
  - intros Hslash. unfold rootname_of.
    by rewrite (split_on_no_sep "/" outdir Hslash).
  - intros rootname -> Hno. cbn [mbind result_bind]. unfold fits_open.
    by rewrite Hno.
  - intros rootname t -> Ht Hs Hb. cbn [mbind result_bind]. unfold fits_open.
    rewrite Ht. cbn [mbind result_bind]. unfold read_gandalf.
    destruct (String.eqb_spec LEVEL "SPAXEL"); [done |].
    destruct (String.eqb_spec LEVEL "BIN"); [done |]. done.
  - intros rootname t -> Ht Hlevel Hno. cbn [mbind result_bind].
    unfold fits_open at 1. rewrite Ht. cbn [mbind result_bind].
    unfold read_gandalf, fits_open.
    destruct Hlevel as [HL | HL]; rewrite HL in Hno |- *;
      cbn [String.eqb Ascii.eqb Bool.eqb andb];
      change (outdir +:+ rootname +:+ "_gandalf_" +:+ "SPAXEL" +:+ ".fits")
        with (outdir +:+ rootname +:+ "_gandalf_SPAXEL.fits") in *;
      change (outdir +:+ rootname +:+ "_gandalf_" +:+ "BIN" +:+ ".fits")
        with (outdir +:+ rootname +:+ "_gandalf_BIN.fits") in *;
      by rewrite Hno.
Qed.

(** X16. The errors of a call outside the pipeline, once the files are
    read. Without a line the conversion of the line index raises a
    TypeError; a line index past the list of lines raises an IndexError,
    whatever the plot type; with a line of the list and a plot type other
    than V, S, F and A the function prints its message and exits with
    status 1. None of the three asks, shows or saves anything. *)
Theorem plot_maps_usage_errors (INTERACTIVE sai : bool)
    (line_idx : option nat) (plottype : option string)
    (rootname : string) (t : table_fits) (f : gandalf_fits) (g : lines) :
  rootname_of outdir = Ok rootname →
  open_table fs (table_name rootname) = Some t →
  read_gandalf fs outdir rootname LEVEL (map tab_BIN_ID (tab_rows t)) = Ok (f, g) →
  let r := plot_maps log10 tricontour fs outdir LEVEL false INTERACTIVE vm sai T
             line_idx plottype stdin in
  (line_idx = None →
     r = emit (warnings t) (stop vm stdin (Raise (TypeError "int() argument")))) ∧
  (∀ k, line_idx = Some k → (length (emisetup f) ≤ k)%nat →
     r = emit (warnings t)
              (stop vm stdin (Raise (IndexError "list index out of range")))) ∧
  (∀ k, line_idx = Some k → (k < length (emisetup f))%nat →
     (∀ s, plottype = Some s → s ≠ "V" ∧ s ≠ "S" ∧ s ≠ "F" ∧ s ≠ "A") →
     r = emit (warnings t ++ [Print "No plottype set. Exit!"])
              (stop vm stdin (Raise (SystemExit 1)))).
Proof.
  intros Hroot Ht Hfit r. subst r. unfold plot_maps.
  rewrite Hroot. cbn [mbind result_bind]. unfold fits_open. rewrite Ht.
  cbn [mbind result_bind]. rewrite Hfit. cbv zeta. split; [| split].
  - by intros ->.
  - intros k -> Hk. by rewrite (lookup_ge_None_2 _ _ Hk).
  - intros k -> Hk Htype.
    destruct (lookup_lt_is_Some_2 _ _ Hk) as [lid ->].
    assert (Hnone : iterate_of plottype = None).
    { destruct plottype as [s|]; [| done]. simpl.
      destruct (Htype s eq_refl) as (HV & HS & HF & HA).
      destruct (String.eqb_spec s "V"); [done |].
      destruct (String.eqb_spec s "S"); [done |].
      destruct (String.eqb_spec s "F"); [done |].
      destruct (String.eqb_spec s "A"); done. }
    rewrite Hnone. unfold emit, stop. cbn. by rewrite <- app_assoc.
Qed.

End PlotMapsRuns.

Lemma plot_maps_early_failures_witness :
  ("/"%char ∉ chars "run_x") ∧
  plot_maps log10_unused tricontour_3 fs4 "run_x" "BIN" true false zeros42 false
    (Fin 4) None None []
  = stop zeros42 [] (Raise (IndexError "list index out of range")).
Proof.
  assert (H : "/"%char ∉ chars "run_x").
  { intros H. repeat (apply elem_of_cons in H as [H | H]; [discriminate |]).
    by apply elem_of_nil in H. }
  split; [exact H |].
  exact (proj1 (plot_maps_early_failures log10_unused tricontour_3 fs4 "run_x"
                  "BIN" zeros42 (Fin 4) [] true false false None None) H).
Defined.

(** The help of the command line names the plot types V, Sigma, A and F;
    the type Sigma is not one the function knows. *)
Lemma plot_maps_usage_errors_witness :
  rootname_of "out/run_x/" = Ok "run" ∧
  open_table fs4 "out/run_x/run_table.fits" = Some table4 ∧
  plot_maps log10_unused tricontour_3 fs4 "out/run_x/" "BIN" false true zeros42
    false (Fin 4) (Some 0%nat) (Some "Sigma") ["0.5"]
  = emit [Print "No plottype set. Exit!"]
         (stop zeros42 ["0.5"] (Raise (SystemExit 1))).
Proof.
  split; [reflexivity |]. split; [reflexivity |].
  destruct (read_gandalf fs4 "out/run_x/" "run" "BIN"
              (map tab_BIN_ID (tab_rows table4))) as [[f g]|e] eqn:Hfit;
    [| vm_compute in Hfit; discriminate].
  assert (Hf : f = gandalf4).
  { apply (f_equal (fun r => match r with Ok (f, _) => Some f | Raise _ => None end))
      in Hfit. vm_compute in Hfit. by injection Hfit as <-. }
  subst f.
  apply (proj2 (proj2 (plot_maps_usage_errors log10_unused tricontour_3 fs4
                         "out/run_x/" "BIN" zeros42 (Fin 4) ["0.5"] true false
                         (Some 0%nat) (Some "Sigma") "run" table4 gandalf4 g
                         eq_refl eq_refl Hfit)) 0%nat eq_refl).
  - simpl. lia.
  - intros s [= <-]. done.
Defined.

(* ================================================================== *)
(** * The names of the figures and the pixels of the samples *)

(** X17. One file per quantity: for one line and one level, the figures of
    the four quantities are saved under four different names. *)
Theorem pdf_name_distinct (outdir rootname : string)
    (lineIdentifier : string * string) (LEVEL : string) (i1 i2 : nat) :
  (i1 < 4)%nat → (i2 < 4)%nat →
  pdf_name outdir rootname lineIdentifier i1 LEVEL
    = pdf_name outdir rootname lineIdentifier i2 LEVEL →
  i1 = i2.
Proof.
  intros H1 H2 H. unfold pdf_name in H.
  do 6 apply String.app_inj in H.
  destruct i1 as [|[|[|[|i1]]]]; [| | | | lia];
    destruct i2 as [|[|[|[|i2]]]]; try lia; try done;
    cbv [nth labellist] in H; by inversion H.
Qed.

Lemma pdf_name_distinct_witness :
  (0 < 4)%nat ∧ (2 < 4)%nat ∧
  pdf_name "out/maps/" "run" ("Ha", "6562.8") 0 "BIN"
    ≠ pdf_name "out/maps/" "run" ("Ha", "6562.8") 2 "BIN".
Proof.
  split; [lia |]. split; [lia |]. intros H.
  assert (Hlt0 : (0 < 4)%nat) by lia. assert (Hlt2 : (2 < 4)%nat) by lia.
  pose proof (pdf_name_distinct "out/maps/" "run" ("Ha", "6562.8") "BIN" 0 2
                Hlt0 Hlt2 H) as E.
  discriminate E.
Defined.



(* ================================================================== *)
(** * The tick labels *)

Section TickLabels.

Lemma chars_app (a b : string) : chars (a +:+ b) = chars a ++ chars b.
Proof.
  induction a as [|c a IH]; [done |].
  change (String c a +:+ b) with (String c (a +:+ b)). simpl. by rewrite IH.
Qed.

Lemma replace_char_absent (old : ascii) (new s : string) :
  old ∉ chars new → old ∉ chars (replace_char old new s).
Proof.
  intros Hnew. induction s as [|c s IH]; simpl; [apply not_elem_of_nil |].
  destruct (Ascii.eqb_spec c old) as [-> | Hne].
  - rewrite chars_app. by apply not_elem_of_app.
  - simpl. apply not_elem_of_cons. split; [congruence | done].
Qed.

End TickLabels.

(** X22. The tick labels. The label of a finite tick value is made without
    any hyphen, every minus sign being replaced by the en dash of LaTeX; a
    value strictly between -1 and 1 is truncated to zero and labelled
    [$0$], without sign; a missing value raises a ValueError. The position
    of the tick is not looked at. *)
Theorem TicklabelFormatter_labels (x : float) (pos pos' : Z) :
  TicklabelFormatter x pos = TicklabelFormatter x pos' ∧
  (x = NaN →
     TicklabelFormatter x pos
       = Raise (ValueError "cannot convert float NaN to integer")) ∧
  (∀ q, x = Fin q →
     ∃ s, TicklabelFormatter x pos = Ok s ∧ ("-"%char ∉ chars s)) ∧
  (∀ q, x = Fin q → (-1 < q)%Q → (q < 1)%Q →
     TicklabelFormatter x pos = Ok "$0$").
Proof.
  split; [done |]. split; [by intros -> |]. split.
  - intros q ->. unfold TicklabelFormatter. cbn [py_int mbind result_bind].
    eexists. split; [done |]. apply replace_char_absent.
    intros H. repeat (apply elem_of_cons in H as [H | H]; [discriminate |]).
    by apply elem_of_nil in H.
  - intros q -> Hlo Hhi. unfold TicklabelFormatter. cbn [py_int mbind result_bind].
    assert (H0 : Z.quot (Qnum q) (Z.pos (Qden q)) = 0).
    { apply Z.quot_small_iff; [done |]. unfold Qlt in *. simpl in *. lia. }
    by rewrite H0.
Qed.

Lemma TicklabelFormatter_labels_witness :
  (-1 < - (1 # 2))%Q ∧ (- (1 # 2) < 1)%Q ∧
  TicklabelFormatter (Fin (- (1 # 2))) 0 = Ok "$0$" ∧
  TicklabelFormatter (Fin (-10)) 0
    = Ok ("$" +:+ String (ascii_of_nat 92) "textendash10$").
Proof.
  assert (Hlo : (-1 < - (1 # 2))%Q) by done.
  assert (Hhi : (- (1 # 2) < 1)%Q) by done.
  split; [exact Hlo |]. split; [exact Hhi |]. split; [| reflexivity].
  exact (proj2 (proj2 (proj2 (TicklabelFormatter_labels (Fin (- (1 # 2))) 0 0)))
           (- (1 # 2))%Q eq_refl Hlo Hhi).
Defined.

(* ================================================================== *)
(** * The entry points *)

Section TrailingSlash.

Lemma last_char_app_slash (s : string) : last_char (s +:+ "/") = Some "/"%char.
Proof.
  induction s as [|c s IH]; [done |].
  change (String c s +:+ "/") with (String c (s +:+ "/")).
  destruct s as [|c' s]; [done |].
  change (String c' s +:+ "/") with (String c' (s +:+ "/")) in *.
  exact IH.
Qed.

Lemma last_char_None (s : string) : last_char s = None → s = "".
Proof.
  induction s as [|c s IH]; [done |]. simpl.
  destruct s as [|c' s]; [done |]. intros H. by specialize (IH H).
Qed.

End TrailingSlash.

(** X23. The run directory of the command line. Both [main] functions make
    the run name end with a slash: a name that ends with one is kept, any
    other gets one appended, so that the step changes nothing when it is
    applied again; the empty name has no last character and raises an
    IndexError. *)
Theorem with_trailing_slash_ends_with_slash (runname : string) :
  (runname = "" →
     with_trailing_slash runname
       = Raise (IndexError "string index out of range")) ∧
  (runname ≠ "" →
     ∃ r, with_trailing_slash runname = Ok r ∧ last_char r = Some "/"%char ∧
          (last_char runname = Some "/"%char ∧ r = runname ∨
           last_char runname ≠ Some "/"%char ∧ r = runname +:+ "/") ∧
          with_trailing_slash r = Ok r).
Proof.
  split; [by intros -> |]. intros Hne. unfold with_trailing_slash.
  destruct (last_char runname) as [c|] eqn:Hlast.
  - destruct (Ascii.eqb_spec c "/") as [-> | Hc].
    + exists runname. rewrite Hlast. split; [done |]. split; [done |].
      split; [by left | done].
    + exists (runname +:+ "/"). rewrite last_char_app_slash.
      split; [done |]. split; [done |]. split; [| done].
      right. split; [congruence | done].
  - by apply last_char_None in Hlast.
Qed.

Lemma with_trailing_slash_ends_with_slash_witness :
  "results/NGC1234_run" ≠ "" ∧
  with_trailing_slash "results/NGC1234_run" = Ok "results/NGC1234_run/" ∧
  with_trailing_slash "results/NGC1234_run/" = Ok "results/NGC1234_run/".
Proof.
  assert (Hne : "results/NGC1234_run" ≠ "") by done.
  split; [exact Hne |]. split; [reflexivity |].
  destruct (proj2 (with_trailing_slash_ends_with_slash "results/NGC1234_run") Hne)
    as (r & Hr & _ & _ & Hagain).
  vm_compute in Hr. injection Hr as <-. exact Hagain.
Defined.

(** X24. The kinematics module run on its own. [main] of gistPlot_kin.py,
    whatever the flag, the run directory and the files, ends with an
    exception before it asks anything: no line of the console is read and
    no figure is shown or saved. *)
Theorem kin_main_never_plots
    (tricontour : list float → list float → list float → float → Q → result unit)
    (fs : filesys) (flag runname : string) (stdin : list string) :
  let r := kin_main tricontour fs flag runname stdin in
  (∃ e, ending r = Raise e) ∧
  Forall (fun ev => is_figure ev = false ∧ is_prompt ev = false) (events r) ∧
  unread r = stdin.
Proof.
  intros r. subst r. unfold kin_main.
  destruct (with_trailing_slash runname) as [dir|e].
  - unfold plotMaps.
    destruct (kin_prelude_raises fs flag dir) as [[e He] Hev].
    rewrite (plotMaps_in_stops tricontour fs flag dir _ _ _ _ _ _ _ He).
    split; [by eexists |]. split; [| done].
    cbn [events emit stop]. by rewrite app_nil_r.
  - split; [by eexists |]. split; [constructor | done].
Qed.

(* ================================================================== *)
(** * The kinematics renderer without prompts *)

Section KinQuiet.

Variable tricontour :
  list float → list float → list float → float → Q → result unit.

Lemma kin_panels_quiet (sai : bool) (d : kin_data) (off : float) (its : list nat) :
  ∀ (vm : list (float * float)) (stdin : list string) (ps : list panel) (r : run),
  kin_panels tricontour its false sai d off vm stdin = (ps, r) →
  events r = [] ∧ vminmax_end r = vm ∧ unread r = stdin ∧
  (ending r = Ok () →
   length ps = length its ∧ Forall (fun p => contour_offset p = off) ps).
Proof.
  induction its as [|it its IH]; intros vm stdin ps r Hrun; simpl in Hrun.
  - injection Hrun as <- <-. repeat split; constructor.
  - destruct (unprompted_range sai vm it (column it (kd_result d)))
      as [[lo hi]|]; cbn [mbind result_bind] in Hrun.
    + destruct (draw tricontour _ _ _ _ _ lo hi off) as [p|] eqn:Hdraw.
      * destruct (kin_panels tricontour its false sai d off vm stdin)
          as [ps' r'] eqn:Hrest.
        injection Hrun as <- <-.
        destruct (IH vm stdin ps' r' Hrest) as (Hev & Hvm & Hun & Hok).
        repeat split; try done; destruct (Hok H) as [Hlen Hall].
        -- simpl. by rewrite Hlen.
        -- constructor; [| done]. by apply draw_fields in Hdraw as (_ & _ & ->).
      * injection Hrun as <- <-. by repeat split.
    + injection Hrun as <- <-. by repeat split.
Qed.

Lemma read_kin_flag (g : namespace) (fs : filesys) (flag outdir rootname : string)
    (t : table_fits) (a : arr2) :
  read_kin g fs flag outdir rootname t = Ok a → flag = "KIN" ∨ flag = "SFH".
Proof.
  unfold read_kin.
  destruct (String.eqb_spec flag "KIN"); [by left |].
  destruct (String.eqb_spec flag "SFH"); [by right |]. done.
Qed.

Lemma kin_prelude_flag (g : namespace) (fs : filesys) (flag outdir : string)
    (d : kin_data) :
  (kin_prelude g fs flag outdir).2 = Ok d → flag = "KIN" ∨ flag = "SFH".
Proof.
  unfold kin_prelude. destruct (fits_open _ _) as [t|]; cbn [snd]; [| done].
  destruct (read_kin g fs flag outdir (kin_rootname outdir) t) eqn:E; [| done].
  intros _. by eapply read_kin_flag.
Qed.

Lemma kin_prelude_quiet (g : namespace) (fs : filesys) (flag outdir : string) :
  Forall (fun e => is_prompt e = false ∧ is_show e = false)
         (kin_prelude g fs flag outdir).1.
Proof.
  unfold kin_prelude. destruct (fits_open _ _); cbn [fst]; [| constructor].
  apply check_coordinates_quiet.
Qed.

Lemma plotMaps_in_unprompted (g : namespace) (fs : filesys) (flag outdir : string)
    (vm : list (float * float)) (cos : float) (sai : bool) (stdin : list string) :
  plotMaps_in tricontour g fs flag outdir false vm cos sai stdin
  = emit (kin_prelude g fs flag outdir).1
      match (kin_prelude g fs flag outdir).2 with
      | Raise e => stop vm stdin (Raise e)
      | Ok d =>
          match ending (kin_panels tricontour [0; 1; 2; 3]%nat false sai d cos
                          vm stdin).2 with
          | Raise _ => (kin_panels tricontour [0; 1; 2; 3]%nat false sai d cos
                          vm stdin).2
          | Ok _ =>
              emit (events (kin_panels tricontour [0; 1; 2; 3]%nat false sai d
                              cos vm stdin).2 ++
                    map (fun file =>
                           Savefig file
                             (kin_panels tricontour [0; 1; 2; 3]%nat false sai d
                                cos vm stdin).1)
                        (kin_pdf flag outdir (kd_rootname d)))
                   (stop (vminmax_end
                            (kin_panels tricontour [0; 1; 2; 3]%nat false sai d
                               cos vm stdin).2) stdin (Ok ()))
          end
      end.
Proof.
  destruct stdin; cbn [plotMaps_in];
    destruct (kin_prelude g fs flag outdir) as [w [d|e]]; cbn [fst snd];
    try done;
    by destruct (kin_panels tricontour [0; 1; 2; 3]%nat false sai d cos vm _).
Qed.

(** X25. [plotMaps] without prompts, in a module with any global names. The
    call reads no line, leaves the stored ranges as they are, asks nothing
    and shows nothing; when it returns, it has saved, after the warnings
    about the coordinates, exactly one figure of four panels, all drawn
    with the isophote offset handed over, under the name of the flag. *)
Theorem plotMaps_in_without_prompts (g : namespace) (fs : filesys)
    (flag outdir : string) (vm : list (float * float)) (cos : float)
    (sai : bool) (stdin : list string) :
  let r := plotMaps_in tricontour g fs flag outdir false vm cos sai stdin in
  without_console r vm stdin ∧
  (ending r = Ok () →
   ∃ d ps file,
     (kin_prelude g fs flag outdir).2 = Ok d ∧
     length ps = 4%nat ∧ Forall (fun p => contour_offset p = cos) ps ∧
     (flag = "KIN" ∧
      file = path_join (path_join outdir "maps/") (kd_rootname d) +:+ "_kin.pdf" ∨
      flag = "SFH" ∧
      file = path_join (path_join outdir "maps/") (kd_rootname d) +:+ "_sfh-kin.pdf") ∧
     events r = (kin_prelude g fs flag outdir).1 ++ [Savefig file ps]).
Proof.
  intros r. subst r. rewrite plotMaps_in_unprompted.
  pose proof (kin_prelude_quiet g fs flag outdir) as Hw.
  destruct (kin_prelude g fs flag outdir) as [w [d|e]] eqn:Hpre; cbn [fst snd] in *.
  2: { split; [by apply without_console_emit, without_console_stop | done]. }
  assert (Hflag : flag = "KIN" ∨ flag = "SFH").
  { apply (kin_prelude_flag g fs flag outdir d). by rewrite Hpre. }
  destruct (kin_panels tricontour [0; 1; 2; 3]%nat false sai d cos vm stdin)
    as [ps r'] eqn:Hp.
  apply kin_panels_quiet in Hp as (Hev & Hvm & Hun & Hok). cbn [fst snd].
  destruct (ending r') as [[]|e'] eqn:Hend.
  - destruct (Hok eq_refl) as [Hlen Hall]. rewrite Hev, Hvm. split.
    + apply without_console_emit; [done |].
      apply without_console_emit; [| apply without_console_stop].
      unfold kin_pdf.
      destruct (String.eqb flag "KIN"); [by repeat constructor |].
      destruct (String.eqb flag "SFH"); by repeat constructor.
    + intros _. unfold kin_pdf.
      destruct Hflag as [-> | ->]; cbn [String.eqb Ascii.eqb Bool.eqb andb map];
        eexists d, ps, _; (split; [done |]); (split; [done |]);
        (split; [done |]); (split; [by eauto |]);
        cbn [events emit stop app]; done.
  - split.
    + apply without_console_emit; [done |]. by repeat split; rewrite ?Hev.
    + cbn [ending emit]. by rewrite Hend.
Qed.

End KinQuiet.

(* ================================================================== *)
(** * Worked examples of the kinematics *)


(** A calibration pass over the four panels of three spaxels: four empty
    answers keep the stored ranges, and the fifth line is left for the save
    prompt. *)
Lemma kin_panels_reads_witness :
  ∃ ps r,
    kin_panels tricontour_3 [0; 1; 2; 3]%nat true false
      (mkKinData "run" X3 Y3 FLUX3 1
         [[Fin (-10); Fin 50; Fin 0; Fin 0]; [Fin 0; Fin 60; Fin 0; Fin 0];
          [Fin 10; Fin 70; Fin 0; Fin 0]])
      (Fin (2 # 10)) zeros42 [""; ""; ""; ""; "y"] = (ps, r) ∧
    ending r = Ok () ∧ unread r = ["y"].
Proof.
  assert (Hend : ending (kin_panels tricontour_3 [0; 1; 2; 3]%nat true false
                           (mkKinData "run" X3 Y3 FLUX3 1
                              [[Fin (-10); Fin 50; Fin 0; Fin 0];
                               [Fin 0; Fin 60; Fin 0; Fin 0];
                               [Fin 10; Fin 70; Fin 0; Fin 0]])
                           (Fin (2 # 10)) zeros42 [""; ""; ""; ""; "y"]).2
                 = Ok ()) by (vm_compute; reflexivity).
  revert Hend.
  destruct (kin_panels tricontour_3 [0; 1; 2; 3]%nat true false
              (mkKinData "run" X3 Y3 FLUX3 1
                 [[Fin (-10); Fin 50; Fin 0; Fin 0]; [Fin 0; Fin 60; Fin 0; Fin 0];
                  [Fin 10; Fin 70; Fin 0; Fin 0]])
              (Fin (2 # 10)) zeros42 [""; ""; ""; ""; "y"]) as [ps r] eqn:E.
  cbn [snd]. intros Hend.
  exists ps, r. split; [done |]. split; [exact Hend |].
  exact (proj1 (kin_panels_reads tricontour_3 false _ _ [0; 1; 2; 3]%nat zeros42
                  [""; ""; ""; ""; "y"] ps r E Hend)).
Defined.

(** Without prompts and outside the replay, the panels of the same three
    spaxels take the extremes of their columns. *)
Lemma kin_panels_ranges_witness :
  ∃ ps r,
    kin_panels tricontour_3 [0; 1]%nat false false
      (mkKinData "run" X3 Y3 FLUX3 1
         [[Fin (-10); Fin 50; Fin 0; Fin 0]; [Fin 0; Fin 60; Fin 0; Fin 0];
          [Fin 10; Fin 70; Fin 0; Fin 0]])
      (Fin (2 # 10)) zeros42 ["y"] = (ps, r) ∧
    ending r = Ok () ∧ unread r = ["y"] ∧
    map (fun p => (vmin p, vmax p)) ps = [(Fin (-10), Fin 10); (Fin 50, Fin 70)].
Proof.
  assert (Hend : ending (kin_panels tricontour_3 [0; 1]%nat false false
                           (mkKinData "run" X3 Y3 FLUX3 1
                              [[Fin (-10); Fin 50; Fin 0; Fin 0];
                               [Fin 0; Fin 60; Fin 0; Fin 0];
                               [Fin 10; Fin 70; Fin 0; Fin 0]])
                           (Fin (2 # 10)) zeros42 ["y"]).2
                 = Ok ()) by (vm_compute; reflexivity).
  revert Hend.
  destruct (kin_panels tricontour_3 [0; 1]%nat false false
              (mkKinData "run" X3 Y3 FLUX3 1
                 [[Fin (-10); Fin 50; Fin 0; Fin 0]; [Fin 0; Fin 60; Fin 0; Fin 0];
                  [Fin 10; Fin 70; Fin 0; Fin 0]])
              (Fin (2 # 10)) zeros42 ["y"]) as [ps r] eqn:E.
  cbn [snd]. intros Hend.
  exists ps, r. split; [done |]. split; [exact Hend |].
  destruct (kin_panels_ranges tricontour_3 false _ _ [0; 1]%nat zeros42 ["y"] ps r
              E Hend) as [Hun Hall].
  split; [exact Hun |].
  apply Forall2_cons_inv_l in Hall as (p0 & ps' & H0 & Hall & ->).
  apply Forall2_cons_inv_l in Hall as (p1 & ps'' & H1 & Hall & ->).
  apply Forall2_nil_inv_l in Hall as ->.
  change (Ok (Fin (-10), Fin 10) = Ok (vmin p0, vmax p0)) in H0.
  change (Ok (Fin 50, Fin 70) = Ok (vmin p1, vmax p1)) in H1.
  injection H0 as E0 F0. injection H1 as E1 F1. simpl.
  by rewrite <- E0, <- F0, <- E1, <- F1.
Defined.
